(** * Digitly-ai: header normalisation, record coercion, import and grid filter

    A shallow embedding of the import pipeline of the [FileUpload]
    component ([mapHeaders], [processData], [handleUpload], [parseFile])
    and of the grid filter of the [DataGrid] component
    ([filteredAndSortedData]), together with the part of the JavaScript
    runtime these functions rely on: strings, numbers, loosely typed
    values, objects with their [Object.prototype] fallback, [parseInt],
    [parseFloat], [String(...)] and the string and array methods used.

    Conventions of the embedding.
    - A JavaScript string is a [string]: a sequence of code units below 256
      (the Latin-1 range); case mapping and white space are those of
      ECMAScript restricted to that range.
    - A finite number is kept as an exact signed decimal [m * 10^e]; the
      rounding to IEEE doubles is not modelled.  Truthiness of a number
      only asks whether it is [NaN] or a zero.
    - Code that can raise in JavaScript (a method call on a value that
      lacks the method) returns a [result]. *)

From Stdlib Require Import String Ascii List ZArith NArith Bool Lia DecimalString.
From Stdlib Require Import DecimalN.
Import ListNotations.

Open Scope list_scope.
Open Scope string_scope.

(* ===================================================================== *)
(** ** The JavaScript runtime used by the components *)
(* ===================================================================== *)

Module JS.

(** *** Strings *)

(** White space and line terminators with a code unit below 256:
    TAB, LF, VT, FF, CR, SPACE and NO-BREAK SPACE.  This one set is what
    [String.prototype.trim], the regular expression class [\s] and the
    numeric parsers skip. *)
Definition isWhiteSpace (c : ascii) : bool :=
  let n := N_of_ascii c in
  (((9 <=? n) && (n <=? 13)) || (n =? 32) || (n =? 160))%N.

(** [toLowerCase] on one code unit: A-Z and the Latin-1 capitals
    (U+00C0-U+00DE without the multiplication sign U+00D7) move up by 32. *)
Definition toLowerChar (c : ascii) : ascii :=
  let n := N_of_ascii c in
  if (((65 <=? n) && (n <=? 90))
      || ((192 <=? n) && (n <=? 222) && negb (n =? 215)))%N
  then ascii_of_N (n + 32) else c.

Fixpoint toLowerCase (s : string) : string :=
  match s with
  | EmptyString => EmptyString
  | String c s' => String (toLowerChar c) (toLowerCase s')
  end.

Fixpoint trimStart (s : string) : string :=
  match s with
  | EmptyString => EmptyString
  | String c s' => if isWhiteSpace c then trimStart s' else s
  end.

Fixpoint trimEnd (s : string) : string :=
  match s with
  | EmptyString => EmptyString
  | String c s' =>
      match trimEnd s' with
      | EmptyString => if isWhiteSpace c then EmptyString else String c EmptyString
      | r => String c r
      end
  end.

(** [s.trim()] *)
Definition trim (s : string) : string := trimEnd (trimStart s).

(** [s.replace(/\s+/g, '')]: every maximal run of white space is deleted,
    that is, every white space code unit is. *)
Fixpoint removeWhiteSpace (s : string) : string :=
  match s with
  | EmptyString => EmptyString
  | String c s' =>
      if isWhiteSpace c then removeWhiteSpace s' else String c (removeWhiteSpace s')
  end.

Fixpoint startsWith (s t : string) {struct t} : bool :=
  match t, s with
  | EmptyString, _ => true
  | String _ _, EmptyString => false
  | String b t', String a s' => Ascii.eqb a b && startsWith s' t'
  end.

(** [s.includes(t)] *)
Fixpoint includes (s t : string) : bool :=
  startsWith s t ||
  match s with
  | EmptyString => false
  | String _ s' => includes s' t
  end.

Fixpoint endsWith (s t : string) : bool :=
  String.eqb s t ||
  match s with
  | EmptyString => false
  | String _ s' => endsWith s' t
  end.

(** [s.split(sep)] for a separator of one code unit. *)
Fixpoint split (sep : ascii) (s : string) : list string :=
  match s with
  | EmptyString => [EmptyString]
  | String c s' =>
      if Ascii.eqb c sep then EmptyString :: split sep s'
      else match split sep s' with
           | [] => [String c EmptyString]
           | piece :: pieces => String c piece :: pieces
           end
  end.

(** The code unit [c] occurs in [s]. *)
Fixpoint occurs (c : ascii) (s : string) : bool :=
  match s with
  | EmptyString => false
  | String a s' => Ascii.eqb a c || occurs c s'
  end.

(** [pieces.join(sep)] on strings. *)
Fixpoint join (sep : string) (pieces : list string) : string :=
  match pieces with
  | [] => EmptyString
  | [piece] => piece
  | piece :: rest => piece ++ sep ++ join sep rest
  end.

(** [s.slice(0, -1)] *)
Fixpoint sliceDropLast (s : string) : string :=
  match s with
  | EmptyString => EmptyString
  | String c EmptyString => EmptyString
  | String c s' => String c (sliceDropLast s')
  end.

(** Decimal digits of a natural number, as [String(n)] prints an index. *)
Definition decimal (n : N) : string := NilZero.string_of_uint (N.to_uint n).

(** *** Numbers *)

(** A number value: [NaN], an infinity, or the finite decimal
    [(-1)^negative * m * 10^e].  Both zeros are present: [Finite true 0 e]
    is [-0]. *)
Inductive number : Type :=
| NaN
| Infinity (negative : bool)
| Finite (negative : bool) (m : N) (e : Z).

Definition zero : number := Finite false 0 0.
Definition one : number := Finite false 1 0.

(** A number is falsy when it is [NaN], [+0] or [-0]. *)
Definition numberIsFalsy (x : number) : bool :=
  match x with
  | NaN => true
  | Infinity _ => false
  | Finite _ m _ => (m =? 0)%N
  end.

Fixpoint dropTrailingZeros (ds : string) : string :=
  match ds with
  | EmptyString => EmptyString
  | String c r =>
      match dropTrailingZeros r with
      | EmptyString => if Ascii.eqb c "0" then EmptyString else String c EmptyString
      | r' => String c r'
      end
  end.

Fixpoint zeros (n : nat) : string :=
  match n with
  | O => EmptyString
  | S n' => String "0" (zeros n')
  end.

(** [Number::toString] in radix 10, on the digits [ds] of the decimal
    without its trailing zeros ([k] of them) and the position [n] of the
    decimal point. *)
Definition numberToString (x : number) : string :=
  match x with
  | NaN => "NaN"
  | Infinity negative => (if negative then "-" else "") ++ "Infinity"
  | Finite negative m e =>
      if (m =? 0)%N then "0"
      else
        let all := decimal m in
        let ds := dropTrailingZeros all in
        let k := Z.of_nat (String.length ds) in
        let n := (Z.of_nat (String.length all) + e)%Z in
        let body :=
          if ((k <=? n) && (n <=? 21))%Z then ds ++ zeros (Z.to_nat (n - k))
          else if ((0 <? n) && (n <=? 21))%Z then
            substring 0 (Z.to_nat n) ds ++ "." ++ substring (Z.to_nat n) (Z.to_nat (k - n)) ds
          else if ((-6 <? n) && (n <=? 0))%Z then
            "0." ++ zeros (Z.to_nat (- n)) ++ ds
          else
            let ex := (n - 1)%Z in
            let exs := (if (ex <? 0)%Z then "-" else "+") ++ decimal (Z.abs_N ex) in
            match ds with
            | EmptyString => EmptyString
            | String d EmptyString => String d EmptyString ++ "e" ++ exs
            | String d rest => String d ("." ++ rest) ++ "e" ++ exs
            end
        in (if negative then "-" else "") ++ body
  end.

(** The value of a digit in the given radix, if it is one. *)
Definition digitValue (radix : N) (c : ascii) : option N :=
  let n := N_of_ascii c in
  let d :=
    if ((48 <=? n) && (n <=? 57))%N then Some (n - 48)%N
    else if ((97 <=? n) && (n <=? 122))%N then Some (n - 87)%N
    else if ((65 <=? n) && (n <=? 90))%N then Some (n - 55)%N
    else None in
  match d with
  | Some v => if (v <? radix)%N then Some v else None
  | None => None
  end.

(** The longest prefix of digits of [s], read in [radix]: the number of
    digits, their value, and the rest of the string. *)
Fixpoint readDigits (radix : N) (s : string) (count : nat) (acc : N)
  : nat * N * string :=
  match s with
  | EmptyString => (count, acc, s)
  | String c s' =>
      match digitValue radix c with
      | Some d => readDigits radix s' (S count) (radix * acc + d)%N
      | None => (count, acc, s)
      end
  end.

(** A leading sign is removed and remembered. *)
Definition readSign (s : string) : bool * string :=
  match s with
  | String "-" r => (true, r)
  | String "+" r => (false, r)
  | _ => (false, s)
  end.

(** [parseInt(s)] on a string, no radix given: leading white space is
    skipped, a sign is read, a [0x]/[0X] prefix selects radix 16, and the
    longest run of digits is the value; no digit gives [NaN]. *)
Definition parseIntString (inputString : string) : number :=
  let '(negative, s1) := readSign (trimStart inputString) in
  let '(radix, s2) :=
    match s1 with
    | String "0" (String "x" r) => (16%N, r)
    | String "0" (String "X" r) => (16%N, r)
    | _ => (10%N, s1)
    end in
  match readDigits radix s2 0 0 with
  | (O, _, _) => NaN
  | (_, n, _) => Finite negative n 0
  end.

(** [parseFloat(s)] on a string: the longest prefix that is a
    [StrDecimalLiteral]: sign, then [Infinity] or digits with an optional
    fraction and an optional complete exponent part. *)
Definition parseFloatString (inputString : string) : number :=
  let '(negative, s1) := readSign (trimStart inputString) in
  if startsWith s1 "Infinity" then Infinity negative
  else
    let '(ni, vi, r1) := readDigits 10 s1 0 0 in
    let '(nf, vf, r2) :=
      match r1 with
      | String "." r => readDigits 10 r 0 vi
      | _ => (O, vi, r1)
      end in
    match ni, nf with
    | O, O => NaN
    | _, _ =>
        let ex :=
          match r2 with
          | String c r =>
              if Ascii.eqb c "e" || Ascii.eqb c "E" then
                let '(eneg, r3) := readSign r in
                match readDigits 10 r3 0 0 with
                | (O, _, _) => 0%Z
                | (_, ve, _) => if eneg then (- Z.of_N ve)%Z else Z.of_N ve
                end
              else 0%Z
          | EmptyString => 0%Z
          end in
        Finite negative vf (ex - Z.of_nat nf)
    end.

(** *** Values *)

Set Warnings "-register-all".

(** The values a parsed row can hold and the coercer can produce.
    [VObject] is a plain object whose content is not looked at;
    [VFunction name] is a built-in function object. *)
Inductive value : Type :=
| VUndefined
| VNull
| VBoolean (b : bool)
| VNumber (n : number)
| VString (s : string)
| VArray (items : list value)
| VObject
| VFunction (name : string).

(** [String(v)].  An array prints its elements separated by commas, with
    [undefined] and [null] elements printed as nothing. *)
Fixpoint toString (v : value) : string :=
  match v with
  | VUndefined => "undefined"
  | VNull => "null"
  | VBoolean b => if b then "true" else "false"
  | VNumber n => numberToString n
  | VString s => s
  | VArray items =>
      join ","
        (map (fun x => match x with
                       | VUndefined | VNull => EmptyString
                       | _ => toString x
                       end) items)
  | VObject => "[object Object]"
  | VFunction name => "function " ++ name ++ "() { [native code] }"
  end.

(** Truthiness. *)
Definition toBoolean (v : value) : bool :=
  match v with
  | VUndefined | VNull => false
  | VBoolean b => b
  | VNumber n => negb (numberIsFalsy n)
  | VString s => negb (String.eqb s EmptyString)
  | VArray _ | VObject | VFunction _ => true
  end.

(** [a || b] *)
Definition orElse (a b : value) : value := if toBoolean a then a else b.

(** [typeof v === 'string'] *)
Definition isString (v : value) : bool :=
  match v with
  | VString _ => true
  | _ => false
  end.

(** [parseInt(v)] and [parseFloat(v)]: the argument is converted with
    [String] first. *)
Definition parseInt (v : value) : number := parseIntString (toString v).
Definition parseFloat (v : value) : number := parseFloatString (toString v).

(** *** Conversion to number and comparison *)

Fixpoint dropChars (n : nat) (s : string) : string :=
  match n, s with
  | O, _ => s
  | S n', String _ s' => dropChars n' s'
  | S _, EmptyString => EmptyString
  end.

(** The longest prefix of [s] that is a [StrDecimalLiteral], with its
    value and the rest of [s]; [None] when no prefix is one. *)
Definition readDecimalLiteral (s : string) : option (number * string) :=
  let '(negative, s1) := readSign s in
  if startsWith s1 "Infinity" then Some (Infinity negative, dropChars 8 s1)
  else
    let '(ni, vi, r1) := readDigits 10 s1 0 0 in
    let '(nf, vf, r2) :=
      match r1 with
      | String "." r => readDigits 10 r 0 vi
      | _ => (O, vi, r1)
      end in
    match ni, nf with
    | O, O => None
    | _, _ =>
        let '(ex, r3) :=
          match r2 with
          | String c r =>
              if Ascii.eqb c "e" || Ascii.eqb c "E" then
                let '(eneg, r') := readSign r in
                match readDigits 10 r' 0 0 with
                | (O, _, _) => (0%Z, r2)
                | (_, ve, rest) => (if eneg then (- Z.of_N ve)%Z else Z.of_N ve, rest)
                end
              else (0%Z, r2)
          | EmptyString => (0%Z, r2)
          end in
        Some (Finite negative vf (ex - Z.of_nat nf), r3)
    end.

(** A string that is digits of the radix throughout, and not empty. *)
Definition wholeDigits (radix : N) (s : string) : number :=
  match readDigits radix s 0 0 with
  | (S _, n, EmptyString) => Finite false n 0
  | _ => NaN
  end.

(** [StringToNumber]: white space is trimmed on both sides; the empty
    string is 0; otherwise the whole string must be a decimal literal or
    a binary, octal or hexadecimal integer literal, else the result is
    [NaN]. *)
Definition stringToNumber (s : string) : number :=
  let t := trim s in
  let decimal_literal :=
    match readDecimalLiteral t with
    | Some (n, EmptyString) => n
    | _ => NaN
    end in
  match t with
  | EmptyString => zero
  | String "0" (String c r) =>
      if Ascii.eqb c "x" || Ascii.eqb c "X" then wholeDigits 16 r
      else if Ascii.eqb c "o" || Ascii.eqb c "O" then wholeDigits 8 r
      else if Ascii.eqb c "b" || Ascii.eqb c "B" then wholeDigits 2 r
      else decimal_literal
  | _ => decimal_literal
  end.

(** [ToNumber]: an array or other object is first converted to its
    string. *)
Definition toNumber (v : value) : number :=
  match v with
  | VUndefined => NaN
  | VNull => zero
  | VBoolean b => if b then one else zero
  | VNumber n => n
  | VString s => stringToNumber s
  | VArray _ | VObject | VFunction _ => stringToNumber (toString v)
  end.

(** A binary64 value: [NaN], an infinity, or [(-1)^negative * m * 2^e]. *)
Inductive double : Type :=
| DNaN
| DInfinity (negative : bool)
| DFinite (negative : bool) (m : N) (e : Z).

(** The quotient [num / den] rounded to the nearest integer, ties to the
    even one. *)
Definition roundHalfEven (num den : N) : N :=
  let q := (num / den)%N in
  let r := (num mod den)%N in
  if (2 * r <? den)%N then q
  else if (den <? 2 * r)%N then (q + 1)%N
  else if N.even q then q else (q + 1)%N.

(** The binary64 value nearest to a number, ties to even: what the
    decimal denotes when it is compared. *)
Definition toDouble (x : number) : double :=
  match x with
  | NaN => DNaN
  | Infinity negative => DInfinity negative
  | Finite negative m e =>
      if (m =? 0)%N then DFinite negative 0 0
      else
        let num := if (0 <=? e)%Z then (m * 10 ^ Z.to_N e)%N else m in
        let den := if (0 <=? e)%Z then 1%N else (10 ^ Z.to_N (- e))%N in
        let E0 := (Z.of_N (N.log2 num) - Z.of_N (N.log2 den))%Z in
        let below :=
          (num * 2 ^ Z.to_N (Z.max 0 (- E0)) <? den * 2 ^ Z.to_N (Z.max 0 E0))%N in
        let E := if below then (E0 - 1)%Z else E0 in
        let ulp := if (E <? -1022)%Z then (-1074)%Z else (E - 52)%Z in
        let mant :=
          roundHalfEven (num * 2 ^ Z.to_N (Z.max 0 (- ulp)))
                        (den * 2 ^ Z.to_N (Z.max 0 ulp)) in
        if (1023 <? E)%Z || ((ulp =? 971)%Z && (mant =? 2 ^ 53)%N)
        then DInfinity negative
        else DFinite negative mant ulp
  end.

Definition signed (negative : bool) (m : N) : Z :=
  if negative then (- Z.of_N m)%Z else Z.of_N m.

(** [a < b] on binary64 values; false when either is [NaN]. *)
Definition doubleLt (a b : double) : bool :=
  match a, b with
  | DNaN, _ | _, DNaN => false
  | DInfinity na, DInfinity nb => na && negb nb
  | DInfinity na, DFinite _ _ _ => na
  | DFinite _ _ _, DInfinity nb => negb nb
  | DFinite na ma ea, DFinite nb mb eb =>
      let emin := Z.min ea eb in
      (signed na ma * 2 ^ (ea - emin) <? signed nb mb * 2 ^ (eb - emin))%Z
  end.

Definition isNaN (x : number) : bool :=
  match x with
  | NaN => true
  | _ => false
  end.

(** [a > b] and [a >= b] on values, the right one a number: both sides
    are converted with [ToNumber]; a [NaN] on either side gives false. *)
Definition greaterThan (a : value) (b : number) : bool :=
  doubleLt (toDouble b) (toDouble (toNumber a)).

Definition greaterOrEqual (a : value) (b : number) : bool :=
  negb (isNaN (toNumber a)) && negb (isNaN b)
  && negb (doubleLt (toDouble (toNumber a)) (toDouble b)).

(** A value in which no plain object occurs: a primitive, a built-in
    function, or an array of such values.  [String] and [ToNumber] on
    such a value call nothing that the data could have replaced (an
    object can carry a [toString] of its own, which the conversions
    would call), so they cannot raise and are the ones given above. *)
Fixpoint hasNoObject (v : value) : bool :=
  match v with
  | VArray items => forallb hasNoObject items
  | VObject => false
  | _ => true
  end.

(** *** Exceptions *)

(** What a [throw] or a rejected promise carries: an [Error] object with
    its message, or some other value. *)
Inductive exn : Type :=
| ErrorObject (message : string)
| OtherThrown.

Inductive result (A : Type) : Type :=
| Ok (a : A)
| Throw (e : exn).
Arguments Ok {A} a.
Arguments Throw {A} e.

Definition bind {A B : Type} (r : result A) (k : A -> result B) : result B :=
  match r with
  | Ok a => k a
  | Throw e => Throw e
  end.

Notation "x <- r ;; k" := (bind r (fun x => k))
  (at level 61, r at next level, right associativity).

Fixpoint mapM {A B : Type} (f : A -> result B) (l : list A) : result (list B) :=
  match l with
  | [] => Ok []
  | a :: l' => b <- f a ;; bs <- mapM f l' ;; Ok (b :: bs)
  end.

(** [l.map((x, index) => f x index)], with a callback that can raise. *)
Fixpoint mapWithIndex {A B : Type} (f : A -> nat -> result B) (index : nat)
  (l : list A) : result (list B) :=
  match l with
  | [] => Ok []
  | a :: l' => b <- f a index ;; bs <- mapWithIndex f (S index) l' ;; Ok (b :: bs)
  end.

(** Method calls on a loosely typed value: the call raises a [TypeError]
    when the receiver has no such method. *)
Definition callSplit (receiver : value) (sep : ascii) : result value :=
  match receiver with
  | VString s => Ok (VArray (map VString (split sep s)))
  | VUndefined | VNull => Throw (ErrorObject "Cannot read properties of undefined or null")
  | _ => Throw (ErrorObject "split is not a function")
  end.

Definition callTrim (receiver : value) : result value :=
  match receiver with
  | VString s => Ok (VString (trim s))
  | VUndefined | VNull => Throw (ErrorObject "Cannot read properties of undefined or null")
  | _ => Throw (ErrorObject "trim is not a function")
  end.

Definition callMap (receiver : value) (f : value -> result value) : result value :=
  match receiver with
  | VArray items => items' <- mapM f items ;; Ok (VArray items')
  | VUndefined | VNull => Throw (ErrorObject "Cannot read properties of undefined or null")
  | _ => Throw (ErrorObject "map is not a function")
  end.

(** The number of parameters of the functions [Object.prototype]
    provides. *)
Definition arity (name : string) : N :=
  if existsb (String.eqb name) ["__defineGetter__"; "__defineSetter__"] then 2
  else if existsb (String.eqb name)
            ["Object"; "hasOwnProperty"; "isPrototypeOf"; "propertyIsEnumerable";
             "__lookupGetter__"; "__lookupSetter__"] then 1
  else 0.

(** [v.length]: reading a property of [undefined] or [null] raises; a
    string and an array have their length, a function its number of
    parameters; a number, a boolean and a plain object (taken to have no
    [length] of its own) give [undefined]. *)
Definition readLength (v : value) : result value :=
  match v with
  | VUndefined | VNull => Throw (ErrorObject "Cannot read properties of undefined or null")
  | VString s => Ok (VNumber (Finite false (N.of_nat (String.length s)) 0))
  | VArray items => Ok (VNumber (Finite false (N.of_nat (List.length items)) 0))
  | VFunction name => Ok (VNumber (Finite false (arity name) 0))
  | VBoolean _ | VNumber _ | VObject => Ok VUndefined
  end.

(** [l.filter(x => p x)], with a callback that can raise. *)
Fixpoint filterM {A : Type} (p : A -> result bool) (l : list A) : result (list A) :=
  match l with
  | [] => Ok []
  | a :: l' =>
      keep <- p a ;; rest <- filterM p l' ;; Ok (if keep then a :: rest else rest)
  end.

(** *** Objects *)

(** The own properties of a plain object, in the order [Object.keys]
    lists them.  Every object here has [Object.prototype] as prototype. *)
Definition object : Type := list (string * value).

Definition keys (o : object) : list string := map fst o.

Fixpoint lookupOwn (o : object) (k : string) : option value :=
  match o with
  | [] => None
  | (k', v) :: o' => if String.eqb k' k then Some v else lookupOwn o' k
  end.

(** What a property read finds on [Object.prototype] when the object has
    no own property of that name: the built-in methods, the constructor
    [Object], and for [__proto__] the prototype object itself. *)
Definition objectPrototypeNames : list string :=
  [ "constructor"; "hasOwnProperty"; "isPrototypeOf"; "propertyIsEnumerable";
    "toLocaleString"; "toString"; "valueOf";
    "__defineGetter__"; "__defineSetter__"; "__lookupGetter__"; "__lookupSetter__";
    "__proto__" ].

Definition objectPrototype (k : string) : option value :=
  if String.eqb k "constructor" then Some (VFunction "Object")
  else if String.eqb k "__proto__" then Some VObject
  else if existsb (String.eqb k) objectPrototypeNames then Some (VFunction k)
  else None.

(** [o[k]]: own property first, then the prototype, else [undefined]. *)
Definition getProp (o : object) (k : string) : value :=
  match lookupOwn o k with
  | Some v => v
  | None =>
      match objectPrototype k with
      | Some v => v
      | None => VUndefined
      end
  end.

(** [Object.values(o)] *)
Definition values (o : object) : list value := map (getProp o) (keys o).

(** A row none of whose own values holds a plain object. *)
Definition rowHasNoObject (o : object) : bool :=
  forallb (fun entry => hasNoObject (snd entry)) o.

(** A key is an array index when it is the canonical decimal form of an
    integer below [2^32 - 1]; such keys are listed first, in ascending
    order, before the other keys in insertion order. *)
Definition arrayIndex (k : string) : option N :=
  match readDigits 10 k 0 0 with
  | (S _, n, EmptyString) =>
      if String.eqb (decimal n) k && (n <? 4294967295)%N then Some n else None
  | _ => None
  end.

Fixpoint replaceOwn (o : object) (k : string) (v : value) : object :=
  match o with
  | [] => []
  | (k', v') :: o' =>
      if String.eqb k' k then (k, v) :: o' else (k', v') :: replaceOwn o' k v
  end.

Fixpoint insertIndexed (i : N) (k : string) (v : value) (o : object) : object :=
  match o with
  | [] => [(k, v)]
  | (k', v') :: o' =>
      match arrayIndex k' with
      | Some j => if (j <? i)%N then (k', v') :: insertIndexed i k v o' else (k, v) :: o
      | None => (k, v) :: o
      end
  end.

(** [o[k] = v] on a plain object, for a key other than [__proto__]: an
    existing own property keeps its place, a new one is added. *)
Definition setProp (o : object) (k : string) (v : value) : object :=
  match lookupOwn o k with
  | Some _ => replaceOwn o k v
  | None =>
      match arrayIndex k with
      | Some i => insertIndexed i k v o
      | None => (o ++ [(k, v)])%list
      end
  end.

(** [{...o}]: each own key in turn is read and defined on a new object. *)
Definition spread (o : object) : object :=
  fold_left (fun copy k => setProp copy k (getProp o k)) (keys o) [].

End JS.

(* ===================================================================== *)
(** ** The upload component: [mapHeaders], [processData], [handleUpload] *)
(* ===================================================================== *)

Module FileUpload.
Import JS.

(** ['clients' | 'workers' | 'tasks'] *)
Inductive entityType : Type := clients | workers | tasks.

Definition entityName (t : entityType) : string :=
  match t with
  | clients => "clients"
  | workers => "workers"
  | tasks => "tasks"
  end.

(** *** Header normaliser *)

(** The table [headerMappings]: per entity kind, the human readable label
    and the canonical field, in declaration order, which is the order
    [Object.entries] lists them in. *)
Definition headerMappings (t : entityType) : list (string * string) :=
  match t with
  | clients =>
      [ ("Client ID", "ClientID");
        ("Client Name", "ClientName");
        ("Client Group", "ClientGroup");
        ("Priority Level", "PriorityLevel");
        ("Requested Task IDs", "RequestedTaskIDs");
        ("Preferred Phases", "PreferredPhases");
        ("Max Budget", "MaxBudget");
        ("Attributes JSON", "AttributesJSON") ]
  | workers =>
      [ ("Worker ID", "WorkerID");
        ("Worker Name", "WorkerName");
        ("Worker Group", "WorkerGroup");
        ("Skills", "Skills");
        ("Available Slots", "AvailableSlots");
        ("Max Load Per Phase", "MaxLoadPerPhase");
        ("Hourly Rate", "HourlyRate");
        ("Attributes JSON", "AttributesJSON") ]
  | tasks =>
      [ ("Task ID", "TaskID");
        ("Task Name", "TaskName");
        ("Duration", "Duration");
        ("Required Skills", "RequiredSkills");
        ("Preferred Phases", "PreferredPhases");
        ("Priority Level", "PriorityLevel");
        ("Dependencies", "Dependencies");
        ("Max Concurrent", "MaxConcurrent");
        ("Attributes JSON", "AttributesJSON") ]
  end.

(** [originalHeader.trim().toLowerCase()] *)
Definition normalizeHeader (originalHeader : string) : string :=
  toLowerCase (trim originalHeader).

(** [mappedHeader.toLowerCase().replace(/\s+/g, '')] *)
Definition normalizeLabel (mappedHeader : string) : string :=
  removeWhiteSpace (toLowerCase mappedHeader).

(** The [for ... of Object.entries(currentMapping)] loop with its [break]:
    the target of the first entry whose label the header includes. *)
Fixpoint findMatch (normalizedHeader : string) (entries : list (string * string))
  : option string :=
  match entries with
  | [] => None
  | (mappedHeader, targetField) :: rest =>
      if includes normalizedHeader (normalizeLabel mappedHeader)
      then Some targetField
      else findMatch normalizedHeader rest
  end.

(** The body of [Object.keys(firstRow).forEach(originalHeader => ...)],
    acting on the object [headerMapping]. *)
Definition mapOneHeader (t : entityType) (headerMapping : object)
  (originalHeader : string) : object :=
  let normalizedHeader := normalizeHeader originalHeader in
  let headerMapping1 :=
    match findMatch normalizedHeader (headerMappings t) with
    | Some targetField => setProp headerMapping originalHeader (VString targetField)
    | None => headerMapping
    end in
  if negb (toBoolean (getProp headerMapping1 originalHeader))
  then setProp headerMapping1 originalHeader (VString originalHeader)
  else headerMapping1.

Definition buildHeaderMapping (t : entityType) (firstRow : object) : object :=
  fold_left (mapOneHeader t) (keys firstRow) [].

(** The body of [Object.keys(row).forEach(key => ...)]: a key whose
    mapping is truthy is copied under the mapped name. *)
Definition copyColumn (headerMapping row transformedRow : object) (key : string)
  : object :=
  let newKey := getProp headerMapping key in
  if toBoolean newKey
  then setProp transformedRow (toString newKey) (getProp row key)
  else transformedRow.

(** The body of [rawData.map(row => ...)]. *)
Definition transformRow (headerMapping : object) (row : object) : object :=
  fold_left (copyColumn headerMapping row) (keys row) [].

Definition mapHeaders (rawData : list object) (t : entityType) : list object :=
  match rawData with
  | [] => rawData
  | firstRow :: _ => map (transformRow (buildHeaderMapping t firstRow)) rawData
  end.

(** The own property of [headerMapping] that the loop body leaves for a
    header of the first row: the matched target, else the header itself,
    unless the read [headerMapping[originalHeader]] finds an inherited
    property, in which case nothing is stored. *)
Definition headerEntry (t : entityType) (originalHeader : string) : option value :=
  match findMatch (normalizeHeader originalHeader) (headerMappings t) with
  | Some targetField => Some (VString targetField)
  | None =>
      match objectPrototype originalHeader with
      | Some _ => None
      | None => Some (VString originalHeader)
      end
  end.

(** The own properties of [headerMapping] are only ever the entries the
    loop stores. *)
Definition consistent (t : entityType) (headerMapping : object) : Prop :=
  forall k, lookupOwn headerMapping k = None \/ lookupOwn headerMapping k = headerEntry t k.

(** *** Record coercer *)

(** [`${entityType.slice(0, -1)}ID`] *)
Definition idKey (t : entityType) : string :=
  sliceDropLast (entityName t) ++ "ID".

(** [typeof raw === 'string' ? raw.split(',').map(x => x.trim()) : raw || []] *)
Definition coerceStringList (raw : value) : result value :=
  if isString raw
  then pieces <- callSplit raw "," ;; callMap pieces (fun piece => callTrim piece)
  else Ok (orElse raw (VArray [])).

(** [typeof raw === 'string'
      ? raw.split(',').map(x => parseInt(x.trim())) : raw || []] *)
Definition coerceNumberList (raw : value) : result value :=
  if isString raw
  then pieces <- callSplit raw "," ;;
       callMap pieces
         (fun piece => trimmed <- callTrim piece ;; Ok (VNumber (parseInt trimmed)))
  else Ok (orElse raw (VArray [])).

(** [parseInt(raw) || fallback] and [parseFloat(raw) || fallback] *)
Definition coerceInt (raw : value) (fallback : number) : value :=
  orElse (VNumber (parseInt raw)) (VNumber fallback).

Definition coerceFloat (raw : value) (fallback : number) : value :=
  orElse (VNumber (parseFloat raw)) (VNumber fallback).

(** The callback of [rawData.map((row, index) => ...)]. *)
Definition processRow (t : entityType) (row : object) (index : nat) : result object :=
  let processedRow :=
    setProp (spread row) "id"
      (orElse (getProp row (idKey t))
              (VString ("temp-" ++ decimal (N.of_nat index)))) in
  match t with
  | clients =>
      v1 <- coerceStringList (getProp row "RequestedTaskIDs") ;;
      let processedRow := setProp processedRow "RequestedTaskIDs" v1 in
      v2 <- coerceNumberList (getProp row "PreferredPhases") ;;
      let processedRow := setProp processedRow "PreferredPhases" v2 in
      let processedRow :=
        setProp processedRow "PriorityLevel" (coerceInt (getProp row "PriorityLevel") one) in
      let processedRow :=
        setProp processedRow "MaxBudget" (coerceFloat (getProp row "MaxBudget") zero) in
      Ok processedRow
  | workers =>
      v1 <- coerceStringList (getProp row "Skills") ;;
      let processedRow := setProp processedRow "Skills" v1 in
      v2 <- coerceNumberList (getProp row "AvailableSlots") ;;
      let processedRow := setProp processedRow "AvailableSlots" v2 in
      let processedRow :=
        setProp processedRow "MaxLoadPerPhase"
          (coerceInt (getProp row "MaxLoadPerPhase") one) in
      let processedRow :=
        setProp processedRow "HourlyRate" (coerceFloat (getProp row "HourlyRate") zero) in
      Ok processedRow
  | tasks =>
      v1 <- coerceStringList (getProp row "RequiredSkills") ;;
      let processedRow := setProp processedRow "RequiredSkills" v1 in
      v2 <- coerceNumberList (getProp row "PreferredPhases") ;;
      let processedRow := setProp processedRow "PreferredPhases" v2 in
      v3 <- coerceStringList (getProp row "Dependencies") ;;
      let processedRow := setProp processedRow "Dependencies" v3 in
      let processedRow :=
        setProp processedRow "Duration" (coerceInt (getProp row "Duration") one) in
      let processedRow :=
        setProp processedRow "PriorityLevel" (coerceInt (getProp row "PriorityLevel") one) in
      let processedRow :=
        setProp processedRow "MaxConcurrent" (coerceInt (getProp row "MaxConcurrent") one) in
      Ok processedRow
  end.

Definition processData (rawData : list object) (t : entityType) : result (list object) :=
  mapWithIndex (processRow t) 0 rawData.

(** *** Schema registry *)

(** The semantic types the entity interfaces of [types/data.ts] declare. *)
Inductive semanticType : Type := TString | TNumber | TStringArray | TNumberArray.

Definition hasType (v : value) (ty : semanticType) : bool :=
  match ty, v with
  | TString, VString _ => true
  | TNumber, VNumber _ => true
  | TStringArray, VArray items => forallb isString items
  | TNumberArray, VArray items =>
      forallb (fun x => match x with VNumber _ => true | _ => false end) items
  | _, _ => false
  end.

(** [DataEntity] with [Client], [Worker] and [Task]: every declared field
    (the index signature apart) with its type. *)
Definition declaredFields (t : entityType) : list (string * semanticType) :=
  match t with
  | clients =>
      [ ("id", TString); ("ClientID", TString); ("ClientName", TString);
        ("ClientGroup", TString); ("PriorityLevel", TNumber);
        ("RequestedTaskIDs", TStringArray); ("PreferredPhases", TNumberArray);
        ("MaxBudget", TNumber); ("AttributesJSON", TString) ]
  | workers =>
      [ ("id", TString); ("WorkerID", TString); ("WorkerName", TString);
        ("WorkerGroup", TString); ("Skills", TStringArray);
        ("AvailableSlots", TNumberArray); ("MaxLoadPerPhase", TNumber);
        ("HourlyRate", TNumber); ("AttributesJSON", TString) ]
  | tasks =>
      [ ("id", TString); ("TaskID", TString); ("TaskName", TString);
        ("Duration", TNumber); ("RequiredSkills", TStringArray);
        ("PreferredPhases", TNumberArray); ("PriorityLevel", TNumber);
        ("Dependencies", TStringArray); ("MaxConcurrent", TNumber);
        ("AttributesJSON", TString) ]
  end.

(** The fields [processData] coerces, read off its [switch]: the scalar
    numeric ones with their parser and fallback, and the list-typed ones
    with whether their pieces are parsed as integers. *)
Inductive numericParser : Type := IntegerField | FloatField.

Definition parseWith (p : numericParser) (raw : value) : number :=
  match p with
  | IntegerField => parseInt raw
  | FloatField => parseFloat raw
  end.

Definition scalarFields (t : entityType) : list (string * numericParser * number) :=
  match t with
  | clients => [ ("PriorityLevel", IntegerField, one); ("MaxBudget", FloatField, zero) ]
  | workers => [ ("MaxLoadPerPhase", IntegerField, one); ("HourlyRate", FloatField, zero) ]
  | tasks =>
      [ ("Duration", IntegerField, one); ("PriorityLevel", IntegerField, one);
        ("MaxConcurrent", IntegerField, one) ]
  end.

Definition listFields (t : entityType) : list (string * bool) :=
  match t with
  | clients => [ ("RequestedTaskIDs", false); ("PreferredPhases", true) ]
  | workers => [ ("Skills", false); ("AvailableSlots", true) ]
  | tasks => [ ("RequiredSkills", false); ("PreferredPhases", true); ("Dependencies", false) ]
  end.

(** One piece of a split list value after coercion. *)
Definition coercePiece (numeric : bool) (piece : string) : value :=
  if numeric then VNumber (parseInt (VString (trim piece))) else VString (trim piece).

(** The list expression by kind of list, and the value it evaluates to:
    the trimmed (and, for a numeric list, parsed) pieces of a string, the
    raw value itself when truthy, the empty array otherwise. *)
Definition coerceList (numeric : bool) (raw : value) : result value :=
  if numeric then coerceNumberList raw else coerceStringList raw.

Definition coercedList (numeric : bool) (raw : value) : value :=
  match raw with
  | VString s => VArray (map (coercePiece numeric) (split "," s))
  | _ => orElse raw (VArray [])
  end.

Definition listType (numeric : bool) : semanticType :=
  if numeric then TNumberArray else TStringArray.

(** The names [processData] assigns on top of the copied row. *)
Definition coercedNames (t : entityType) : list string :=
  ("id" :: map fst (listFields t) ++ map (fun e => fst (fst e)) (scalarFields t))%list.

(** *** Import orchestrator *)

(** What the component reads of a [File]. *)
Record File : Type := { name : string; type : string; contents : string }.

Inductive UploadStatus : Type := Idle | Uploading | Success | Error.

(** The three coerced collections, [{ clients, workers, tasks }]. *)
Record Collections : Type :=
  { clientRecords : list object; workerRecords : list object; taskRecords : list object }.

(** [FileUploadResult]; an absent optional field is [None]. *)
Record FileUploadResult : Type :=
  { success : bool;
    data : option Collections;
    errors : option (list string);
    warnings : option (list string) }.

(** The state the handler acts on: the two state cells of the component,
    the files handed to [parseFile] so far, and the calls of the
    [onDataUpload] callback. *)
Record Component : Type :=
  { uploadStatus : UploadStatus;
    uploadResult : option FileUploadResult;
    parsedFiles : list File;
    published : list Collections }.

Definition initialComponent : Component :=
  {| uploadStatus := Idle; uploadResult := None; parsedFiles := []; published := [] |}.

Definition setUploadStatus (s : UploadStatus) (c : Component) : Component :=
  {| uploadStatus := s; uploadResult := uploadResult c;
     parsedFiles := parsedFiles c; published := published c |}.

Definition setUploadResult (r : FileUploadResult) (c : Component) : Component :=
  {| uploadStatus := uploadStatus c; uploadResult := Some r;
     parsedFiles := parsedFiles c; published := published c |}.

Definition recordParse (fs : list File) (c : Component) : Component :=
  {| uploadStatus := uploadStatus c; uploadResult := uploadResult c;
     parsedFiles := (parsedFiles c ++ fs)%list; published := published c |}.

Definition onDataUpload (d : Collections) (c : Component) : Component :=
  {| uploadStatus := uploadStatus c; uploadResult := uploadResult c;
     parsedFiles := parsedFiles c; published := (published c ++ [d])%list |}.

(** How a run of [Papa.parse] ends: [complete(results)] with the rows and
    the messages of [results.errors], or [error(e)]. *)
Inductive PapaOutcome : Type :=
| PapaComplete (rows : list object) (errorMessages : list string)
| PapaError (e : exn).

Section Orchestrator.

(** The two external parsers.  [XLSXRows] stands for reading the file and
    [XLSX.utils.sheet_to_json] on its first sheet, raising or not; reading
    the file is taken to complete. *)
Variable PapaParse : File -> PapaOutcome.
Variable XLSXRows : File -> result (list object).

(** The promise [parseFile(file)] settles to: resolved rows or a
    rejection. *)
Definition parseFile (file : File) : result (list object) :=
  if String.eqb (type file) "text/csv" || endsWith (name file) ".csv" then
    match PapaParse file with
    | PapaComplete rows errorMessages =>
        match errorMessages with
        | [] => Ok rows
        | _ :: _ =>
            Throw (ErrorObject ("CSV parsing errors: " ++ join ", " errorMessages))
        end
    | PapaError e => Throw e
    end
  else if endsWith (name file) ".xlsx" then XLSXRows file
  else Throw (ErrorObject "Unsupported file type").

(** [error instanceof Error ? error.message : 'Unknown error occurred'] *)
Definition errorMessage (e : exn) : string :=
  match e with
  | ErrorObject message => message
  | OtherThrown => "Unknown error occurred"
  end.

(** The [try] block after the three parses were started.  When several
    promises reject, [Promise.all] rejects with the one that settles
    first; here that is the first in the order clients, workers, tasks. *)
Definition importAll (fc fw ft : File) : result Collections :=
  clientsRaw <- parseFile fc ;;
  workersRaw <- parseFile fw ;;
  tasksRaw <- parseFile ft ;;
  cs <- processData (mapHeaders clientsRaw clients) clients ;;
  ws <- processData (mapHeaders workersRaw workers) workers ;;
  ts <- processData (mapHeaders tasksRaw tasks) tasks ;;
  Ok {| clientRecords := cs; workerRecords := ws; taskRecords := ts |}.

(** [handleUpload], with [files] the state cell of the three selected
    files ([null] is [None]). *)
Definition handleUpload (files : entityType -> option File) (c : Component) : Component :=
  match files clients, files workers, files tasks with
  | Some fc, Some fw, Some ft =>
      let c := setUploadStatus Uploading c in
      let c := recordParse [fc; fw; ft] c in
      match importAll fc fw ft with
      | Ok collections =>
          let result :=
            {| success := true; data := Some collections;
               errors := None; warnings := Some [] |} in
          let c := setUploadResult result c in
          let c := setUploadStatus Success c in
          onDataUpload collections c
      | Throw e =>
          let c :=
            setUploadResult
              {| success := false; data := None;
                 errors := Some [errorMessage e]; warnings := None |} c in
          setUploadStatus Error c
      end
  | _, _, _ =>
      let c :=
        setUploadResult
          {| success := false; data := None;
             errors := Some ["Please upload all three required files: clients, workers, and tasks"];
             warnings := None |} c in
      setUploadStatus Error c
  end.

End Orchestrator.

(** *** Selecting files *)

Definition entityType_eqb (a b : entityType) : bool :=
  match a, b with
  | clients, clients | workers, workers | tasks, tasks => true
  | _, _ => false
  end.

(** The two state cells of the file selection: [files] and [dragOver]. *)
Record Selection : Type :=
  { files : entityType -> option File; dragOver : option string }.

(** [setFiles(prev => ({ ...prev, [entityType]: file }))] *)
Definition handleFileSelect (t : entityType) (file : File) (s : Selection) : Selection :=
  {| files := fun t' => if entityType_eqb t' t then Some file else files s t';
     dragOver := dragOver s |}.

Definition handleDragOver (entityName : string) (s : Selection) : Selection :=
  {| files := files s; dragOver := Some entityName |}.

Definition handleDragLeave (s : Selection) : Selection :=
  {| files := files s; dragOver := None |}.

(** [handleDrop], with [droppedFile] the first dropped file, if any. *)
Definition handleDrop (droppedFile : option File) (t : entityType) (s : Selection)
  : Selection :=
  let s := handleDragLeave s in
  match droppedFile with
  | Some f =>
      if String.eqb (type f) "text/csv" || endsWith (name f) ".xlsx"
      then handleFileSelect t f s
      else s
  | None => s
  end.

(** The [onChange] of the browse input: the first chosen file, if any, is
    selected without a look at its type. *)
Definition handleBrowse (chosenFile : option File) (t : entityType) (s : Selection)
  : Selection :=
  match chosenFile with
  | Some f => handleFileSelect t f s
  | None => s
  end.

(** *** A sample upload *)

(** A CSV parser that yields one row holding the file's contents, an XLSX
    reader that raises, and the selections of three and of two files. *)
Definition samplePapa (f : File) : PapaOutcome :=
  PapaComplete [[("Name", VString (contents f))]] [].

Definition sampleXLSX (f : File) : result (list object) := Throw OtherThrown.

Definition csvFile (n : string) : File :=
  {| name := n; type := "text/csv"; contents := "x" |}.

Definition threeFiles (t : entityType) : option File :=
  Some (csvFile (entityName t ++ ".csv")).

Definition twoFiles (t : entityType) : option File :=
  match t with
  | tasks => None
  | _ => threeFiles t
  end.

Definition textFile : File :=
  {| name := "workers.txt"; type := "text/plain"; contents := "x" |}.

Definition filesWithText (t : entityType) : option File :=
  match t with
  | workers => Some textFile
  | _ => threeFiles t
  end.

End FileUpload.

(* ===================================================================== *)
(** ** The page: the state the components share *)
(* ===================================================================== *)

Module Home.
Import JS FileUpload.

Inductive Tab : Type := upload | data | rules | priorities | export.

(** The state cells of [Home] that the upload and the grid act on. *)
Record State : Type := { activeTab : Tab; collections : Collections }.

(** [data[entityType]] *)
Definition collection (t : entityType) (d : Collections) : list object :=
  match t with
  | clients => clientRecords d
  | workers => workerRecords d
  | tasks => taskRecords d
  end.

(** [{ ...prev, [entityType]: newData }] *)
Definition withCollection (t : entityType) (newData : list object) (prev : Collections)
  : Collections :=
  match t with
  | clients => {| clientRecords := newData; workerRecords := workerRecords prev;
                  taskRecords := taskRecords prev |}
  | workers => {| clientRecords := clientRecords prev; workerRecords := newData;
                  taskRecords := taskRecords prev |}
  | tasks => {| clientRecords := clientRecords prev; workerRecords := workerRecords prev;
                taskRecords := newData |}
  end.

Definition handleDataUpload (newData : Collections) (s : State) : State :=
  {| activeTab := data; collections := newData |}.

Definition handleDataUpdate (t : entityType) (newData : list object) (s : State) : State :=
  {| activeTab := activeTab s; collections := withCollection t newData (collections s) |}.

End Home.

(* ===================================================================== *)
(** ** The data grid: the filter of [filteredAndSortedData] *)
(* ===================================================================== *)

Module DataGrid.
Import JS.

(** [Object.values(item).some(value =>
       String(value).toLowerCase().includes(searchTerm.toLowerCase()))] *)
Definition matchesSearch (searchTerm : string) (item : object) : bool :=
  existsb
    (fun value => includes (toLowerCase (toString value)) (toLowerCase searchTerm))
    (values item).

(** The filter in the words of its description: some field value of the
    record, stringified, contains the search term as a substring once
    both are lowercased. *)
Definition someFieldContains (searchTerm : string) (item : object) : Prop :=
  exists k a b,
    In k (keys item) /\
    toLowerCase (toString (getProp item k)) = a ++ toLowerCase searchTerm ++ b.

(** [let filtered = currentData.filter(item => ...)]: the filter stage;
    the optional sort that follows reorders this list and is not part of
    the embedding. *)
Definition filtered (currentData : list object) (searchTerm : string) : list object :=
  filter (matchesSearch searchTerm) currentData.

(** *** Sorting state *)

Inductive sortDirection : Type := asc | desc.

(** [{ key, direction }]; the state cell [sortConfig] holds one or [null]. *)
Record SortConfig : Type := { key : string; direction : sortDirection }.

(** The updater [handleSort] passes to [setSortConfig]. *)
Definition handleSort (k : string) (current : option SortConfig) : option SortConfig :=
  match current with
  | Some c =>
      if String.eqb (key c) k
      then match direction c with
           | asc => Some {| key := k; direction := desc |}
           | desc => None
           end
      else Some {| key := k; direction := asc |}
  | None => Some {| key := k; direction := asc |}
  end.

(** *** Editing cells *)

(** [v === s] for a string [s]. *)
Definition strictEqualsString (v : value) (s : string) : bool :=
  match v with
  | VString s' => String.eqb s' s
  | _ => false
  end.

(** [currentData.map(row => row.id === rowId ? { ...row, [column]: value } : row)] *)
Definition updatedData (currentData : list object) (rowId column : string) (v : value)
  : list object :=
  map (fun row =>
         if strictEqualsString (getProp row "id") rowId
         then setProp (spread row) column v
         else row)
      currentData.

(** The state cells of the grid. *)
Record Grid : Type :=
  { activeEntity : FileUpload.entityType;
    editingCell : option (string * string);
    searchTerm : string;
    sortConfig : option SortConfig }.

Definition handleCellEdit (rowId column : string) (g : Grid) : Grid :=
  {| activeEntity := activeEntity g; editingCell := Some (rowId, column);
     searchTerm := searchTerm g; sortConfig := sortConfig g |}.

Definition handleCellCancel (g : Grid) : Grid :=
  {| activeEntity := activeEntity g; editingCell := None;
     searchTerm := searchTerm g; sortConfig := sortConfig g |}.

(** [handleCellSave], with the page's [handleDataUpdate] as the
    [onDataUpdate] callback, acting on the page and the grid. *)
Definition handleCellSave (rowId column : string) (v : value)
  (page : Home.State) (g : Grid) : Home.State * Grid :=
  let currentData := Home.collection (activeEntity g) (Home.collections page) in
  (Home.handleDataUpdate (activeEntity g) (updatedData currentData rowId column v) page,
   handleCellCancel g).

(** [items.join(sep)] on an array of values. *)
Definition arrayJoin (sep : string) (items : list value) : string :=
  join sep
    (map (fun x => match x with
                   | VUndefined | VNull => EmptyString
                   | _ => toString x
                   end) items).

(** The [defaultValue] of the input of an array cell:
    [Array.isArray(value) ? value.join(', ') : value]. *)
Definition arrayDefaultValue (v : value) : value :=
  match v with
  | VArray items => VString (arrayJoin ", " items)
  | _ => v
  end.

(** What the input of an array cell commits on Enter or blur:
    [text.split(',').map(v => v.trim())]. *)
Definition arrayEditValue (text : string) : value :=
  VArray (map (fun v => VString (trim v)) (split "," text)).

(** What the input of a number or text cell commits:
    [column.type === 'number' ? parseFloat(text) : text]. *)
Definition scalarEditValue (isNumber : bool) (text : string) : value :=
  if isNumber then VNumber (parseFloatString text) else VString text.

End DataGrid.

(* ===================================================================== *)
(** ** The search component: [simulateAIResponse], [processQueryWithAI],
       [handleSearch] *)
(* ===================================================================== *)

Module AISearch.
Import JS FileUpload.

(** The [entities] of a result: the records the local search found, or
    whatever value the endpoint answered. *)
Inductive Entities : Type :=
| Found (records : list object)
| Answered (v : value).

(** [AISearchResult], as it exists at run time. *)
Record AISearchResult : Type :=
  { entities : Entities; explanation : value; confidence : value }.

(** [x && x > bound] and [x && x >= bound] as filter tests. *)
Definition truthyAndAbove (x : value) (bound : number) : bool :=
  toBoolean x && greaterThan x bound.

Definition truthyAndAtLeast (x : value) (bound : number) : bool :=
  toBoolean x && greaterOrEqual x bound.

(** [x && x.length > 0] as a filter test. *)
Definition truthyAndNonEmpty (x : value) : result bool :=
  if toBoolean x
  then len <- readLength x ;; Ok (greaterThan len zero)
  else Ok false.

(** [`Found ${n} ...`] *)
Definition found (n : nat) (what : string) : value :=
  VString ("Found " ++ decimal (N.of_nat n) ++ what).

(** [lowerQuery.split(' ')[0]] *)
Definition firstWord (lowerQuery : string) : string :=
  hd EmptyString (split " " lowerQuery).

(** The test of the generic search. *)
Definition mentions (word : string) (entity : object) : bool :=
  existsb (fun value => includes (toLowerCase (toString value)) word) (values entity).

(** The outcome of [x && x.length > 0] when it does not raise. *)
Definition nonEmptyTest (x : value) : bool :=
  match truthyAndNonEmpty x with
  | Ok b => b
  | Throw _ => false
  end.

(** No keyword test of [simulateAIResponse] applies to the query. *)
Definition usesGenericSearch (lowerQuery : string) : bool :=
  negb (includes lowerQuery "task" && includes lowerQuery "duration")
  && negb (includes lowerQuery "worker" && includes lowerQuery "skill")
  && negb (includes lowerQuery "client" && includes lowerQuery "priority")
  && negb (includes lowerQuery "budget" || includes lowerQuery "cost")
  && negb (includes lowerQuery "phase").

(** [simulateAIResponse], after its delay. *)
Definition simulateAIResponse (query : string) (context : Collections)
  : result AISearchResult :=
  let lowerQuery := toLowerCase query in
  if includes lowerQuery "task" && includes lowerQuery "duration" then
    let found_entities :=
      filter (fun task => truthyAndAbove (getProp task "Duration") one)
             (taskRecords context) in
    Ok {| entities := Found found_entities;
          explanation :=
            found (length found_entities) " tasks with duration greater than 1 phase.";
          confidence := VNumber (Finite false 8 (-1)) |}
  else if includes lowerQuery "worker" && includes lowerQuery "skill" then
    found_entities <-
      filterM (fun worker => truthyAndNonEmpty (getProp worker "Skills"))
              (workerRecords context) ;;
    Ok {| entities := Found found_entities;
          explanation := found (length found_entities) " workers with skills.";
          confidence := VNumber (Finite false 8 (-1)) |}
  else if includes lowerQuery "client" && includes lowerQuery "priority" then
    let found_entities :=
      filter (fun client =>
                truthyAndAtLeast (getProp client "PriorityLevel") (Finite false 4 0))
             (clientRecords context) in
    Ok {| entities := Found found_entities;
          explanation :=
            found (length found_entities) " clients with high priority levels.";
          confidence := VNumber (Finite false 8 (-1)) |}
  else if includes lowerQuery "budget" || includes lowerQuery "cost" then
    let found_entities :=
      filter (fun client =>
                truthyAndAbove (getProp client "MaxBudget") (Finite false 5000 0))
             (clientRecords context) in
    Ok {| entities := Found found_entities;
          explanation := found (length found_entities) " clients with budgets over $5000.";
          confidence := VNumber (Finite false 8 (-1)) |}
  else if includes lowerQuery "phase" then
    found_entities <-
      filterM (fun item => truthyAndNonEmpty (getProp item "PreferredPhases"))
              (taskRecords context ++ workerRecords context)%list ;;
    Ok {| entities := Found found_entities;
          explanation := found (length found_entities) " items with phase preferences.";
          confidence := VNumber (Finite false 8 (-1)) |}
  else
    let allEntities :=
      (clientRecords context ++ workerRecords context ++ taskRecords context)%list in
    let found_entities := filter (mentions (firstWord lowerQuery)) allEntities in
    Ok {| entities := Found found_entities;
          explanation :=
            found (length found_entities) " items matching your search criteria.";
          confidence := VNumber (Finite false 6 (-1)) |}.

(** Data none of whose records holds a plain object: what an import
    leaves in the three collections when the parsers delivered text,
    numbers and booleans. *)
Definition dataHasNoObject (context : Collections) : bool :=
  forallb rowHasNoObject
    (clientRecords context ++ workerRecords context ++ taskRecords context)%list.

(** How the request to the endpoint ends: [fetch] rejects, or a response
    arrives with its [ok] flag and a body that [response.json()] rejects,
    reads as [null], or reads as a value with the given fields (none for
    a number, a string, a boolean or an array). *)
Inductive JsonOutcome : Type :=
| JsonRejects
| JsonNull
| JsonValue (fields : object).

Inductive FetchOutcome : Type :=
| FetchRejects
| Response (ok : bool) (body : JsonOutcome).

(** One entry of the search history; [timestamp] in milliseconds. *)
Record SearchHistory : Type :=
  { searched : string; searchResult : AISearchResult; timestamp : N }.

(** The state cells of the component the handlers act on, and the calls
    of the [onSearchResult] callback. *)
Record Search : Type :=
  { query : string;
    isSearching : bool;
    searchHistory : list SearchHistory;
    reported : list AISearchResult }.

Section Endpoint.

(** The endpoint, as seen from the component. *)
Variable fetch : string -> Collections -> FetchOutcome.

(** [processQueryWithAI]: the promise resolves ([Ok]) or rejects. *)
Definition processQueryWithAI (searchQuery : string) (data : Collections)
  : result AISearchResult :=
  match fetch searchQuery data with
  | Response true (JsonValue result) =>
      Ok {| entities := Answered (orElse (getProp result "entities") (VArray []));
            explanation :=
              orElse (getProp result "explanation") (VString "No explanation provided");
            confidence := orElse (getProp result "confidence") (VNumber zero) |}
  | _ => simulateAIResponse searchQuery data
  end.

(** [handleSearch], with [now] the time of [new Date()]. *)
Definition handleSearch (now : N) (data : Collections) (s : Search) : Search :=
  if negb (toBoolean (VString (trim (query s)))) then s
  else
    match processQueryWithAI (query s) data with
    | Ok result =>
        {| query := query s;
           isSearching := false;
           searchHistory :=
             {| searched := query s; searchResult := result; timestamp := now |}
             :: firstn 9 (searchHistory s);
           reported := (reported s ++ [result])%list |}
    | Throw _ =>
        {| query := query s; isSearching := false;
           searchHistory := searchHistory s; reported := reported s |}
    end.

End Endpoint.

(** An endpoint that cannot be reached, and a search state with a query
    typed in and one earlier entry. *)
Definition offline (q : string) (data : Collections) : FetchOutcome := FetchRejects.

Definition noData : Collections :=
  {| clientRecords := []; workerRecords := []; taskRecords := [] |}.

(** Two imported clients, one of high priority and with a budget. *)
Definition twoClients : Collections :=
  {| clientRecords :=
       [ [("ClientName", VString "Acme"); ("PriorityLevel", VNumber (Finite false 5 0));
          ("MaxBudget", VNumber (Finite false 9000 0))];
         [("ClientName", VString "Zenith"); ("PriorityLevel", VNumber one);
          ("MaxBudget", VNumber zero)] ];
     workerRecords := [];
     taskRecords := [] |}.

Definition sampleSearch : Search :=
  {| query := "budget";
     isSearching := false;
     searchHistory :=
       [{| searched := "old";
           searchResult := {| entities := Found []; explanation := VString "none";
                              confidence := VNumber zero |};
           timestamp := 1 |}];
     reported := [] |}.

Definition clearHistory (s : Search) : Search :=
  {| query := query s; isSearching := isSearching s;
     searchHistory := []; reported := reported s |}.

End AISearch.

(* ===================================================================== *)
(** ** The validation panel: [filteredErrors] and [errorStats] *)
(* ===================================================================== *)

Module ValidationPanel.

Inductive Severity : Type := error | warning | info.

Inductive EntityKind : Type := client | worker | task.

(** [ValidationError] *)
Record ValidationError : Type :=
  { id : string;
    entityType : EntityKind;
    entityId : string;
    field : string;
    message : string;
    severity : Severity;
    suggestedFix : option string;
    rowIndex : option N;
    columnIndex : option N }.

Definition Severity_eqb (a b : Severity) : bool :=
  match a, b with
  | error, error | warning, warning | info, info => true
  | _, _ => false
  end.

(** The state cell [filterSeverity]: ['all'] or a severity. *)
Inductive FilterSeverity : Type := all | only (s : Severity).

Definition filteredErrors (filterSeverity : FilterSeverity) (errors : list ValidationError)
  : list ValidationError :=
  match filterSeverity with
  | all => errors
  | only s => filter (fun e => Severity_eqb (severity e) s) errors
  end.

(** The object [stats], one counter per severity, and [stats[s]++]. *)
Definition Stats : Type := Severity -> nat.

Definition increment (stats : Stats) (s : Severity) : Stats :=
  fun s' => if Severity_eqb s' s then S (stats s') else stats s'.

Definition errorStats (errors : list ValidationError) : Stats :=
  fold_left (fun stats e => increment stats (severity e)) errors (fun _ => 0).

End ValidationPanel.

(* ===================================================================== *)
(** ** The rule builder: [handleSaveRule] and [handleDeleteRule] *)
(* ===================================================================== *)

Module RuleBuilder.
Import JS.

Inductive RuleType : Type :=
  coRun | slotRestriction | loadLimit | phaseWindow | patternMatch | precedenceOverride.

(** [BusinessRule] *)
Record BusinessRule : Type :=
  { id : string;
    type : RuleType;
    name : string;
    description : string;
    enabled : bool;
    priority : number;
    parameters : object;
    naturalLanguage : option string }.

(** [RuleFormData] *)
Record RuleFormData : Type :=
  { formType : RuleType;
    formName : string;
    formDescription : string;
    formEnabled : bool;
    formPriority : number;
    formParameters : object;
    formNaturalLanguage : option string }.

(** [editingRule?.id || `rule-${Date.now()}`] *)
Definition ruleId (editingRule : option BusinessRule) (now : N) : string :=
  match editingRule with
  | Some r => if String.eqb (id r) EmptyString then "rule-" ++ decimal now else id r
  | None => "rule-" ++ decimal now
  end.

(** The list [handleSaveRule] passes to [setRules], with [now] the value
    of [Date.now()]. *)
Definition handleSaveRule (now : N) (formData : RuleFormData)
  (editingRule : option BusinessRule) (rules : list BusinessRule) : list BusinessRule :=
  let newRule :=
    {| id := ruleId editingRule now;
       type := formType formData;
       name := formName formData;
       description := formDescription formData;
       enabled := formEnabled formData;
       priority := formPriority formData;
       parameters := formParameters formData;
       naturalLanguage := formNaturalLanguage formData |} in
  match editingRule with
  | Some edited =>
      map (fun rule => if String.eqb (id rule) (id edited) then newRule else rule) rules
  | None => (rules ++ [newRule])%list
  end.

(** The list [handleDeleteRule] passes to [setRules]. *)
Definition handleDeleteRule (deleted : string) (rules : list BusinessRule)
  : list BusinessRule :=
  filter (fun rule => negb (String.eqb (id rule) deleted)) rules.

(** *** A sample rule and a sample form *)

Definition sampleRule : BusinessRule :=
  {| id := "rule-1"; type := coRun; name := "pair"; description := "";
     enabled := true; priority := one; parameters := []; naturalLanguage := None |}.

Definition sampleForm : RuleFormData :=
  {| formType := loadLimit; formName := "limit"; formDescription := "";
     formEnabled := true; formPriority := one; formParameters := [];
     formNaturalLanguage := None |}.

End RuleBuilder.

(* ===================================================================== *)
(** ** Facts about the runtime *)
(* ===================================================================== *)

Module JSFacts.
Import JS.

(** *** Substrings *)

Lemma startsWith_spec (t s : string) :
  startsWith s t = true <-> exists b, s = t ++ b.
Proof.
  revert s; induction t as [|c t IH]; intros s; simpl.
  - split; [intros _; now exists s | reflexivity].
  - destruct s as [|a s].
    + split; [discriminate | intros [b Hb]; discriminate].
    + rewrite andb_true_iff, Ascii.eqb_eq, IH. split.
      * intros [-> [b ->]]. now exists b.
      * intros [b Hb]. injection Hb as -> ->. split; [reflexivity | now exists b].
Qed.

Lemma includes_spec (s t : string) :
  includes s t = true <-> exists a b, s = a ++ t ++ b.
Proof.
  split.
  - induction s as [|c s IH]; simpl; rewrite orb_true_iff.
    + intros [H | H]; [| discriminate].
      apply startsWith_spec in H. destruct H as [b ->]. now exists EmptyString, b.
    + intros [H | H].
      * apply startsWith_spec in H. destruct H as [b ->]. now exists EmptyString, b.
      * destruct (IH H) as (a & b & ->). now exists (String c a), b.
  - intros (a & b & ->). induction a as [|c a IH].
    + destruct (t ++ b) eqn:E; simpl; rewrite <- E;
        (apply orb_true_iff; left; apply startsWith_spec; now exists b).
    + simpl. rewrite IH. apply orb_true_r.
Qed.

(** *** Trimming, splitting and joining *)

Lemma trimEnd_idempotent (s : string) : trimEnd (trimEnd s) = trimEnd s.
Proof.
  induction s as [|c s IH]; simpl; [reflexivity |].
  destruct (trimEnd s) as [|c' r] eqn:E.
  - destruct (isWhiteSpace c) eqn:Ec; simpl; [reflexivity |]. now rewrite Ec.
  - simpl. simpl in IH. now rewrite IH.
Qed.

(** A string is headed when it does not start with white space. *)
Lemma trimStart_headed (s : string) :
  match trimStart s with
  | EmptyString => True
  | String c _ => isWhiteSpace c = false
  end.
Proof.
  induction s as [|c s IH]; simpl; [exact I |].
  destruct (isWhiteSpace c) eqn:E; [exact IH | exact E].
Qed.

Lemma trimStart_trimEnd_headed (s : string) :
  match s with
  | EmptyString => True
  | String c _ => isWhiteSpace c = false
  end ->
  trimStart (trimEnd s) = trimEnd s.
Proof.
  destruct s as [|c s]; simpl; [reflexivity |]. intros Hc.
  destruct (trimEnd s); rewrite ?Hc; simpl; now rewrite Hc.
Qed.

Lemma trim_idempotent (s : string) : trim (trim s) = trim s.
Proof.
  unfold trim.
  rewrite (trimStart_trimEnd_headed (trimStart s) (trimStart_headed s)).
  apply trimEnd_idempotent.
Qed.

Lemma trim_after_space (s : string) : trim (String " " s) = trim s.
Proof. reflexivity. Qed.

Lemma occurs_trimStart (c : ascii) (s : string) :
  occurs c s = false -> occurs c (trimStart s) = false.
Proof.
  induction s as [|a s IH]; simpl; [reflexivity |].
  intros H. apply orb_false_iff in H. destruct H as [Ha Hs].
  destruct (isWhiteSpace a); [now apply IH |]. simpl. now rewrite Ha, Hs.
Qed.

Lemma occurs_trimEnd (c : ascii) (s : string) :
  occurs c s = false -> occurs c (trimEnd s) = false.
Proof.
  induction s as [|a s IH]; simpl; [reflexivity |].
  intros H. apply orb_false_iff in H. destruct H as [Ha Hs]. specialize (IH Hs).
  destruct (trimEnd s) as [|a' r].
  - destruct (isWhiteSpace a); simpl; [reflexivity |]. now rewrite Ha.
  - simpl in *. now rewrite Ha, IH.
Qed.

Lemma occurs_trim (c : ascii) (s : string) :
  occurs c s = false -> occurs c (trim s) = false.
Proof. intros H. now apply occurs_trimEnd, occurs_trimStart. Qed.

Lemma split_nonempty (sep : ascii) (s : string) : split sep s <> [].
Proof.
  destruct s as [|c s]; simpl; [discriminate |].
  destruct (Ascii.eqb c sep); [discriminate |]. now destruct (split sep s).
Qed.

Lemma split_pieces (sep : ascii) (s : string) :
  Forall (fun piece => occurs sep piece = false) (split sep s).
Proof.
  induction s as [|c s IH]; simpl.
  - constructor; [reflexivity | constructor].
  - destruct (Ascii.eqb c sep) eqn:E.
    + constructor; [reflexivity | exact IH].
    + destruct (split sep s) as [|piece pieces]; inversion IH; subst.
      * constructor; [simpl; now rewrite E | constructor].
      * constructor; [simpl; now rewrite E | assumption].
Qed.

Lemma split_piece_then_sep (sep : ascii) (piece rest : string) :
  occurs sep piece = false ->
  split sep (piece ++ String sep rest) = piece :: split sep rest.
Proof.
  induction piece as [|c piece IH]; simpl; intros H.
  - now rewrite Ascii.eqb_refl.
  - apply orb_false_iff in H. destruct H as [Hc Hp]. now rewrite Hc, (IH Hp).
Qed.

Lemma split_single (sep : ascii) (piece : string) :
  occurs sep piece = false -> split sep piece = [piece].
Proof.
  induction piece as [|c piece IH]; simpl; intros H; [reflexivity |].
  apply orb_false_iff in H. destruct H as [Hc Hp]. now rewrite Hc, (IH Hp).
Qed.

(** Splitting what [join ", "] produced gives the pieces back, all but
    the first with the space of the separator in front. *)
Lemma split_join_comma_space (piece : string) (pieces : list string) :
  Forall (fun p => occurs "," p = false) (piece :: pieces) ->
  split "," (join ", " (piece :: pieces)) = piece :: map (String " ") pieces.
Proof.
  revert piece; induction pieces as [|q pieces IH]; intros piece H.
  - inversion H; subst. now apply split_single.
  - inversion H as [|? ? Hp Hrest]; subst.
    change (join ", " (piece :: q :: pieces))
      with (piece ++ String "," (String " " (join ", " (q :: pieces)))).
    rewrite (split_piece_then_sep _ _ _ Hp).
    change (split "," (String " " (join ", " (q :: pieces))))
      with (match split "," (join ", " (q :: pieces)) with
            | [] => [String " " EmptyString]
            | p0 :: ps => String " " p0 :: ps
            end).
    now rewrite (IH q Hrest).
Qed.

(** Coercing the re-joined pieces gives the same pieces again. *)
Lemma split_join_roundtrip (s : string) :
  map trim (split "," (join ", " (map trim (split "," s)))) = map trim (split "," s).
Proof.
  assert (Hp := split_pieces "," s).
  destruct (split "," s) as [|piece pieces] eqn:E.
  - now apply split_nonempty in E.
  - simpl map at 2. rewrite split_join_comma_space.
    + simpl. rewrite trim_idempotent. f_equal.
      rewrite !map_map. apply map_ext. intros p.
      now rewrite trim_after_space, trim_idempotent.
    + change (trim piece :: map trim pieces) with (map trim (piece :: pieces)).
      apply Forall_map. eapply Forall_impl; [| exact Hp].
      intros p. apply occurs_trim.
Qed.

(** *** Own properties *)

Lemma lookupOwn_replaceOwn (o : object) (k k' : string) (v : value) :
  lookupOwn o k <> None ->
  lookupOwn (replaceOwn o k v) k' = if String.eqb k k' then Some v else lookupOwn o k'.
Proof.
  induction o as [|[k0 v0] o IH]; simpl; intros H; [congruence |].
  destruct (String.eqb k0 k) eqn:E0.
  - apply String.eqb_eq in E0; subst k0. simpl. now destruct (String.eqb k k').
  - simpl. rewrite (IH H). destruct (String.eqb k0 k') eqn:E1; [| reflexivity].
    apply String.eqb_eq in E1; subst k0. now rewrite String.eqb_sym, E0.
Qed.

Lemma lookupOwn_insertIndexed (i : N) (o : object) (k k' : string) (v : value) :
  lookupOwn o k = None ->
  lookupOwn (insertIndexed i k v o) k' = if String.eqb k k' then Some v else lookupOwn o k'.
Proof.
  induction o as [|[k0 v0] o IH]; simpl; intros H.
  - reflexivity.
  - destruct (String.eqb k0 k) eqn:E0; [discriminate |].
    assert (Hhead : lookupOwn ((k, v) :: (k0, v0) :: o) k'
                    = if String.eqb k k' then Some v else lookupOwn ((k0, v0) :: o) k')
      by reflexivity.
    destruct (arrayIndex k0) as [j|]; [destruct (j <? i)%N |]; try exact Hhead.
    simpl. rewrite (IH H). destruct (String.eqb k0 k') eqn:E1; [| reflexivity].
    apply String.eqb_eq in E1; subst k0. now rewrite String.eqb_sym, E0.
Qed.

Lemma lookupOwn_app (o1 o2 : object) (k : string) :
  lookupOwn (o1 ++ o2)%list k =
  match lookupOwn o1 k with Some v => Some v | None => lookupOwn o2 k end.
Proof.
  induction o1 as [|[k0 v0] o1 IH]; simpl; [reflexivity |].
  now destruct (String.eqb k0 k).
Qed.

Lemma lookupOwn_setProp (o : object) (k k' : string) (v : value) :
  lookupOwn (setProp o k v) k' = if String.eqb k k' then Some v else lookupOwn o k'.
Proof.
  unfold setProp. destruct (lookupOwn o k) eqn:E.
  - apply lookupOwn_replaceOwn. congruence.
  - destruct (arrayIndex k).
    + now apply lookupOwn_insertIndexed.
    + rewrite lookupOwn_app. simpl. destruct (String.eqb k k') eqn:Ek.
      * apply String.eqb_eq in Ek; subst k'. now rewrite E.
      * now destruct (lookupOwn o k').
Qed.

Lemma getProp_setProp (o : object) (k k' : string) (v : value) :
  getProp (setProp o k v) k' = if String.eqb k k' then v else getProp o k'.
Proof.
  unfold getProp. rewrite lookupOwn_setProp. now destruct (String.eqb k k').
Qed.

Lemma lookupOwn_keys (o : object) (k : string) :
  In k (keys o) <-> lookupOwn o k <> None.
Proof.
  induction o as [|[k0 v0] o IH]; simpl.
  - split; [tauto | congruence].
  - destruct (String.eqb k0 k) eqn:E.
    + apply String.eqb_eq in E. split; [congruence | now left].
    + apply String.eqb_neq in E. rewrite <- IH. tauto.
Qed.

Lemma getProp_own (o : object) (k : string) (v : value) :
  lookupOwn o k = Some v -> getProp o k = v.
Proof. unfold getProp. now intros ->. Qed.

(** Copying key by key: the copy has the keys read so far, each with the
    value read from [o]. *)
Lemma lookupOwn_copy (o : object) (ks : list string) (copy : object) (k : string) :
  lookupOwn (fold_left (fun c k0 => setProp c k0 (getProp o k0)) ks copy) k =
  if in_dec string_dec k ks then Some (getProp o k) else lookupOwn copy k.
Proof.
  revert copy; induction ks as [|k0 ks IH]; intros copy; simpl; [reflexivity |].
  rewrite IH, lookupOwn_setProp.
  destruct (in_dec string_dec k ks) as [Hin | Hnin];
    destruct (string_dec k0 k) as [-> | Hne]; try reflexivity.
  - now rewrite String.eqb_refl.
  - apply String.eqb_neq in Hne. now rewrite Hne.
Qed.

Lemma lookupOwn_spread (o : object) (k : string) :
  lookupOwn (spread o) k = lookupOwn o k.
Proof.
  unfold spread. rewrite lookupOwn_copy.
  destruct (in_dec string_dec k (keys o)) as [Hin | Hnin].
  - apply lookupOwn_keys in Hin. destruct (lookupOwn o k) eqn:E; [| congruence].
    now rewrite (getProp_own _ _ _ E).
  - destruct (lookupOwn o k) eqn:E; [| reflexivity].
    exfalso. apply Hnin, lookupOwn_keys. congruence.
Qed.

Lemma getProp_spread (o : object) (k : string) : getProp (spread o) k = getProp o k.
Proof. unfold getProp. now rewrite lookupOwn_spread. Qed.

(** *** Exceptions *)

Lemma mapM_ok {A B : Type} (f : A -> result B) (g : A -> B) (l : list A) :
  (forall a, In a l -> f a = Ok (g a)) -> mapM f l = Ok (map g l).
Proof.
  induction l as [|a l IH]; simpl; intros H; [reflexivity |].
  rewrite (H a (or_introl eq_refl)). simpl. rewrite IH; [reflexivity |].
  intros b Hb. apply H. now right.
Qed.

Lemma mapWithIndex_ok {A B : Type} (f : A -> nat -> result B) (l : list A) :
  (forall a i, exists b, f a i = Ok b) ->
  forall start, exists bs,
    mapWithIndex f start l = Ok bs /\
    length bs = length l /\
    forall j a, nth_error l j = Some a ->
      exists b, nth_error bs j = Some b /\ f a (start + j) = Ok b.
Proof.
  intros Hf. induction l as [|a l IH]; intros start; simpl.
  - exists []. repeat split. intros [|j] a H; discriminate.
  - destruct (Hf a start) as [b Hb]. destruct (IH (S start)) as (bs & Hbs & Hlen & Hnth).
    exists (b :: bs). rewrite Hb, Hbs. simpl. repeat split; [now rewrite Hlen |].
    intros [|j] a' H; simpl in *.
    + injection H as <-. exists b. now rewrite Nat.add_0_r.
    + destruct (Hnth j a' H) as (b' & Hb' & Hfb'). exists b'.
      now rewrite Nat.add_succ_r.
Qed.

End JSFacts.

(* ===================================================================== *)
(** ** Facts about the upload component *)
(* ===================================================================== *)

Module FileUploadFacts.
Import JS JSFacts FileUpload.

(** *** The header table *)

Lemma findMatch_first (nh : string) (before after : list (string * string))
  (label field : string) :
  (forall l f, In (l, f) before -> includes nh (normalizeLabel l) = false) ->
  includes nh (normalizeLabel label) = true ->
  findMatch nh (before ++ (label, field) :: after)%list = Some field.
Proof.
  induction before as [|[l f] before IH]; simpl; intros Hb Hl.
  - now rewrite Hl.
  - rewrite (Hb l f (or_introl eq_refl)). apply IH; [| exact Hl].
    intros l' f' H. apply (Hb l' f'). now right.
Qed.

Lemma findMatch_None (nh : string) (entries : list (string * string)) :
  findMatch nh entries = None <->
  forall l f, In (l, f) entries -> includes nh (normalizeLabel l) = false.
Proof.
  induction entries as [|[l f] entries IH]; simpl.
  - split; [intros _ l f [] | reflexivity].
  - destruct (includes nh (normalizeLabel l)) eqn:E.
    + split; [discriminate |]. intros H. rewrite (H l f (or_introl eq_refl)) in E.
      discriminate.
    + rewrite IH. split.
      * intros H l' f' [Heq | Hin]; [injection Heq as <- <-; exact E | eauto].
      * intros H l' f' Hin. apply (H l' f'). now right.
Qed.

Lemma findMatch_In (nh : string) (entries : list (string * string)) (field : string) :
  findMatch nh entries = Some field -> exists label, In (label, field) entries.
Proof.
  induction entries as [|[l f] entries IH]; simpl; [discriminate |].
  destruct (includes nh (normalizeLabel l)).
  - intros H. injection H as ->. exists l. now left.
  - intros H. destruct (IH H) as [label Hl]. exists label. now right.
Qed.

(** Every canonical field name is truthy as a string, and contains its
    own label once normalised. *)
Lemma target_truthy (t : entityType) (label field : string) :
  In (label, field) (headerMappings t) -> toBoolean (VString field) = true.
Proof.
  destruct t; simpl; intros H;
    repeat (destruct H as [H | H]; [injection H as <- <-; reflexivity |]);
    destruct H.
Qed.

Lemma target_matches (t : entityType) (label field : string) :
  In (label, field) (headerMappings t) ->
  findMatch (normalizeHeader field) (headerMappings t) <> None.
Proof.
  destruct t; simpl; intros H;
    repeat (destruct H as [H | H]; [injection H as <- <-; vm_compute; discriminate |]);
    destruct H.
Qed.

Lemma objectPrototype_names (k : string) :
  objectPrototype k <> None <-> In k objectPrototypeNames.
Proof.
  unfold objectPrototype.
  destruct (existsb (String.eqb k) objectPrototypeNames) eqn:E.
  - split.
    + intros _. apply existsb_exists in E. destruct E as (x & Hx & Hk).
      apply String.eqb_eq in Hk. now subst x.
    + intros _. destruct (String.eqb k "constructor"); [discriminate |].
      destruct (String.eqb k "__proto__"); discriminate.
  - assert (Hn : ~ In k objectPrototypeNames).
    { intros Hin. assert (existsb (String.eqb k) objectPrototypeNames = true).
      { apply existsb_exists. exists k. split; [exact Hin | apply String.eqb_refl]. }
      congruence. }
    split; [| tauto].
    destruct (String.eqb k "constructor") eqn:E1.
    { apply String.eqb_eq in E1. subst k. exfalso. apply Hn. simpl. tauto. }
    destruct (String.eqb k "__proto__") eqn:E2.
    { apply String.eqb_eq in E2. subst k. exfalso. apply Hn. simpl. tauto. }
    congruence.
Qed.

Lemma objectPrototype_truthy (k : string) (v : value) :
  objectPrototype k = Some v -> toBoolean v = true.
Proof.
  unfold objectPrototype.
  destruct (String.eqb k "constructor"); [intros H; injection H as <-; reflexivity |].
  destruct (String.eqb k "__proto__"); [intros H; injection H as <-; reflexivity |].
  destruct (existsb (String.eqb k) objectPrototypeNames); [| discriminate].
  intros H; injection H as <-; reflexivity.
Qed.

(** *** The header mapping *)

Lemma mapOneHeader_lookup (t : entityType) (hm : object) (h k : string) :
  consistent t hm ->
  lookupOwn (mapOneHeader t hm h) k =
  if String.eqb h k then headerEntry t h else lookupOwn hm k.
Proof.
  intros Hc. unfold mapOneHeader, headerEntry.
  destruct (findMatch (normalizeHeader h) (headerMappings t)) as [f|] eqn:Ef.
  - destruct (findMatch_In _ _ _ Ef) as [label Hin].
    rewrite getProp_setProp, String.eqb_refl, (target_truthy _ _ _ Hin). simpl.
    apply lookupOwn_setProp.
  - destruct (Hc h) as [Hnone | Hsome].
    + unfold getProp at 1. rewrite Hnone.
      destruct (objectPrototype h) as [v|] eqn:Ep.
      * rewrite (objectPrototype_truthy _ _ Ep). simpl.
        destruct (String.eqb h k) eqn:E; [| reflexivity].
        apply String.eqb_eq in E. now subst k.
      * simpl. apply lookupOwn_setProp.
    + unfold headerEntry in Hsome. rewrite Ef in Hsome.
      destruct (objectPrototype h) as [v|] eqn:Ep.
      * unfold getProp at 1. rewrite Hsome, Ep.
        rewrite (objectPrototype_truthy _ _ Ep). simpl.
        destruct (String.eqb h k) eqn:E; [| reflexivity].
        apply String.eqb_eq in E. now subst k.
      * rewrite (getProp_own _ _ _ Hsome). simpl.
        destruct (String.eqb h EmptyString) eqn:Ee; simpl.
        -- apply lookupOwn_setProp.
        -- destruct (String.eqb h k) eqn:E; [| reflexivity].
           apply String.eqb_eq in E. now subst k.
Qed.

Lemma mapOneHeader_consistent (t : entityType) (hm : object) (h : string) :
  consistent t hm -> consistent t (mapOneHeader t hm h).
Proof.
  intros Hc k. rewrite (mapOneHeader_lookup t hm h k Hc).
  destruct (String.eqb h k) eqn:E; [| apply Hc].
  apply String.eqb_eq in E. subst k. now right.
Qed.

Lemma fold_mapOneHeader_lookup (t : entityType) (hs : list string) (hm : object)
  (k : string) :
  consistent t hm ->
  lookupOwn (fold_left (mapOneHeader t) hs hm) k =
  if in_dec string_dec k hs then headerEntry t k else lookupOwn hm k.
Proof.
  revert hm; induction hs as [|h hs IH]; intros hm Hc; simpl; [reflexivity |].
  rewrite (IH _ (mapOneHeader_consistent t hm h Hc)), (mapOneHeader_lookup t hm h k Hc).
  destruct (in_dec string_dec k hs) as [Hin | Hnin];
    destruct (string_dec h k) as [-> | Hne]; try reflexivity.
  - now rewrite String.eqb_refl.
  - apply String.eqb_neq in Hne. now rewrite Hne.
Qed.

Lemma buildHeaderMapping_lookup (t : entityType) (firstRow : object) (k : string) :
  lookupOwn (buildHeaderMapping t firstRow) k =
  if in_dec string_dec k (keys firstRow) then headerEntry t k else None.
Proof.
  unfold buildHeaderMapping. rewrite fold_mapOneHeader_lookup; [reflexivity |].
  intros k'. now left.
Qed.

(** *** Renaming the columns of a row *)

Lemma fold_transform_lookup (hm row : object) (h : string) (ks : list string)
  (acc : object) :
  getProp hm h = VString h ->
  h <> EmptyString ->
  (forall k, In k ks -> k <> h ->
     toBoolean (getProp hm k) = true -> toString (getProp hm k) <> h) ->
  lookupOwn (fold_left (copyColumn hm row) ks acc) h =
  if in_dec string_dec h ks then Some (getProp row h) else lookupOwn acc h.
Proof.
  intros Hh Hne. revert acc. induction ks as [|k0 ks IH]; intros acc Hcol; simpl;
    [reflexivity |].
  unfold copyColumn at 2.
  assert (Hcol' : forall k, In k ks -> k <> h ->
            toBoolean (getProp hm k) = true -> toString (getProp hm k) <> h).
  { intros k Hk. apply Hcol. now right. }
  rewrite (IH _ Hcol'). clear IH.
  destruct (string_dec k0 h) as [-> | Hk0].
  - rewrite Hh. simpl. apply String.eqb_neq in Hne. rewrite Hne. simpl.
    rewrite lookupOwn_setProp, String.eqb_refl.
    now destruct (in_dec string_dec h ks).
  - destruct (in_dec string_dec h ks); [reflexivity |].
    destruct (toBoolean (getProp hm k0)) eqn:Et; [| reflexivity].
    rewrite lookupOwn_setProp.
    assert (Hd : toString (getProp hm k0) <> h)
      by (apply Hcol; [now left | exact Hk0 | exact Et]).
    apply String.eqb_neq in Hd. now rewrite Hd.
Qed.

Lemma transformRow_lookup (hm row : object) (h : string) :
  getProp hm h = VString h ->
  h <> EmptyString ->
  (forall k, In k (keys row) -> k <> h ->
     toBoolean (getProp hm k) = true -> toString (getProp hm k) <> h) ->
  lookupOwn (transformRow hm row) h = lookupOwn row h.
Proof.
  intros Hh Hne Hcol. unfold transformRow.
  rewrite (fold_transform_lookup hm row h (keys row) [] Hh Hne Hcol).
  destruct (in_dec string_dec h (keys row)) as [Hin | Hnin].
  - apply lookupOwn_keys in Hin. destruct (lookupOwn row h) eqn:E; [| congruence].
    now rewrite (getProp_own _ _ _ E).
  - destruct (lookupOwn row h) eqn:E; [| reflexivity].
    exfalso. apply Hnin, lookupOwn_keys. congruence.
Qed.

(** A header of the first row that no label matches and that names no
    inherited property is stored under its own name. *)
Lemma unmatched_entry (t : entityType) (firstRow : object) (h : string) :
  In h (keys firstRow) ->
  findMatch (normalizeHeader h) (headerMappings t) = None ->
  ~ In h objectPrototypeNames ->
  getProp (buildHeaderMapping t firstRow) h = VString h.
Proof.
  intros Hin Hm Hp. apply getProp_own. rewrite buildHeaderMapping_lookup.
  destruct (in_dec string_dec h (keys firstRow)); [| contradiction].
  unfold headerEntry. rewrite Hm.
  destruct (objectPrototype h) eqn:E; [| reflexivity].
  exfalso. apply Hp, objectPrototype_names. congruence.
Qed.

(** No other plain column of a row is renamed to an unmatched header. *)
Lemma no_collision (t : entityType) (firstRow : object) (h k : string) :
  findMatch (normalizeHeader h) (headerMappings t) = None ->
  ~ In k objectPrototypeNames ->
  k <> h ->
  toBoolean (getProp (buildHeaderMapping t firstRow) k) = true ->
  toString (getProp (buildHeaderMapping t firstRow) k) <> h.
Proof.
  intros Hm Hp Hne. unfold getProp. rewrite buildHeaderMapping_lookup.
  assert (Hk : objectPrototype k = None).
  { destruct (objectPrototype k) eqn:E; [| reflexivity].
    exfalso. apply Hp, objectPrototype_names. congruence. }
  destruct (in_dec string_dec k (keys firstRow)).
  - unfold headerEntry. rewrite Hk.
    destruct (findMatch (normalizeHeader k) (headerMappings t)) as [f|] eqn:Ef; simpl.
    + intros _ Hf. subst f. destruct (findMatch_In _ _ _ Ef) as [label Hin].
      now apply (target_matches t label h Hin).
    + intros _. exact Hne.
  - rewrite Hk. simpl. discriminate.
Qed.

(** *** Coercing one row *)

Lemma mapM_trim (pieces : list string) :
  mapM (fun piece => callTrim piece) (map VString pieces) =
  Ok (map (coercePiece false) pieces).
Proof.
  induction pieces as [|p pieces IH]; simpl; [reflexivity |].
  now rewrite IH.
Qed.

Lemma mapM_trim_parseInt (pieces : list string) :
  mapM (fun piece => trimmed <- callTrim piece ;; Ok (VNumber (parseInt trimmed)))
       (map VString pieces) =
  Ok (map (coercePiece true) pieces).
Proof.
  induction pieces as [|p pieces IH]; simpl; [reflexivity |].
  now rewrite IH.
Qed.

(** The list expressions never raise: the [typeof] test guards the method
    calls, and [split] only yields strings. *)
Lemma coerceList_ok (numeric : bool) (raw : value) :
  coerceList numeric raw = Ok (coercedList numeric raw).
Proof.
  destruct numeric; unfold coerceList, coerceNumberList, coerceStringList;
    destruct raw; try reflexivity; simpl.
  - now rewrite mapM_trim_parseInt.
  - now rewrite mapM_trim.
Qed.

Lemma coerceStringList_ok (raw : value) :
  coerceStringList raw = Ok (coercedList false raw).
Proof. exact (coerceList_ok false raw). Qed.

Lemma coerceNumberList_ok (raw : value) :
  coerceNumberList raw = Ok (coercedList true raw).
Proof. exact (coerceList_ok true raw). Qed.

Ltac field_cases H :=
  simpl in H;
  repeat (destruct H as [H | H];
          [injection H as <-; intros; subst; repeat rewrite getProp_setProp; reflexivity |]);
  destruct H.

Ltac other_field H :=
  repeat rewrite getProp_setProp;
  repeat match goal with
    | |- context [String.eqb ?a ?k] =>
        let E := fresh "E" in
        destruct (String.eqb a k) eqn:E;
        [ apply String.eqb_eq in E; subst; exfalso; apply H; simpl; tauto | ]
    end;
  apply getProp_spread.

(** What the callback of [processData] returns: it never raises, and the
    fields of the record are the coerced ones on top of the copied row. *)
Lemma processRow_spec (t : entityType) (row : object) (index : nat) :
  exists r,
    processRow t row index = Ok r /\
    getProp r "id" =
      orElse (getProp row (idKey t)) (VString ("temp-" ++ decimal (N.of_nat index))) /\
    (forall f numeric, In (f, numeric) (listFields t) ->
       getProp r f = coercedList numeric (getProp row f)) /\
    (forall f p d, In (f, p, d) (scalarFields t) ->
       getProp r f = orElse (VNumber (parseWith p (getProp row f))) (VNumber d)) /\
    (forall k, ~ In k (coercedNames t) -> getProp r k = getProp row k).
Proof.
  destruct t; unfold processRow;
    repeat rewrite coerceStringList_ok; repeat rewrite coerceNumberList_ok;
    cbn [bind]; eexists; (split; [reflexivity |]);
    (split; [repeat rewrite getProp_setProp; reflexivity |]);
    (split; [intros f numeric H; field_cases H |]);
    (split; [intros f p d H; field_cases H |]);
    intros k H; other_field H.
Qed.

Lemma processData_ok (rawData : list object) (t : entityType) :
  exists records,
    processData rawData t = Ok records /\
    length records = length rawData /\
    forall index row, nth_error rawData index = Some row ->
      exists r, nth_error records index = Some r /\ processRow t row index = Ok r.
Proof.
  unfold processData.
  destruct (mapWithIndex_ok (processRow t) rawData) with (start := 0)
    as (records & H1 & H2 & H3).
  - intros row index. destruct (processRow_spec t row index) as (r & Hr & _).
    now exists r.
  - exists records. repeat split; assumption.
Qed.

(** *** No column is renamed to the empty string *)

Lemma inherited_text_nonempty (k : string) (v : value) :
  objectPrototype k = Some v -> toString v <> EmptyString.
Proof.
  unfold objectPrototype.
  destruct (String.eqb k "constructor"); [intros H; injection H as <-; discriminate |].
  destruct (String.eqb k "__proto__"); [intros H; injection H as <-; discriminate |].
  destruct (existsb (String.eqb k) objectPrototypeNames); [| discriminate].
  intros H; injection H as <-; discriminate.
Qed.

Lemma mapped_name_nonempty (t : entityType) (firstRow : object) (k : string) :
  toBoolean (getProp (buildHeaderMapping t firstRow) k) = true ->
  toString (getProp (buildHeaderMapping t firstRow) k) <> EmptyString.
Proof.
  unfold getProp. rewrite buildHeaderMapping_lookup.
  assert (Hproto : toBoolean match objectPrototype k with
                             | Some v => v
                             | None => VUndefined
                             end = true ->
                   toString match objectPrototype k with
                            | Some v => v
                            | None => VUndefined
                            end <> EmptyString).
  { destruct (objectPrototype k) eqn:Ep; [| discriminate].
    intros _. now apply (inherited_text_nonempty k). }
  destruct (in_dec string_dec k (keys firstRow)); [| exact Hproto].
  unfold headerEntry.
  destruct (findMatch (normalizeHeader k) (headerMappings t)) as [f|] eqn:Ef.
  - simpl. intros Hf ->. discriminate.
  - destruct (objectPrototype k) eqn:Ep.
    + intros _. now apply (inherited_text_nonempty k).
    + simpl. intros Hk ->. discriminate.
Qed.

Lemma fold_copyColumn_no_empty (t : entityType) (firstRow row : object)
  (ks : list string) (acc : object) :
  lookupOwn acc EmptyString = None ->
  lookupOwn (fold_left (copyColumn (buildHeaderMapping t firstRow) row) ks acc) EmptyString
  = None.
Proof.
  revert acc; induction ks as [|k ks IH]; intros acc Hacc; simpl; [exact Hacc |].
  apply IH. unfold copyColumn.
  destruct (toBoolean (getProp (buildHeaderMapping t firstRow) k)) eqn:E; [| exact Hacc].
  rewrite lookupOwn_setProp.
  assert (Hne := mapped_name_nonempty t firstRow k E).
  apply String.eqb_neq in Hne. now rewrite Hne.
Qed.

Lemma transformRow_no_empty (t : entityType) (firstRow row : object) :
  lookupOwn (transformRow (buildHeaderMapping t firstRow) row) EmptyString = None.
Proof. unfold transformRow. now apply fold_copyColumn_no_empty. Qed.

(** *** The id key never survives the header normaliser *)

Lemma idKey_not_inherited (t : entityType) : objectPrototype (idKey t) = None.
Proof. now destruct t. Qed.

Lemma idKey_not_target (t : entityType) (label field : string) :
  In (label, field) (headerMappings t) -> field <> idKey t.
Proof.
  destruct t; simpl; intros H;
    repeat (destruct H as [H | H]; [injection H as <- <-; discriminate |]);
    destruct H.
Qed.

Lemma idKey_matches (t : entityType) :
  findMatch (normalizeHeader (idKey t)) (headerMappings t) <> None.
Proof. destruct t; vm_compute; discriminate. Qed.

Lemma inherited_text_not_idKey (t : entityType) (k : string) (v : value) :
  objectPrototype k = Some v -> toString v <> idKey t.
Proof.
  unfold objectPrototype.
  destruct (String.eqb k "constructor");
    [intros H; injection H as <-; destruct t; discriminate |].
  destruct (String.eqb k "__proto__");
    [intros H; injection H as <-; destruct t; discriminate |].
  destruct (existsb (String.eqb k) objectPrototypeNames); [| discriminate].
  intros H; injection H as <-; destruct t; discriminate.
Qed.

Lemma mapped_name_not_idKey (t : entityType) (firstRow : object) (k : string) :
  toBoolean (getProp (buildHeaderMapping t firstRow) k) = true ->
  toString (getProp (buildHeaderMapping t firstRow) k) <> idKey t.
Proof.
  unfold getProp. rewrite buildHeaderMapping_lookup.
  assert (Hproto : toBoolean match objectPrototype k with
                             | Some v => v
                             | None => VUndefined
                             end = true ->
                   toString match objectPrototype k with
                            | Some v => v
                            | None => VUndefined
                            end <> idKey t).
  { destruct (objectPrototype k) eqn:Ep; [| discriminate].
    intros _. now apply (inherited_text_not_idKey t k). }
  destruct (in_dec string_dec k (keys firstRow)); [| exact Hproto].
  unfold headerEntry.
  destruct (findMatch (normalizeHeader k) (headerMappings t)) as [f|] eqn:Ef.
  - intros _. simpl. destruct (findMatch_In _ _ _ Ef) as [label Hin].
    now apply (idKey_not_target t label).
  - destruct (objectPrototype k) eqn:Ep.
    + intros _. now apply (inherited_text_not_idKey t k).
    + intros _ Hk. simpl in Hk. subst k. now apply (idKey_matches t).
Qed.

Lemma fold_copyColumn_no_idKey (t : entityType) (firstRow row : object)
  (ks : list string) (acc : object) :
  lookupOwn acc (idKey t) = None ->
  lookupOwn (fold_left (copyColumn (buildHeaderMapping t firstRow) row) ks acc) (idKey t)
  = None.
Proof.
  revert acc; induction ks as [|k ks IH]; intros acc Hacc; simpl; [exact Hacc |].
  apply IH. unfold copyColumn.
  destruct (toBoolean (getProp (buildHeaderMapping t firstRow) k)) eqn:E; [| exact Hacc].
  rewrite lookupOwn_setProp.
  assert (Hne := mapped_name_not_idKey t firstRow k E).
  apply String.eqb_neq in Hne. now rewrite Hne.
Qed.

Lemma transformRow_no_idKey (t : entityType) (firstRow row : object) :
  getProp (transformRow (buildHeaderMapping t firstRow) row) (idKey t) = VUndefined.
Proof.
  unfold getProp, transformRow.
  rewrite fold_copyColumn_no_idKey; [| reflexivity].
  now rewrite idKey_not_inherited.
Qed.

(** Through the import, every record receives the synthesized id. *)
Lemma import_ids_are_synthesized (rawData : list object) (t : entityType) :
  exists records,
    processData (mapHeaders rawData t) t = Ok records /\
    length records = length rawData /\
    forall index r, nth_error records index = Some r ->
      getProp r "id" = VString ("temp-" ++ decimal (N.of_nat index)).
Proof.
  destruct (processData_ok (mapHeaders rawData t) t) as (records & Hok & Hlen & Hrows).
  exists records. split; [exact Hok |]. split.
  - rewrite Hlen. unfold mapHeaders. destruct rawData; [reflexivity | apply length_map].
  - intros index r Hr.
    assert (Hlt : index < length (mapHeaders rawData t)).
    { rewrite <- Hlen. apply nth_error_Some. congruence. }
    destruct (nth_error (mapHeaders rawData t) index) as [row'|] eqn:Erow;
      [| apply nth_error_None in Erow; lia].
    destruct (Hrows index row' Erow) as (r' & Hr' & Hproc).
    assert (r' = r) by congruence. subst r'.
    destruct (processRow_spec t row' index) as (r2 & Hr2 & Hid & _).
    assert (r2 = r) by congruence. subst r2.
    rewrite Hid.
    assert (Hundef : getProp row' (idKey t) = VUndefined).
    { unfold mapHeaders in Erow. destruct rawData as [|firstRow rest].
      - destruct index; discriminate.
      - apply nth_error_In, in_map_iff in Erow. destruct Erow as (row & <- & _).
        apply transformRow_no_idKey. }
    now rewrite Hundef.
Qed.

End FileUploadFacts.

(* ===================================================================== *)
(** ** Rows that hold no plain object *)
(* ===================================================================== *)

Module PlainRows.
Import JS JSFacts FileUpload FileUploadFacts.

Lemma lookupOwn_In (o : object) (k : string) (v : value) :
  lookupOwn o k = Some v -> In (k, v) o.
Proof.
  induction o as [|[k0 v0] o IH]; simpl; [discriminate |].
  destruct (String.eqb k0 k) eqn:E.
  - apply String.eqb_eq in E. subst k0. intros [= ->]. now left.
  - intros H. right. now apply IH.
Qed.

Lemma rowHasNoObject_spec (o : object) :
  rowHasNoObject o = true <-> forall k v, In (k, v) o -> hasNoObject v = true.
Proof.
  unfold rowHasNoObject. rewrite forallb_forall. split.
  - intros H k v Hin. exact (H (k, v) Hin).
  - intros H [k v] Hin. exact (H k v Hin).
Qed.

Lemma In_replaceOwn (o : object) (k : string) (v : value) (e : string * value) :
  In e (replaceOwn o k v) -> e = (k, v) \/ In e o.
Proof.
  induction o as [|[k0 v0] o IH]; simpl; [tauto |].
  destruct (String.eqb k0 k); simpl; intuition.
Qed.

Lemma In_insertIndexed (i : N) (o : object) (k : string) (v : value)
  (e : string * value) :
  In e (insertIndexed i k v o) -> e = (k, v) \/ In e o.
Proof.
  induction o as [|[k0 v0] o IH]; simpl; [intuition |].
  destruct (arrayIndex k0) as [j|]; [destruct (j <? i)%N |]; simpl; intuition.
Qed.

(** An assignment adds the assigned value and nothing else. *)
Lemma In_setProp (o : object) (k : string) (v : value) (e : string * value) :
  In e (setProp o k v) -> e = (k, v) \/ In e o.
Proof.
  unfold setProp. destruct (lookupOwn o k).
  - apply In_replaceOwn.
  - destruct (arrayIndex k).
    + apply In_insertIndexed.
    + rewrite in_app_iff. simpl. intuition.
Qed.

Lemma setProp_noObject (o : object) (k : string) (v : value) :
  rowHasNoObject o = true -> hasNoObject v = true ->
  rowHasNoObject (setProp o k v) = true.
Proof.
  rewrite !rowHasNoObject_spec. intros Ho Hv k' v' Hin.
  apply In_setProp in Hin. destruct Hin as [[= -> ->] | Hin]; [exact Hv |].
  exact (Ho k' v' Hin).
Qed.

(** A read finds an own value, a built-in function or [undefined]; only
    the inherited [__proto__] is an object. *)
Lemma getProp_noObject (o : object) (k : string) :
  rowHasNoObject o = true ->
  lookupOwn o k <> None \/ k <> "__proto__" ->
  hasNoObject (getProp o k) = true.
Proof.
  rewrite rowHasNoObject_spec. intros Ho Hk. unfold getProp.
  destruct (lookupOwn o k) as [v|] eqn:E.
  - apply lookupOwn_In in E. exact (Ho k v E).
  - destruct Hk as [Hk | Hk]; [congruence |].
    unfold objectPrototype.
    destruct (String.eqb k "constructor"); [reflexivity |].
    destruct (String.eqb k "__proto__") eqn:Ep.
    + apply String.eqb_eq in Ep. contradiction.
    + now destruct (existsb (String.eqb k) objectPrototypeNames).
Qed.

Lemma fold_left_keeps {A : Type} (P : object -> Prop) (f : object -> A -> object)
  (l : list A) (acc : object) :
  P acc -> (forall c a, In a l -> P c -> P (f c a)) -> P (fold_left f l acc).
Proof.
  revert acc. induction l as [|a l IH]; intros acc Hacc Hstep; simpl; [exact Hacc |].
  apply IH.
  - apply Hstep; [now left | exact Hacc].
  - intros c a' Ha'. apply Hstep. now right.
Qed.

Lemma spread_noObject (o : object) :
  rowHasNoObject o = true -> rowHasNoObject (spread o) = true.
Proof.
  intros Ho. unfold spread.
  apply (fold_left_keeps (fun c => rowHasNoObject c = true)); [reflexivity |].
  intros c k Hk Hc. apply setProp_noObject; [exact Hc |].
  apply getProp_noObject; [exact Ho |]. left. now apply lookupOwn_keys.
Qed.

Lemma transformRow_noObject (headerMapping row : object) :
  rowHasNoObject row = true -> rowHasNoObject (transformRow headerMapping row) = true.
Proof.
  intros Ho. unfold transformRow.
  apply (fold_left_keeps (fun c => rowHasNoObject c = true)); [reflexivity |].
  intros c k Hk Hc. unfold copyColumn.
  destruct (toBoolean (getProp headerMapping k)); [| exact Hc].
  apply setProp_noObject; [exact Hc |].
  apply getProp_noObject; [exact Ho |]. left. now apply lookupOwn_keys.
Qed.

Lemma mapHeaders_noObject (rawData : list object) (t : entityType) :
  forallb rowHasNoObject rawData = true ->
  forallb rowHasNoObject (mapHeaders rawData t) = true.
Proof.
  intros H. unfold mapHeaders. destruct rawData as [|firstRow rest]; [reflexivity |].
  rewrite forallb_forall in *. intros r Hr. apply in_map_iff in Hr.
  destruct Hr as (row & <- & Hrow). apply transformRow_noObject. now apply H.
Qed.

Lemma orElse_noObject (a b : value) :
  hasNoObject a = true -> hasNoObject b = true -> hasNoObject (orElse a b) = true.
Proof. unfold orElse. now destruct (toBoolean a). Qed.

Lemma coercedList_noObject (numeric : bool) (raw : value) :
  hasNoObject raw = true -> hasNoObject (coercedList numeric raw) = true.
Proof.
  destruct raw as [| |b|n|s|items| |name]; intros H;
    try (apply orElse_noObject; [exact H | reflexivity]).
  simpl. apply forallb_forall. intros v Hv. apply in_map_iff in Hv.
  destruct Hv as (piece & <- & _). now destruct numeric.
Qed.

Lemma coerceInt_noObject (raw : value) (fallback : number) :
  hasNoObject (coerceInt raw fallback) = true.
Proof. unfold coerceInt, orElse. now destruct (toBoolean _). Qed.

Lemma coerceFloat_noObject (raw : value) (fallback : number) :
  hasNoObject (coerceFloat raw fallback) = true.
Proof. unfold coerceFloat, orElse. now destruct (toBoolean _). Qed.

Ltac own_or_plain Hrow :=
  apply getProp_noObject; [exact Hrow | right; vm_compute; discriminate].

(** The coercer stores text, numbers and arrays of these on top of the
    values of the row: a row without objects gives a record without
    objects. *)
Lemma processRow_noObject (t : entityType) (row r : object) (index : nat) :
  rowHasNoObject row = true -> processRow t row index = Ok r ->
  rowHasNoObject r = true.
Proof.
  intros Hrow. destruct t; unfold processRow;
    repeat rewrite coerceStringList_ok; repeat rewrite coerceNumberList_ok;
    cbn [bind]; intros [= <-];
    repeat (apply setProp_noObject;
            [| first [ apply coerceInt_noObject
                     | apply coerceFloat_noObject
                     | apply coercedList_noObject; own_or_plain Hrow
                     | apply orElse_noObject; [own_or_plain Hrow | reflexivity] ]]);
    now apply spread_noObject.
Qed.

Lemma processData_noObject (rawData records : list object) (t : entityType) :
  forallb rowHasNoObject rawData = true ->
  processData rawData t = Ok records ->
  forallb rowHasNoObject records = true.
Proof.
  intros Hraw Hok.
  destruct (processData_ok rawData t) as (records' & Hok' & Hlen & Hrows).
  assert (records' = records) by congruence. subst records'.
  rewrite forallb_forall in *. intros r Hr.
  apply In_nth_error in Hr. destruct Hr as [j Hj].
  assert (Hlt : j < length rawData).
  { rewrite <- Hlen. apply nth_error_Some. congruence. }
  destruct (nth_error rawData j) as [row|] eqn:Erow;
    [| apply nth_error_None in Erow; lia].
  destruct (Hrows j row Erow) as (r' & Hr' & Hproc).
  assert (r' = r) by congruence. subst r'.
  apply (processRow_noObject t row r j); [| exact Hproc].
  apply Hraw. exact (nth_error_In _ _ Erow).
Qed.

End PlainRows.

(* ===================================================================== *)
(** ** The header normaliser *)
(* ===================================================================== *)

Module HeaderNormalizer.
Import JS JSFacts FileUpload FileUploadFacts.

(** C1 (amended): for every entity kind and every entry (label, field) of
    its header table, a header of the first row whose trimmed, lowercased
    form contains the label's lowercased, white-space-free form as a
    substring, and contains the form of no label declared before it, is
    mapped to that canonical field: [headerMapping[header]] is the field. *)
Theorem header_maps_to_first_contained_label :
  forall (t : entityType) (firstRow : object) (h : string)
         (before after : list (string * string)) (label field : string),
    headerMappings t = (before ++ (label, field) :: after)%list ->
    In h (keys firstRow) ->
    (exists a b, normalizeHeader h = a ++ normalizeLabel label ++ b) ->
    (forall l f, In (l, f) before ->
       ~ exists a b, normalizeHeader h = a ++ normalizeLabel l ++ b) ->
    getProp (buildHeaderMapping t firstRow) h = VString field.
Proof.
  intros t firstRow h before after label field Htable Hin Hsub Hfirst.
  apply getProp_own. rewrite buildHeaderMapping_lookup.
  destruct (in_dec string_dec h (keys firstRow)); [| contradiction].
  unfold headerEntry. rewrite Htable.
  rewrite (findMatch_first (normalizeHeader h) before after label field);
    [reflexivity | | now apply includes_spec].
  intros l f Hl. specialize (Hfirst l f Hl).
  destruct (includes (normalizeHeader h) (normalizeLabel l)) eqn:E; [| reflexivity].
  exfalso. apply Hfirst. now apply includes_spec.
Qed.

(** The header ["ClientID"] of a clients file maps to [ClientID]. *)
Lemma ClientID_header_maps_to_ClientID :
  (exists a b, normalizeHeader "ClientID" = a ++ normalizeLabel "Client ID" ++ b) /\
  getProp (buildHeaderMapping clients [("ClientID", VString "C1")]) "ClientID"
  = VString "ClientID".
Proof.
  split.
  - exists EmptyString, EmptyString. reflexivity.
  - apply (header_maps_to_first_contained_label clients
             [("ClientID", VString "C1")] "ClientID" []
             (tl (headerMappings clients)) "Client ID" "ClientID").
    + reflexivity.
    + simpl. left. reflexivity.
    + exists EmptyString, EmptyString. reflexivity.
    + intros l f [].
Defined.

(** C1, as stated, fails twice.  A header that contains two labels goes to
    the one declared first: ["ClientName ClientID"] contains the label of
    [ClientName] and is mapped to [ClientID].  And the header is only
    trimmed, never stripped of inner white space: ["Client ID"] and
    ["  client id  "] do not contain ["clientid"] and keep their names. *)
Lemma header_claim_counterexample :
  includes (normalizeHeader "ClientName ClientID") (normalizeLabel "Client Name") = true /\
  getProp (buildHeaderMapping clients [("ClientName ClientID", VString "x")])
          "ClientName ClientID" = VString "ClientID" /\
  normalizeHeader "Client ID" = "client id" /\
  normalizeLabel "Client ID" = "clientid" /\
  getProp (buildHeaderMapping clients [("Client ID", VString "C1")]) "Client ID"
  = VString "Client ID" /\
  getProp (buildHeaderMapping clients [("  client id  ", VString "C1")]) "  client id  "
  = VString "  client id  " /\
  mapHeaders [[("Client ID", VString "C1")]] clients = [[("Client ID", VString "C1")]].
Proof. repeat split; vm_compute; reflexivity. Qed.

(** C6 (amended): in a file none of whose column names is the name of a
    property inherited from [Object.prototype], every non-empty header of
    the first row that contains no canonical label is mapped to itself,
    and its column survives under that name in every row.  A column whose
    header is empty does not survive: no row of the normalised data has a
    column of the empty name. *)
Theorem unmatched_header_survives :
  (forall (t : entityType) (firstRow : object) (rest : list object) (h : string),
    In h (keys firstRow) ->
    (forall label field, In (label, field) (headerMappings t) ->
       ~ exists a b, normalizeHeader h = a ++ normalizeLabel label ++ b) ->
    h <> EmptyString ->
    (forall row k, In row (firstRow :: rest) -> In k (keys row) ->
       ~ In k objectPrototypeNames) ->
    getProp (buildHeaderMapping t firstRow) h = VString h /\
    forall i row, nth_error (firstRow :: rest) i = Some row ->
      exists row', nth_error (mapHeaders (firstRow :: rest) t) i = Some row' /\
                   lookupOwn row' h = lookupOwn row h) /\
  (forall (t : entityType) (firstRow : object) (rest : list object) (row' : object),
    In row' (mapHeaders (firstRow :: rest) t) -> lookupOwn row' EmptyString = None).
Proof.
  split.
  - intros t firstRow rest h Hin Hlabels Hne Hplain.
    assert (Hm : findMatch (normalizeHeader h) (headerMappings t) = None).
    { apply findMatch_None. intros l f Hl.
      destruct (includes (normalizeHeader h) (normalizeLabel l)) eqn:E; [| reflexivity].
      exfalso. apply (Hlabels l f Hl). now apply includes_spec. }
    assert (Hh : ~ In h objectPrototypeNames).
    { apply (Hplain firstRow h); [now left | exact Hin]. }
    assert (Hentry := unmatched_entry t firstRow h Hin Hm Hh).
    split; [exact Hentry |].
    intros i row Hrow. unfold mapHeaders.
    exists (transformRow (buildHeaderMapping t firstRow) row). split.
    + now apply map_nth_error.
    + apply transformRow_lookup; [exact Hentry | exact Hne |].
      intros k Hk Hkh. apply no_collision; [exact Hm | | exact Hkh].
      apply (Hplain row k); [| exact Hk]. eapply nth_error_In; eassumption.
  - intros t firstRow rest row' Hrow'. unfold mapHeaders in Hrow'.
    apply in_map_iff in Hrow'. destruct Hrow' as (row & <- & _).
    apply transformRow_no_empty.
Qed.

(** The header ["Notes"] of a clients file maps to ["Notes"], and the
    column is kept. *)
Lemma Notes_header_passes_through :
  findMatch (normalizeHeader "Notes") (headerMappings clients) = None /\
  getProp (buildHeaderMapping clients [("ClientID", VString "C1"); ("Notes", VString "n")])
          "Notes" = VString "Notes" /\
  exists row',
    nth_error (mapHeaders [[("ClientID", VString "C1"); ("Notes", VString "n")]] clients) 0
    = Some row' /\
    lookupOwn row' "Notes" = Some (VString "n").
Proof.
  destruct (proj1 unmatched_header_survives clients
              [("ClientID", VString "C1"); ("Notes", VString "n")] [] "Notes")
    as [Hmap Hrows].
  - simpl. right. left. reflexivity.
  - intros label field Hl Hsub. apply includes_spec in Hsub.
    simpl in Hl.
    repeat (destruct Hl as [Hl | Hl];
            [injection Hl as <- <-; vm_compute in Hsub; discriminate |]).
    destruct Hl.
  - discriminate.
  - intros row k [<- | []] Hk Hp. simpl in Hk.
    destruct Hk as [<- | [<- | []]]; simpl in Hp;
      repeat (destruct Hp as [Hp | Hp]; [discriminate |]); destruct Hp.
  - split; [reflexivity |]. split; [exact Hmap |].
    destruct (Hrows 0 [("ClientID", VString "C1"); ("Notes", VString "n")] eq_refl)
      as (row' & Hnth & Hlook).
    exists row'. split; [exact Hnth | exact Hlook].
Defined.

(** C6, as stated, fails on the empty header: it contains no label and is
    mapped to itself, but the guard [if (newKey)] drops its column.  A
    header that names an inherited property, such as ["constructor"], is
    not mapped to itself either: its column is renamed to the text of the
    inherited value. *)
Lemma empty_header_column_is_dropped :
  findMatch (normalizeHeader "") (headerMappings clients) = None /\
  getProp (buildHeaderMapping clients [("", VString "x"); ("Notes", VString "n")]) ""
  = VString "" /\
  mapHeaders [[("", VString "x"); ("Notes", VString "n")]] clients
  = [[("Notes", VString "n")]] /\
  findMatch (normalizeHeader "constructor") (headerMappings clients) = None /\
  mapHeaders [[("constructor", VString "x")]] clients
  = [[("function Object() { [native code] }", VString "x")]].
Proof. repeat split; vm_compute; reflexivity. Qed.

End HeaderNormalizer.

(* ===================================================================== *)
(** ** The record coercer *)
(* ===================================================================== *)

Module RecordCoercer.
Import JS JSFacts FileUpload FileUploadFacts.

Lemma orElse_number_default (n d : number) :
  numberIsFalsy n = true -> orElse (VNumber n) (VNumber d) = VNumber d.
Proof. unfold orElse. simpl. now intros ->. Qed.

Lemma orElse_number_kept (n d : number) :
  numberIsFalsy n = false -> orElse (VNumber n) (VNumber d) = VNumber n.
Proof. unfold orElse. simpl. now intros ->. Qed.

Lemma orElse_truthy (a b : value) :
  toBoolean b = true -> toBoolean (orElse a b) = true.
Proof. unfold orElse. intros Hb. now destruct (toBoolean a) eqn:E. Qed.

Lemma coercePiece_hasType (numeric : bool) (pieces : list string) :
  hasType (VArray (map (coercePiece numeric) pieces)) (listType numeric) = true.
Proof.
  destruct numeric; simpl; induction pieces as [|p pieces IH]; simpl; auto.
Qed.

(** C2: the coercer reads the id from the key built by
    [`${entityType.slice(0, -1)}ID`], which is [clientID], [workerID] or
    [taskID] with a lower-case initial, so the canonical [ClientID],
    [WorkerID] and [TaskID] of a row are never consulted: a row that has
    its id field still receives the synthesized [temp-<index>].  As the
    header normaliser never leaves a column under the lower-case key,
    every record of an import receives the synthesized id. *)
Theorem canonical_id_field_is_not_read :
  idKey clients = "clientID" /\ idKey workers = "workerID" /\ idKey tasks = "taskID" /\
  (exists r, processData [[("ClientID", VString "C1")]] clients = Ok [r] /\
             getProp r "ClientID" = VString "C1" /\ getProp r "id" = VString "temp-0") /\
  (exists r, processData [[("WorkerID", VString "W1")]] workers = Ok [r] /\
             getProp r "WorkerID" = VString "W1" /\ getProp r "id" = VString "temp-0") /\
  (exists r0 r1 r2,
      processData [[("TaskID", VString "T1")]; [("TaskID", VString "T2")];
                   [("TaskName", VString "no id")]] tasks = Ok [r0; r1; r2] /\
      getProp r1 "TaskID" = VString "T2" /\ getProp r1 "id" = VString "temp-1" /\
      getProp r2 "id" = VString "temp-2") /\
  (forall (rawData : list object) (t : entityType),
    exists records,
      processData (mapHeaders rawData t) t = Ok records /\
      length records = length rawData /\
      forall index r, nth_error records index = Some r ->
        getProp r "id" = VString ("temp-" ++ decimal (N.of_nat index))).
Proof.
  split; [reflexivity |]. split; [reflexivity |]. split; [reflexivity |].
  split; [eexists; vm_compute; repeat split; reflexivity |].
  split; [eexists; vm_compute; repeat split; reflexivity |].
  split; [do 3 eexists; vm_compute; repeat split; reflexivity |].
  exact import_ids_are_synthesized.
Qed.

(** C3 (amended): for every row and entity kind the coercer returns a
    record in which [id] is truthy, every scalar numeric field is a number
    other than [NaN], and every list field is defined: an array of the
    declared element type when the raw value was a string or falsy, the
    raw value itself when it was any other truthy value.  Every other
    field is copied from the row as it is. *)
Theorem coerced_record_shape :
  forall (t : entityType) (row : object) (index : nat),
  exists r,
    processRow t row index = Ok r /\
    toBoolean (getProp r "id") = true /\
    (forall f p d, In (f, p, d) (scalarFields t) ->
       exists n, getProp r f = VNumber n /\ n <> NaN) /\
    (forall f numeric, In (f, numeric) (listFields t) ->
       getProp r f <> VUndefined /\
       (isString (getProp row f) = true \/ toBoolean (getProp row f) = false ->
        hasType (getProp r f) (listType numeric) = true) /\
       (isString (getProp row f) = false -> toBoolean (getProp row f) = true ->
        getProp r f = getProp row f)) /\
    (forall k, ~ In k (coercedNames t) -> getProp r k = getProp row k).
Proof.
  intros t row index.
  destruct (processRow_spec t row index) as (r & Hr & Hid & Hlist & Hnum & Hother).
  exists r. split; [exact Hr |]. split; [| split; [| split; [| exact Hother]]].
  - rewrite Hid. now apply orElse_truthy.
  - intros f p d Hf. rewrite (Hnum f p d Hf).
    destruct (numberIsFalsy (parseWith p (getProp row f))) eqn:E.
    + rewrite (orElse_number_default _ _ E). exists d. split; [reflexivity |].
      destruct t; simpl in Hf;
        repeat (destruct Hf as [Hf | Hf]; [injection Hf as <- <- <-; discriminate |]);
        destruct Hf.
    + rewrite (orElse_number_kept _ _ E). eexists. split; [reflexivity |].
      intros Hn. rewrite Hn in E. discriminate.
  - intros f numeric Hf. rewrite (Hlist f numeric Hf).
    destruct (getProp row f) as [| |b|n|s|items| |name] eqn:Eraw; simpl;
      unfold orElse; simpl;
      try (split; [discriminate | split; [intros _; now destruct numeric | ]];
           intros; try reflexivity; discriminate).
    + destruct b; simpl;
        (split; [discriminate | split; [| intros; try reflexivity; discriminate]]).
      * intros [H | H]; discriminate.
      * intros _. now destruct numeric.
    + destruct (numberIsFalsy n) eqn:En; simpl;
        (split; [discriminate | split; [| intros; try reflexivity; discriminate]]).
      * intros _. now destruct numeric.
      * intros [H | H]; discriminate.
    + split; [discriminate |]. split; [| discriminate].
      intros _. apply coercePiece_hasType.
    + split; [discriminate |]. split; [| reflexivity]. intros [H | H]; discriminate.
    + split; [discriminate |]. split; [| reflexivity]. intros [H | H]; discriminate.
    + split; [discriminate |]. split; [| reflexivity]. intros [H | H]; discriminate.
Qed.

(** The shape of the record coerced from a clients row that has a name, a
    priority and a list of task ids. *)
Lemma coerced_client_shape :
  exists r,
    processRow clients
      [("ClientName", VString "Acme"); ("PriorityLevel", VString "3");
       ("RequestedTaskIDs", VString "T1,T2")] 0 = Ok r /\
    toBoolean (getProp r "id") = true /\
    (exists n, getProp r "PriorityLevel" = VNumber n /\ n <> NaN) /\
    hasType (getProp r "RequestedTaskIDs") TStringArray = true /\
    getProp r "ClientName" = VString "Acme".
Proof.
  destruct (coerced_record_shape clients
              [("ClientName", VString "Acme"); ("PriorityLevel", VString "3");
               ("RequestedTaskIDs", VString "T1,T2")] 0)
    as (r & Hr & Hid & Hnum & Hlist & Hother).
  exists r. split; [exact Hr |]. split; [exact Hid |]. split; [| split].
  - apply (Hnum "PriorityLevel" IntegerField one). simpl. left. reflexivity.
  - destruct (Hlist "RequestedTaskIDs" false) as (_ & Htyped & _).
    + simpl. left. reflexivity.
    + apply Htyped. left. reflexivity.
  - rewrite (Hother "ClientName"); [reflexivity |].
    simpl. intros H.
    repeat (destruct H as [H | H]; [discriminate |]). destruct H.
Defined.

(** C3, as stated, fails: a field the row omits and the coercer does not
    assign stays undefined (an empty clients row has no [ClientName],
    [ClientGroup], [ClientID] or [AttributesJSON]), and a list field whose
    raw value is a truthy non-string, such as the number 5, keeps it. *)
Lemma omitted_fields_stay_undefined :
  (exists r, processRow clients [] 0 = Ok r /\
             getProp r "ClientName" = VUndefined /\
             getProp r "ClientGroup" = VUndefined /\
             getProp r "ClientID" = VUndefined /\
             getProp r "AttributesJSON" = VUndefined /\
             hasType (getProp r "ClientName") TString = false) /\
  (exists r, processRow clients [("RequestedTaskIDs", VNumber (Finite false 5 0))] 0 = Ok r /\
             getProp r "RequestedTaskIDs" = VNumber (Finite false 5 0) /\
             hasType (getProp r "RequestedTaskIDs") TStringArray = false).
Proof. split; eexists; vm_compute; repeat split; reflexivity. Qed.

(** C4: for every scalar numeric field, when parsing the raw value fails
    (the parser returns [NaN]) the record holds the field's fixed
    fallback: 1 for [PriorityLevel], [Duration], [MaxLoadPerPhase] and
    [MaxConcurrent], 0 for [MaxBudget] and [HourlyRate].  A non-numeric
    text, the empty text, [NaN] and a missing value all fail to parse;
    [PriorityLevel: "abc"] coerces to 1 and [MaxBudget: ""] to 0. *)
Theorem numeric_fallback_on_parse_failure :
  (forall (t : entityType) (row : object) (index : nat)
          (f : string) (p : numericParser) (d : number),
      In (f, p, d) (scalarFields t) ->
      parseWith p (getProp row f) = NaN ->
      exists r, processRow t row index = Ok r /\ getProp r f = VNumber d) /\
  (forall t f p d, In (f, p, d) (scalarFields t) ->
     d = (if existsb (String.eqb f) ["MaxBudget"; "HourlyRate"] then zero else one)) /\
  (forall p, parseWith p (VString "abc") = NaN /\ parseWith p (VString "") = NaN /\
             parseWith p (VNumber NaN) = NaN /\ parseWith p VUndefined = NaN) /\
  (exists r, processRow clients [("PriorityLevel", VString "abc")] 0 = Ok r /\
             getProp r "PriorityLevel" = VNumber one) /\
  (exists r, processRow clients [("MaxBudget", VString "")] 0 = Ok r /\
             getProp r "MaxBudget" = VNumber zero).
Proof.
  split; [| split; [| split; [| split]]].
  - intros t row index f p d Hf Hnan.
    destruct (processRow_spec t row index) as (r & Hr & _ & _ & Hnum & _).
    exists r. split; [exact Hr |]. rewrite (Hnum f p d Hf), Hnan. reflexivity.
  - intros t f p d Hf. destruct t; simpl in Hf;
      repeat (destruct Hf as [Hf | Hf]; [injection Hf as <- <- <-; reflexivity |]);
      destruct Hf.
  - intros p. destruct p; repeat split; reflexivity.
  - eexists. split; vm_compute; reflexivity.
  - eexists. split; vm_compute; reflexivity.
Qed.

(** The fallback at work on a clients row with [PriorityLevel: "abc"]. *)
Lemma PriorityLevel_abc_coerces_to_one :
  In ("PriorityLevel", IntegerField, one) (scalarFields clients) /\
  parseWith IntegerField (getProp [("PriorityLevel", VString "abc")] "PriorityLevel") = NaN /\
  exists r, processRow clients [("PriorityLevel", VString "abc")] 0 = Ok r /\
            getProp r "PriorityLevel" = VNumber one.
Proof.
  split; [simpl; left; reflexivity |]. split; [reflexivity |].
  apply (proj1 numeric_fallback_on_parse_failure clients
           [("PriorityLevel", VString "abc")] 0 "PriorityLevel" IntegerField one).
  - simpl. left. reflexivity.
  - reflexivity.
Defined.

(** C5: every list-typed field of a coerced record is, for a textual raw
    value, the list of its comma-separated pieces, each trimmed (and
    parsed as an integer for [PreferredPhases] and [AvailableSlots]); an
    array passes through unchanged; an absent value gives the empty
    list.  [Skills: "go, rust,  python"] coerces to
    [["go","rust","python"]], which joined with [", "] reads
    ["go, rust, python"]. *)
Theorem list_fields_coercion :
  (forall (t : entityType) (row : object) (index : nat),
    exists r,
      processRow t row index = Ok r /\
      forall f numeric, In (f, numeric) (listFields t) ->
        (forall s, getProp row f = VString s ->
           getProp r f = VArray (map (coercePiece numeric) (split "," s))) /\
        (forall items, getProp row f = VArray items -> getProp r f = VArray items) /\
        (getProp row f = VUndefined -> getProp r f = VArray [])) /\
  (forall p, coercePiece false p = VString (trim p) /\
             coercePiece true p = VNumber (parseIntString (trim p))) /\
  (listFields clients = [("RequestedTaskIDs", false); ("PreferredPhases", true)] /\
   listFields workers = [("Skills", false); ("AvailableSlots", true)] /\
   listFields tasks =
     [("RequiredSkills", false); ("PreferredPhases", true); ("Dependencies", false)]) /\
  (exists r, processRow workers [("Skills", VString "go, rust,  python")] 0 = Ok r /\
             getProp r "Skills" = VArray [VString "go"; VString "rust"; VString "python"]) /\
  join ", " (map trim (split "," "go, rust,  python")) = "go, rust, python" /\
  (forall s : string,
     map trim (split "," (join ", " (map trim (split "," s)))) = map trim (split "," s)).
Proof.
  split; [| split; [| split; [| split; [| split]]]].
  - intros t row index.
    destruct (processRow_spec t row index) as (r & Hr & _ & Hlist & _ & _).
    exists r. split; [exact Hr |].
    intros f numeric Hf. rewrite (Hlist f numeric Hf).
    repeat split.
    + intros s ->. reflexivity.
    + intros items ->. reflexivity.
    + intros ->. reflexivity.
  - intros p. split; reflexivity.
  - repeat split; reflexivity.
  - eexists. split; vm_compute; reflexivity.
  - vm_compute; reflexivity.
  - exact split_join_roundtrip.
Qed.

(** The list fields of a workers row: a text of skills, an array of slots. *)
Lemma worker_lists_coerce :
  exists r,
    processRow workers
      [("Skills", VString "go, rust,  python");
       ("AvailableSlots", VArray [VNumber one])] 4 = Ok r /\
    getProp r "Skills" = VArray [VString "go"; VString "rust"; VString "python"] /\
    getProp r "AvailableSlots" = VArray [VNumber one].
Proof.
  destruct (proj1 list_fields_coercion workers
              [("Skills", VString "go, rust,  python");
               ("AvailableSlots", VArray [VNumber one])] 4)
    as (r & Hr & Hlist).
  exists r. split; [exact Hr |]. split.
  - destruct (Hlist "Skills" false) as (Htext & _ & _); [simpl; left; reflexivity |].
    apply (Htext "go, rust,  python"). reflexivity.
  - destruct (Hlist "AvailableSlots" true) as (_ & Harray & _);
      [simpl; right; left; reflexivity |].
    apply Harray. reflexivity.
Defined.




(** C10: the fallback is taken on the truthiness of the parsed number: a
    scalar numeric field whose raw value parses to a zero or to [NaN]
    holds the field's fallback, any other parsed number is kept.  So an
    integer field of a coerced record is never 0: ["0"] coerces to 1 for
    [PriorityLevel], [Duration], [MaxLoadPerPhase] and [MaxConcurrent],
    while for [MaxBudget] and [HourlyRate] the fallback is itself 0. *)
Theorem numeric_fallback_on_falsy_parse :
  (forall (t : entityType) (row : object) (index : nat)
          (f : string) (p : numericParser) (d : number),
      In (f, p, d) (scalarFields t) ->
      exists r,
        processRow t row index = Ok r /\
        (numberIsFalsy (parseWith p (getProp row f)) = true -> getProp r f = VNumber d) /\
        (numberIsFalsy (parseWith p (getProp row f)) = false ->
         getProp r f = VNumber (parseWith p (getProp row f)))) /\
  (forall neg e, numberIsFalsy (Finite neg 0 e) = true) /\
  (forall (t : entityType) (row : object) (index : nat) (f : string) (d : number),
      In (f, IntegerField, d) (scalarFields t) ->
      exists r n,
        processRow t row index = Ok r /\ getProp r f = VNumber n /\
        numberIsFalsy n = false) /\
  (forall t f p d, In (f, p, d) (scalarFields t) ->
     (p = IntegerField /\ d = one /\
      In f ["PriorityLevel"; "Duration"; "MaxLoadPerPhase"; "MaxConcurrent"]) \/
     (p = FloatField /\ d = zero /\ In f ["MaxBudget"; "HourlyRate"])) /\
  (parseInt (VString "0") = zero /\ parseFloat (VString "0") = zero) /\
  (exists r, processRow clients [("PriorityLevel", VString "0"); ("MaxBudget", VString "0")] 0
             = Ok r /\
             getProp r "PriorityLevel" = VNumber one /\
             getProp r "MaxBudget" = VNumber zero) /\
  (exists r, processRow workers [("MaxLoadPerPhase", VString "0"); ("HourlyRate", VString "0")] 0
             = Ok r /\
             getProp r "MaxLoadPerPhase" = VNumber one /\
             getProp r "HourlyRate" = VNumber zero) /\
  (exists r, processRow tasks [("Duration", VString "0"); ("PriorityLevel", VString "0");
                               ("MaxConcurrent", VString "0")] 0 = Ok r /\
             getProp r "Duration" = VNumber one /\
             getProp r "PriorityLevel" = VNumber one /\
             getProp r "MaxConcurrent" = VNumber one).
Proof.
  split; [| split; [| split; [| split; [| split; [| split; [| split]]]]]].
  - intros t row index f p d Hf.
    destruct (processRow_spec t row index) as (r & Hr & _ & _ & Hnum & _).
    exists r. split; [exact Hr |]. rewrite (Hnum f p d Hf). split; intros E.
    + now apply orElse_number_default.
    + now apply orElse_number_kept.
  - reflexivity.
  - intros t row index f d Hf.
    destruct (processRow_spec t row index) as (r & Hr & _ & _ & Hnum & _).
    exists r. rewrite (Hnum f IntegerField d Hf).
    destruct (numberIsFalsy (parseWith IntegerField (getProp row f))) eqn:E.
    + exists d. rewrite (orElse_number_default _ _ E).
      split; [exact Hr |]. split; [reflexivity |].
      destruct t; simpl in Hf;
        repeat (destruct Hf as [Hf | Hf];
                [first [injection Hf as <- <-; reflexivity | discriminate] |]);
        destruct Hf.
    + eexists. rewrite (orElse_number_kept _ _ E).
      split; [exact Hr |]. split; [reflexivity | exact E].
  - intros t f p d Hf. destruct t; simpl in Hf;
      repeat (destruct Hf as [Hf | Hf];
              [injection Hf as <- <- <-; simpl; tauto |]);
      destruct Hf.
  - split; reflexivity.
  - eexists. repeat split; vm_compute; reflexivity.
  - eexists. repeat split; vm_compute; reflexivity.
  - eexists. repeat split; vm_compute; reflexivity.
Qed.

(** The truthiness fallback at work on a tasks row with [Duration: "0"]. *)
Lemma Duration_zero_coerces_to_one :
  In ("Duration", IntegerField, one) (scalarFields tasks) /\
  numberIsFalsy (parseWith IntegerField (getProp [("Duration", VString "0")] "Duration"))
  = true /\
  exists r, processRow tasks [("Duration", VString "0")] 0 = Ok r /\
            getProp r "Duration" = VNumber one.
Proof.
  split; [simpl; left; reflexivity |]. split; [reflexivity |].
  destruct (proj1 numeric_fallback_on_falsy_parse tasks
              [("Duration", VString "0")] 0 "Duration" IntegerField one)
    as (r & Hr & Hfalsy & _).
  - simpl. left. reflexivity.
  - exists r. split; [exact Hr |]. apply Hfalsy. reflexivity.
Defined.

End RecordCoercer.

(* ===================================================================== *)
(** ** The import orchestrator *)
(* ===================================================================== *)

Module ImportOrchestrator.
Import JS JSFacts FileUpload FileUploadFacts.

(** C7: when one of the three files is missing, [handleUpload] stores the
    failed result with the single message that names the upload as
    incomplete and hands no file to [parseFile]; when the three files are
    present and the three parses succeed, it stores the successful result
    with the three collections, each the parsed rows passed through
    [mapHeaders] and then [processData], and an empty warnings list. *)
Theorem upload_needs_all_three_files :
  (forall (PapaParse : File -> PapaOutcome) (XLSXRows : File -> result (list object))
          (files : entityType -> option File) (c : Component),
      files clients = None \/ files workers = None \/ files tasks = None ->
      uploadResult (handleUpload PapaParse XLSXRows files c) =
        Some {| success := false; data := None;
                errors := Some ["Please upload all three required files: clients, workers, and tasks"];
                warnings := None |} /\
      uploadStatus (handleUpload PapaParse XLSXRows files c) = Error /\
      parsedFiles (handleUpload PapaParse XLSXRows files c) = parsedFiles c /\
      published (handleUpload PapaParse XLSXRows files c) = published c) /\
  (forall (PapaParse : File -> PapaOutcome) (XLSXRows : File -> result (list object))
          (files : entityType -> option File) (c : Component)
          (fc fw ft : File) (clientsRaw workersRaw tasksRaw : list object),
      files clients = Some fc -> files workers = Some fw -> files tasks = Some ft ->
      parseFile PapaParse XLSXRows fc = Ok clientsRaw ->
      parseFile PapaParse XLSXRows fw = Ok workersRaw ->
      parseFile PapaParse XLSXRows ft = Ok tasksRaw ->
      exists cs ws ts,
        processData (mapHeaders clientsRaw clients) clients = Ok cs /\
        processData (mapHeaders workersRaw workers) workers = Ok ws /\
        processData (mapHeaders tasksRaw tasks) tasks = Ok ts /\
        uploadResult (handleUpload PapaParse XLSXRows files c) =
          Some {| success := true;
                  data := Some {| clientRecords := cs; workerRecords := ws;
                                  taskRecords := ts |};
                  errors := None; warnings := Some [] |} /\
        uploadStatus (handleUpload PapaParse XLSXRows files c) = Success /\
        parsedFiles (handleUpload PapaParse XLSXRows files c)
          = (parsedFiles c ++ [fc; fw; ft])%list /\
        published (handleUpload PapaParse XLSXRows files c)
          = (published c ++ [{| clientRecords := cs; workerRecords := ws;
                                taskRecords := ts |}])%list).
Proof.
  split.
  - intros PapaParse XLSXRows files c Hmissing. unfold handleUpload.
    destruct (files clients), (files workers), (files tasks);
      try (repeat split; reflexivity).
    destruct Hmissing as [H | [H | H]]; discriminate.
  - intros PapaParse XLSXRows files c fc fw ft clientsRaw workersRaw tasksRaw
           Hfc Hfw Hft Hc Hw Ht.
    destruct (processData_ok (mapHeaders clientsRaw clients) clients) as (cs & Hcs & _).
    destruct (processData_ok (mapHeaders workersRaw workers) workers) as (ws & Hws & _).
    destruct (processData_ok (mapHeaders tasksRaw tasks) tasks) as (ts & Hts & _).
    exists cs, ws, ts. unfold handleUpload, importAll.
    rewrite Hfc, Hfw, Hft, Hc, Hw, Ht. cbn [bind]. rewrite Hcs, Hws, Hts. cbn [bind].
    repeat split; reflexivity.
Qed.

(** A run on three CSV files of one row each, and a run with the tasks
    file missing. *)
Lemma upload_three_csv_files :
  (twoFiles clients = None \/ twoFiles workers = None \/ twoFiles tasks = None) /\
  option_map success
    (uploadResult (handleUpload samplePapa sampleXLSX twoFiles initialComponent))
    = Some false /\
  parsedFiles (handleUpload samplePapa sampleXLSX twoFiles initialComponent) = [] /\
  parseFile samplePapa sampleXLSX (csvFile "clients.csv") = Ok [[("Name", VString "x")]] /\
  option_map success
    (uploadResult (handleUpload samplePapa sampleXLSX threeFiles initialComponent))
    = Some true /\
  option_map warnings
    (uploadResult (handleUpload samplePapa sampleXLSX threeFiles initialComponent))
    = Some (Some []) /\
  uploadStatus (handleUpload samplePapa sampleXLSX threeFiles initialComponent) = Success.
Proof.
  destruct (proj1 upload_needs_all_three_files samplePapa sampleXLSX twoFiles
              initialComponent)
    as (Hres & _ & Hparsed & _).
  { right. right. reflexivity. }
  destruct (proj2 upload_needs_all_three_files samplePapa sampleXLSX threeFiles
              initialComponent
              (csvFile "clients.csv") (csvFile "workers.csv") (csvFile "tasks.csv")
              [[("Name", VString "x")]] [[("Name", VString "x")]] [[("Name", VString "x")]]
              eq_refl eq_refl eq_refl eq_refl eq_refl eq_refl)
    as (cs & ws & ts & _ & _ & _ & Hok & Hstatus & _).
  split; [right; right; reflexivity |].
  split; [rewrite Hres; reflexivity |].
  split; [exact Hparsed |].
  split; [reflexivity |].
  split; [rewrite Hok; reflexivity |].
  split; [rewrite Hok; reflexivity | exact Hstatus].
Defined.

End ImportOrchestrator.

(* ===================================================================== *)
(** ** The grid filter *)
(* ===================================================================== *)

Module GridFilter.
Import JS JSFacts DataGrid.

Lemma matchesSearch_spec (searchTerm : string) (item : object) :
  matchesSearch searchTerm item = true <-> someFieldContains searchTerm item.
Proof.
  unfold matchesSearch, someFieldContains, values. rewrite existsb_exists. split.
  - intros (v & Hv & Hinc). apply in_map_iff in Hv. destruct Hv as (k & <- & Hk).
    apply includes_spec in Hinc. destruct Hinc as (a & b & Hab).
    now exists k, a, b.
  - intros (k & a & b & Hk & Hab). exists (getProp item k). split.
    + now apply in_map.
    + apply includes_spec. now exists a, b.
Qed.

(** C8: the filter keeps exactly the records of which some field value,
    stringified, contains the search term as a case-insensitive
    substring, in their order; with the term ["ac"], of the records
    [{ClientName: "Acme"}] and [{ClientName: "Beta"}] exactly the first
    is kept. *)
Theorem filter_keeps_matching_records :
  (forall (currentData : list object) (searchTerm : string) (item : object),
      In item (filtered currentData searchTerm) <->
      In item currentData /\ someFieldContains searchTerm item) /\
  (forall searchTerm, filtered [] searchTerm = []) /\
  (forall (item : object) (currentData : list object) (searchTerm : string),
      (someFieldContains searchTerm item ->
       filtered (item :: currentData) searchTerm = item :: filtered currentData searchTerm) /\
      (~ someFieldContains searchTerm item ->
       filtered (item :: currentData) searchTerm = filtered currentData searchTerm)) /\
  filtered [[("ClientName", VString "Acme")]; [("ClientName", VString "Beta")]] "ac"
  = [[("ClientName", VString "Acme")]].
Proof.
  split; [| split; [| split]].
  - intros currentData searchTerm item. unfold filtered.
    rewrite filter_In, matchesSearch_spec. reflexivity.
  - reflexivity.
  - intros item currentData searchTerm. unfold filtered. simpl. split; intros H.
    + apply matchesSearch_spec in H. now rewrite H.
    + destruct (matchesSearch searchTerm item) eqn:E; [| reflexivity].
      exfalso. apply H. now apply matchesSearch_spec.
  - vm_compute. reflexivity.
Qed.

(** The record [{ClientName: "Acme"}] matches the term ["ac"] and is kept. *)
Lemma Acme_matches_ac :
  someFieldContains "ac" [("ClientName", VString "Acme")] /\
  In [("ClientName", VString "Acme")]
     (filtered [[("ClientName", VString "Acme")]; [("ClientName", VString "Beta")]] "ac").
Proof.
  assert (H : someFieldContains "ac" [("ClientName", VString "Acme")]).
  { exists "ClientName", EmptyString, "me". split; [left; reflexivity | reflexivity]. }
  split; [exact H |].
  apply (proj1 filter_keeps_matching_records). split; [left; reflexivity | exact H].
Defined.

End GridFilter.

(* ===================================================================== *)
(** ** Selecting and parsing the files *)
(* ===================================================================== *)

Module UploadSelection.
Import JS JSFacts FileUpload FileUploadFacts.

(** A file that [handleDrop] accepts is stored in the slot it was dropped
    on, leaving the other slots alone, and [parseFile] hands it to one of
    the two parsers: its answer is that of the CSV parser or that of the
    XLSX reader, never the refusal of the file type.  A file it does not
    accept, and an empty drop, leave the selection as it was. *)
Theorem dropped_file_reaches_a_parser :
  forall (PapaParse : File -> PapaOutcome) (XLSXRows : File -> result (list object))
         (f : File) (t : entityType) (s : Selection),
    (String.eqb (type f) "text/csv" || endsWith (name f) ".xlsx" = true ->
     files (handleDrop (Some f) t s) t = Some f /\
     (forall t', t' <> t -> files (handleDrop (Some f) t s) t' = files s t') /\
     (parseFile PapaParse XLSXRows f =
        match PapaParse f with
        | PapaComplete rows [] => Ok rows
        | PapaComplete rows (m :: ms) =>
            Throw (ErrorObject ("CSV parsing errors: " ++ join ", " (m :: ms)))
        | PapaError e => Throw e
        end
      \/ parseFile PapaParse XLSXRows f = XLSXRows f)) /\
    (String.eqb (type f) "text/csv" || endsWith (name f) ".xlsx" = false ->
     forall t', files (handleDrop (Some f) t s) t' = files s t') /\
    (forall t', files (handleDrop None t s) t' = files s t') /\
    dragOver (handleDrop (Some f) t s) = None /\ dragOver (handleDrop None t s) = None.
Proof.
  intros PapaParse XLSXRows f t s. unfold handleDrop.
  split; [| split; [| split; [| split]]].
  - intros Hacc. rewrite Hacc. simpl. split; [| split].
    + now destruct t.
    + intros t' Hne. destruct t', t; simpl; congruence.
    + unfold parseFile. apply orb_true_iff in Hacc.
      destruct (String.eqb (type f) "text/csv") eqn:Et; simpl.
      * left. destruct (PapaParse f) as [rows [|m ms]|e]; reflexivity.
      * destruct (endsWith (name f) ".csv") eqn:Ecsv.
        -- left. destruct (PapaParse f) as [rows [|m ms]|e]; reflexivity.
        -- right. destruct Hacc as [H | H]; [discriminate | now rewrite H].
  - intros Hrej t'. now rewrite Hrej.
  - reflexivity.
  - now destruct (String.eqb (type f) "text/csv" || endsWith (name f) ".xlsx").
  - reflexivity.
Qed.

(** A dropped XLSX file of the sample selection. *)
Lemma dropped_xlsx_is_selected :
  files (handleDrop (Some {| name := "workers.xlsx"; type := ""; contents := "x" |})
                    workers {| files := twoFiles; dragOver := Some "workers" |}) workers
  = Some {| name := "workers.xlsx"; type := ""; contents := "x" |} /\
  files (handleDrop (Some {| name := "workers.xlsx"; type := ""; contents := "x" |})
                    workers {| files := twoFiles; dragOver := Some "workers" |}) tasks
  = None.
Proof.
  destruct (dropped_file_reaches_a_parser samplePapa sampleXLSX
              {| name := "workers.xlsx"; type := ""; contents := "x" |} workers
              {| files := twoFiles; dragOver := Some "workers" |})
    as (Hacc & _).
  destruct (Hacc eq_refl) as (Hsel & Hothers & _).
  split; [exact Hsel |].
  rewrite (Hothers tasks); [reflexivity | discriminate].
Defined.

(** When the three files are present and a parse fails, the upload stores
    a failed result with exactly one message and no data, publishes
    nothing, and ends in the error status; the three files were all
    handed to [parseFile]. *)
Theorem failed_parse_aborts_upload :
  forall (PapaParse : File -> PapaOutcome) (XLSXRows : File -> result (list object))
         (selected : entityType -> option File) (c : Component) (fc fw ft : File),
    selected clients = Some fc -> selected workers = Some fw -> selected tasks = Some ft ->
    (exists e, parseFile PapaParse XLSXRows fc = Throw e) \/
    (exists e, parseFile PapaParse XLSXRows fw = Throw e) \/
    (exists e, parseFile PapaParse XLSXRows ft = Throw e) ->
    exists message,
      uploadResult (handleUpload PapaParse XLSXRows selected c) =
        Some {| success := false; data := None; errors := Some [message];
                warnings := None |} /\
      uploadStatus (handleUpload PapaParse XLSXRows selected c) = Error /\
      published (handleUpload PapaParse XLSXRows selected c) = published c /\
      parsedFiles (handleUpload PapaParse XLSXRows selected c)
        = (parsedFiles c ++ [fc; fw; ft])%list.
Proof.
  intros PapaParse XLSXRows selected c fc fw ft Hc Hw Ht Hfail.
  assert (Himp : exists e, importAll PapaParse XLSXRows fc fw ft = Throw e).
  { unfold importAll.
    destruct (parseFile PapaParse XLSXRows fc) as [rc|ec] eqn:Ec;
      [| now exists ec].
    destruct (parseFile PapaParse XLSXRows fw) as [rw|ew] eqn:Ew;
      [| now exists ew].
    destruct (parseFile PapaParse XLSXRows ft) as [rt|et] eqn:Et;
      [| now exists et].
    destruct Hfail as [[e H] | [[e H] | [e H]]]; discriminate. }
  destruct Himp as [e He]. exists (errorMessage e).
  unfold handleUpload. rewrite Hc, Hw, Ht, He. repeat split; reflexivity.
Qed.

(** An upload whose workers file has a type that is not supported. *)
Lemma unsupported_file_aborts_upload :
  parseFile samplePapa sampleXLSX textFile = Throw (ErrorObject "Unsupported file type") /\
  exists message,
    uploadResult (handleUpload samplePapa sampleXLSX filesWithText initialComponent) =
      Some {| success := false; data := None; errors := Some [message];
              warnings := None |} /\
    published (handleUpload samplePapa sampleXLSX filesWithText initialComponent) = [].
Proof.
  split; [reflexivity |].
  destruct (failed_parse_aborts_upload samplePapa sampleXLSX filesWithText
              initialComponent (csvFile "clients.csv") textFile (csvFile "tasks.csv")
              eq_refl eq_refl eq_refl)
    as (message & Hres & _ & Hpub & _).
  - right. left. exists (ErrorObject "Unsupported file type"). reflexivity.
  - exists message. split; [exact Hres | exact Hpub].
Defined.

End UploadSelection.

(* ===================================================================== *)
(** ** Renaming the columns: more on [mapHeaders] *)
(* ===================================================================== *)

Module ColumnRenaming.
Import JS JSFacts FileUpload FileUploadFacts.

(** A concrete column name is none of the inherited names. *)
Ltac not_inherited H :=
  simpl in H; repeat (destruct H as [H | H]; [discriminate H |]); destruct H.

(** A column lookup survives the copy of further columns under other
    names. *)
Lemma fold_copyColumn_other (hm row : object) (f : string) (ks : list string)
  (acc : object) :
  (forall k, In k ks -> toBoolean (getProp hm k) = true -> toString (getProp hm k) <> f) ->
  lookupOwn (fold_left (copyColumn hm row) ks acc) f = lookupOwn acc f.
Proof.
  revert acc; induction ks as [|k ks IH]; intros acc H; simpl; [reflexivity |].
  rewrite IH by (intros k' Hk'; apply H; now right).
  unfold copyColumn. destruct (toBoolean (getProp hm k)) eqn:E; [| reflexivity].
  rewrite lookupOwn_setProp.
  assert (Hne : toString (getProp hm k) <> f) by (apply H; [now left | exact E]).
  apply String.eqb_neq in Hne. now rewrite Hne.
Qed.

(** A column that is present stays present. *)
Lemma fold_copyColumn_keeps (hm row : object) (f : string) (ks : list string)
  (acc : object) :
  lookupOwn acc f <> None ->
  lookupOwn (fold_left (copyColumn hm row) ks acc) f <> None.
Proof.
  revert acc; induction ks as [|k ks IH]; intros acc H; simpl; [exact H |].
  apply IH. unfold copyColumn. destruct (toBoolean (getProp hm k)); [| exact H].
  rewrite lookupOwn_setProp. now destruct (String.eqb (toString (getProp hm k)) f).
Qed.

(** Every column of the result was written for some key of the row. *)
Lemma fold_copyColumn_origin (hm row : object) (f : string) (ks : list string)
  (acc : object) :
  lookupOwn (fold_left (copyColumn hm row) ks acc) f <> None ->
  lookupOwn acc f <> None \/
  exists k, In k ks /\ toBoolean (getProp hm k) = true /\ toString (getProp hm k) = f.
Proof.
  revert acc; induction ks as [|k ks IH]; intros acc H; simpl in *; [now left |].
  destruct (IH _ H) as [Hacc | (k' & Hin & Ht & Hf)].
  - unfold copyColumn in Hacc. destruct (toBoolean (getProp hm k)) eqn:E; [| now left].
    rewrite lookupOwn_setProp in Hacc.
    destruct (String.eqb (toString (getProp hm k)) f) eqn:Ef; [| now left].
    apply String.eqb_eq in Ef. right. exists k. repeat split; auto.
  - right. exists k'. repeat split; auto.
Qed.

Lemma fold_copyColumn_written (hm row : object) (k : string) (ks : list string)
  (acc : object) :
  In k ks -> toBoolean (getProp hm k) = true ->
  lookupOwn (fold_left (copyColumn hm row) ks acc) (toString (getProp hm k)) <> None.
Proof.
  revert acc; induction ks as [|k0 ks IH]; intros acc Hin Ht; simpl; [destruct Hin |].
  destruct Hin as [-> | Hin]; [| now apply IH].
  apply fold_copyColumn_keeps. unfold copyColumn. rewrite Ht.
  rewrite lookupOwn_setProp, String.eqb_refl. discriminate.
Qed.

(** A mapping that sends every key of a row to itself leaves the row as
    it is, lookup by lookup. *)
Lemma transformRow_identity (hm row : object) :
  (forall k, In k (keys row) -> getProp hm k = VString k /\ k <> EmptyString) ->
  forall f, lookupOwn (transformRow hm row) f = lookupOwn row f.
Proof.
  intros Hid f. destruct (in_dec string_dec f (keys row)) as [Hin | Hnin].
  - destruct (Hid f Hin) as [Hf Hne].
    apply transformRow_lookup; [exact Hf | exact Hne |].
    intros k Hk Hkf _. destruct (Hid k Hk) as [-> _]. exact Hkf.
  - assert (Hrow : lookupOwn row f = None).
    { destruct (lookupOwn row f) eqn:E; [| reflexivity].
      exfalso. apply Hnin, lookupOwn_keys. congruence. }
    rewrite Hrow.
    destruct (lookupOwn (transformRow hm row) f) eqn:E; [| reflexivity].
    exfalso. unfold transformRow in E.
    destruct (fold_copyColumn_origin hm row f (keys row) []) as [H | (k & Hk & _ & Hf)].
    + congruence.
    + now apply H.
    + destruct (Hid k Hk) as [Hm _]. rewrite Hm in Hf. simpl in Hf. now subst k.
Qed.

(** Every canonical field name is mapped to itself. *)
Lemma target_fixed (t : entityType) (label field : string) :
  In (label, field) (headerMappings t) ->
  findMatch (normalizeHeader field) (headerMappings t) = Some field.
Proof.
  destruct t; simpl; intros H;
    repeat (destruct H as [H | H]; [injection H as <- <-; vm_compute; reflexivity |]);
    destruct H.
Qed.

(** In a file of plain column names, a key with a truthy mapping is a
    header of the first row, mapped to a name that is mapped to itself. *)
Lemma plain_mapping (t : entityType) (firstRow : object) (k : string) :
  ~ In k objectPrototypeNames ->
  toBoolean (getProp (buildHeaderMapping t firstRow) k) = true ->
  In k (keys firstRow) /\
  exists f, getProp (buildHeaderMapping t firstRow) k = VString f /\
            f <> EmptyString /\
            headerEntry t f = Some (VString f).
Proof.
  intros Hplain. unfold getProp. rewrite buildHeaderMapping_lookup.
  assert (Hk : objectPrototype k = None).
  { destruct (objectPrototype k) eqn:E; [| reflexivity].
    exfalso. apply Hplain, objectPrototype_names. congruence. }
  destruct (in_dec string_dec k (keys firstRow)) as [Hin | Hnin];
    [| rewrite Hk; discriminate].
  unfold headerEntry at 1 2. rewrite Hk.
  destruct (findMatch (normalizeHeader k) (headerMappings t)) as [f|] eqn:Ef.
  - intros Ht. split; [exact Hin |]. exists f. split; [reflexivity |].
    destruct (findMatch_In _ _ _ Ef) as [label Hl]. split.
    + intros ->. assert (Hno := target_truthy t label EmptyString Hl). discriminate Hno.
    + unfold headerEntry. now rewrite (target_fixed t label f Hl).
  - simpl. intros Ht. split; [exact Hin |]. exists k. split; [reflexivity |]. split.
    + intros ->. discriminate.
    + unfold headerEntry. now rewrite Ef, Hk.
Qed.

(** In a file none of whose column names is the name of a property
    inherited from [Object.prototype], every column of a normalised row
    comes from a header that the row shares with the first row: a column
    whose header the first row lacks is not carried over. *)
Theorem columns_come_from_first_row_headers :
  forall (t : entityType) (firstRow : object) (rest : list object)
         (i : nat) (row out : object) (f : string),
    (forall r k, In r (firstRow :: rest) -> In k (keys r) -> ~ In k objectPrototypeNames) ->
    nth_error (firstRow :: rest) i = Some row ->
    nth_error (mapHeaders (firstRow :: rest) t) i = Some out ->
    In f (keys out) ->
    exists k, In k (keys row) /\ In k (keys firstRow) /\
              getProp (buildHeaderMapping t firstRow) k = VString f.
Proof.
  intros t firstRow rest i row out f Hplain Hrow Hout Hf.
  unfold mapHeaders in Hout. rewrite (map_nth_error _ _ _ Hrow) in Hout.
  injection Hout as <-. apply lookupOwn_keys in Hf. unfold transformRow in Hf.
  destruct (fold_copyColumn_origin _ _ _ _ _ Hf) as [H | (k & Hk & Ht & Hkf)];
    [now elim H |].
  assert (Hpk : ~ In k objectPrototypeNames).
  { apply (Hplain row k); [eapply nth_error_In; eassumption | exact Hk]. }
  destruct (plain_mapping t firstRow k Hpk Ht) as (Hin & f' & Hm & _ & _).
  exists k. repeat split; auto. rewrite Hm in Hkf. simpl in Hkf. now subst f'.
Qed.

(** A second row with a column the first row lacks loses it. *)
Lemma later_column_is_dropped :
  exists out,
    nth_error (mapHeaders [[("ClientID", VString "C1")];
                           [("ClientID", VString "C2"); ("Notes", VString "n")]] clients) 1
    = Some out /\
    keys out = ["ClientID"] /\
    exists k, In k ["ClientID"; "Notes"] /\ In k ["ClientID"] /\
              getProp (buildHeaderMapping clients [("ClientID", VString "C1")]) k
              = VString "ClientID".
Proof.
  eexists. split; [reflexivity |]. split; [reflexivity |].
  apply (columns_come_from_first_row_headers clients
           [("ClientID", VString "C1")]
           [[("ClientID", VString "C2"); ("Notes", VString "n")]] 1
           [("ClientID", VString "C2"); ("Notes", VString "n")]
           (transformRow (buildHeaderMapping clients [("ClientID", VString "C1")])
                         [("ClientID", VString "C2"); ("Notes", VString "n")])
           "ClientID").
  - intros r k Hr Hk Hp. simpl in Hr.
    destruct Hr as [<- | [<- | []]]; simpl in Hk;
      repeat (destruct Hk as [<- | Hk]; [not_inherited Hp |]); destruct Hk.
  - reflexivity.
  - reflexivity.
  - vm_compute. left. reflexivity.
Defined.

(** When several columns of a row are mapped to one name, the value of
    the last of them, in the order of the row's keys, is the one kept. *)
Theorem last_column_wins :
  forall (hm row : object) (before after : list string) (k f : string),
    keys row = (before ++ k :: after)%list ->
    toBoolean (getProp hm k) = true ->
    toString (getProp hm k) = f ->
    (forall k', In k' after ->
       toBoolean (getProp hm k') = true -> toString (getProp hm k') <> f) ->
    lookupOwn (transformRow hm row) f = Some (getProp row k).
Proof.
  intros hm row before after k f Hkeys Ht Hf Hafter.
  unfold transformRow. rewrite Hkeys, fold_left_app. simpl.
  rewrite (fold_copyColumn_other hm row f after _ Hafter).
  unfold copyColumn at 1. rewrite Ht, Hf, lookupOwn_setProp, String.eqb_refl.
  reflexivity.
Qed.

(** Two columns of a clients file that both contain the label of
    [ClientID]: the later one is kept. *)
Lemma two_id_columns :
  lookupOwn
    (transformRow
       (buildHeaderMapping clients [("ClientID", VString "C1"); ("old_clientid", VString "C9")])
       [("ClientID", VString "C1"); ("old_clientid", VString "C9")])
    "ClientID" = Some (VString "C9").
Proof.
  apply (last_column_wins
           (buildHeaderMapping clients
              [("ClientID", VString "C1"); ("old_clientid", VString "C9")])
           [("ClientID", VString "C1"); ("old_clientid", VString "C9")]
           ["ClientID"] [] "old_clientid" "ClientID").
  - reflexivity.
  - reflexivity.
  - reflexivity.
  - intros k' [].
Defined.

(** Normalising twice changes nothing more: in a file none of whose
    column names is the name of a property inherited from
    [Object.prototype], every row of the normalised data keeps all its
    columns and values when the data is normalised again. *)
Theorem mapHeaders_idempotent :
  forall (t : entityType) (rawData : list object) (i : nat) (out : object),
    (forall r k, In r rawData -> In k (keys r) -> ~ In k objectPrototypeNames) ->
    nth_error (mapHeaders rawData t) i = Some out ->
    exists out2,
      nth_error (mapHeaders (mapHeaders rawData t) t) i = Some out2 /\
      forall f, lookupOwn out2 f = lookupOwn out f.
Proof.
  intros t rawData i out Hplain Hout.
  destruct rawData as [|firstRow rest]; [destruct i; discriminate |].
  set (hm := buildHeaderMapping t firstRow) in *.
  assert (Hmap : mapHeaders (firstRow :: rest) t
                 = transformRow hm firstRow :: map (transformRow hm) rest)
    by reflexivity.
  rewrite Hmap in *.
  set (out0 := transformRow hm firstRow) in *.
  set (hm2 := buildHeaderMapping t out0).
  assert (H2 : mapHeaders (out0 :: map (transformRow hm) rest) t
               = map (transformRow hm2) (out0 :: map (transformRow hm) rest))
    by reflexivity.
  rewrite H2. exists (transformRow hm2 out). split; [now apply map_nth_error |].
  apply transformRow_identity. intros f Hf.
  assert (Hrow : exists row, In row (firstRow :: rest) /\ out = transformRow hm row).
  { apply nth_error_In in Hout. destruct Hout as [<- | Hin].
    - exists firstRow. split; [now left | reflexivity].
    - apply in_map_iff in Hin. destruct Hin as (row & <- & Hr).
      exists row. split; [now right | reflexivity]. }
  destruct Hrow as (row & Hrow & ->).
  apply lookupOwn_keys in Hf. unfold transformRow in Hf.
  destruct (fold_copyColumn_origin _ _ _ _ _ Hf) as [H | (k & Hk & Ht & Hkf)];
    [now elim H |].
  assert (Hpk : ~ In k objectPrototypeNames) by (apply (Hplain row k); assumption).
  destruct (plain_mapping t firstRow k Hpk Ht) as (Hin & f' & Hm & Hne & Hentry).
  fold hm in Hm. rewrite Hm in Hkf. simpl in Hkf. subst f'.
  split; [| exact Hne].
  apply getProp_own. unfold hm2. rewrite buildHeaderMapping_lookup.
  destruct (in_dec string_dec f (keys out0)) as [_ | Hno]; [exact Hentry |].
  exfalso. apply Hno. apply lookupOwn_keys.
  assert (Hw := fold_copyColumn_written hm firstRow k (keys firstRow) [] Hin Ht).
  fold hm in Hw. rewrite Hm in Hw. exact Hw.
Qed.

(** Normalising a clients file a second time. *)
Lemma normalised_twice :
  exists out2,
    nth_error
      (mapHeaders
         (mapHeaders [[("clientid", VString "C1"); ("Notes", VString "n")]] clients)
         clients) 0 = Some out2 /\
    lookupOwn out2 "ClientID" = Some (VString "C1") /\
    lookupOwn out2 "Notes" = Some (VString "n").
Proof.
  destruct (mapHeaders_idempotent clients
              [[("clientid", VString "C1"); ("Notes", VString "n")]] 0
              [("ClientID", VString "C1"); ("Notes", VString "n")])
    as (out2 & Hnth & Hsame).
  - intros r k Hr Hk Hp. simpl in Hr. destruct Hr as [<- | []]. simpl in Hk.
    repeat (destruct Hk as [<- | Hk]; [not_inherited Hp |]); destruct Hk.
  - reflexivity.
  - exists out2. split; [exact Hnth |]. split; rewrite Hsame; reflexivity.
Defined.

End ColumnRenaming.

(* ===================================================================== *)
(** ** The data grid: sorting state, cell edits, narrowing the filter *)
(* ===================================================================== *)

Module GridEditing.
Import JS JSFacts FileUpload FileUploadFacts DataGrid.

(** Clicking a column header cycles that column through ascending,
    descending and unsorted: from any state that is not a sort on the
    column the first click sorts ascending, the second descending, the
    third removes the sort; and after a first click three more clicks on
    the same header always lead back to the same state. *)
Theorem handleSort_cycles :
  (forall (k : string) (current : option SortConfig),
      (forall c, current = Some c -> key c <> k) ->
      handleSort k current = Some {| key := k; direction := asc |} /\
      handleSort k (handleSort k current) = Some {| key := k; direction := desc |} /\
      handleSort k (handleSort k (handleSort k current)) = None) /\
  (forall (k : string) (current : option SortConfig),
      handleSort k (handleSort k (handleSort k (handleSort k current)))
      = handleSort k current).
Proof.
  assert (Hfrom_asc : forall k,
            handleSort k (Some {| key := k; direction := asc |})
            = Some {| key := k; direction := desc |}).
  { intros k. unfold handleSort. simpl. now rewrite String.eqb_refl. }
  assert (Hfrom_desc : forall k,
            handleSort k (Some {| key := k; direction := desc |}) = None).
  { intros k. unfold handleSort. simpl. now rewrite String.eqb_refl. }
  assert (Hfirst : forall k current,
            (forall c, current = Some c -> key c <> k) ->
            handleSort k current = Some {| key := k; direction := asc |}).
  { intros k [c|] H; [| reflexivity]. unfold handleSort.
    assert (Hne := H c eq_refl). apply String.eqb_neq in Hne. now rewrite Hne. }
  split.
  - intros k current H. rewrite (Hfirst k current H), Hfrom_asc, Hfrom_desc. auto.
  - intros k current.
    assert (Hone : handleSort k current = Some {| key := k; direction := asc |} \/
                   handleSort k current = Some {| key := k; direction := desc |} \/
                   handleSort k current = None).
    { destruct current as [[k0 d]|]; [| now left]. unfold handleSort. simpl.
      destruct (String.eqb k0 k); [| now left]. destruct d; auto. }
    destruct Hone as [-> | [-> | ->]].
    + rewrite Hfrom_asc, Hfrom_desc. reflexivity.
    + rewrite Hfrom_desc.
      change (handleSort k None) with (Some {| key := k; direction := asc |}).
      now rewrite Hfrom_asc.
    + change (handleSort k None) with (Some {| key := k; direction := asc |}).
      now rewrite Hfrom_asc, Hfrom_desc.
Qed.

(** Three clicks on [ClientName] while the grid is sorted by [ClientID]. *)
Lemma sort_by_ClientName :
  handleSort "ClientName" (Some {| key := "ClientID"; direction := desc |})
  = Some {| key := "ClientName"; direction := asc |} /\
  handleSort "ClientName"
    (handleSort "ClientName"
       (handleSort "ClientName" (Some {| key := "ClientID"; direction := desc |})))
  = None.
Proof.
  destruct (proj1 handleSort_cycles "ClientName"
              (Some {| key := "ClientID"; direction := desc |}))
    as (H1 & _ & H3).
  - intros c Hc. injection Hc as <-. discriminate.
  - split; [exact H1 | exact H3].
Defined.

Lemma strictEqualsString_spec (v : value) (s : string) :
  strictEqualsString v s = true <-> v = VString s.
Proof.
  destruct v; simpl; try (split; [discriminate | congruence]).
  rewrite String.eqb_eq. split; congruence.
Qed.

(** Saving a cell keeps the number and order of the rows; each row whose
    [id] is the given string reads back the saved value in the column and
    keeps every other field, each other row is returned as it is. *)
Theorem cell_save_updates_rows :
  forall (currentData : list object) (rowId column : string) (v : value),
    length (updatedData currentData rowId column v) = length currentData /\
    forall i row, nth_error currentData i = Some row ->
      exists row',
        nth_error (updatedData currentData rowId column v) i = Some row' /\
        (getProp row "id" = VString rowId ->
         getProp row' column = v /\
         forall k, k <> column -> getProp row' k = getProp row k) /\
        (getProp row "id" <> VString rowId -> row' = row).
Proof.
  intros currentData rowId column v. unfold updatedData.
  split; [apply length_map |].
  intros i row Hrow. eexists. split; [exact (map_nth_error _ _ _ Hrow) |].
  cbv beta. split.
  - intros Hid. apply strictEqualsString_spec in Hid. rewrite Hid. split.
    + now rewrite getProp_setProp, String.eqb_refl.
    + intros k Hk. rewrite getProp_setProp.
      assert (Hne : column <> k) by congruence.
      apply String.eqb_neq in Hne. rewrite Hne. apply getProp_spread.
  - intros Hid. destruct (strictEqualsString (getProp row "id") rowId) eqn:E;
      [| reflexivity].
    apply strictEqualsString_spec in E. contradiction.
Qed.

(** Saving the name of the second of two clients. *)
Lemma save_second_client_name :
  exists row',
    nth_error (updatedData [[("id", VString "temp-0"); ("ClientName", VString "A")];
                            [("id", VString "temp-1"); ("ClientName", VString "B")]]
                           "temp-1" "ClientName" (VString "Beta")) 1 = Some row' /\
    getProp row' "ClientName" = VString "Beta" /\
    getProp row' "id" = VString "temp-1".
Proof.
  destruct (proj2 (cell_save_updates_rows
                     [[("id", VString "temp-0"); ("ClientName", VString "A")];
                      [("id", VString "temp-1"); ("ClientName", VString "B")]]
                     "temp-1" "ClientName" (VString "Beta"))
                  1 [("id", VString "temp-1"); ("ClientName", VString "B")] eq_refl)
    as (row' & Hnth & Hsame & _).
  destruct (Hsame eq_refl) as [Hv Hother].
  exists row'. split; [exact Hnth |]. split; [exact Hv |].
  rewrite (Hother "id"); [reflexivity | discriminate].
Defined.

(** Saving a cell replaces the collection of the active entity kind in
    the page by the updated rows, leaves the two other collections and
    the active tab as they are, and closes the editor. *)
Theorem cell_save_touches_active_collection :
  forall (rowId column : string) (v : value) (page : Home.State) (g : Grid),
    Home.collection (activeEntity g)
      (Home.collections (fst (handleCellSave rowId column v page g)))
    = updatedData (Home.collection (activeEntity g) (Home.collections page))
                  rowId column v /\
    (forall t, t <> activeEntity g ->
       Home.collection t (Home.collections (fst (handleCellSave rowId column v page g)))
       = Home.collection t (Home.collections page)) /\
    Home.activeTab (fst (handleCellSave rowId column v page g)) = Home.activeTab page /\
    editingCell (snd (handleCellSave rowId column v page g)) = None /\
    activeEntity (snd (handleCellSave rowId column v page g)) = activeEntity g /\
    sortConfig (snd (handleCellSave rowId column v page g)) = sortConfig g /\
    searchTerm (snd (handleCellSave rowId column v page g)) = searchTerm g.
Proof.
  intros rowId column v page g. unfold handleCellSave. simpl.
  split; [now destruct (activeEntity g) |].
  split; [| repeat split].
  intros t Ht. destruct t, (activeEntity g); simpl; congruence.
Qed.

Lemma decimal_injective (a b : N) : decimal a = decimal b -> a = b.
Proof.
  unfold decimal. intros H.
  assert (Hnn : forall n : N, N.to_uint n <> Decimal.Nil).
  { intros [|p]; [discriminate | apply DecimalPos.Unsigned.to_uint_nonnil]. }
  apply DecimalN.Unsigned.to_uint_inj.
  assert (Ha := NilZero.usu (N.to_uint a) (Hnn a)).
  assert (Hb := NilZero.usu (N.to_uint b) (Hnn b)).
  rewrite H in Ha. congruence.
Qed.

Lemma updatedData_no_match (l : list object) (rowId column : string) (v : value) :
  (forall row, In row l -> getProp row "id" <> VString rowId) ->
  updatedData l rowId column v = l.
Proof.
  unfold updatedData. induction l as [|row l IH]; intros H; simpl; [reflexivity |].
  rewrite IH by (intros r Hr; apply H; now right).
  destruct (strictEqualsString (getProp row "id") rowId) eqn:E; [| reflexivity].
  apply strictEqualsString_spec in E. exfalso. apply (H row); [now left | exact E].
Qed.

Lemma updatedData_numbered (l : list object) (start : nat) (column : string) (v : value) :
  (forall j r, nth_error l j = Some r ->
     getProp r "id" = VString ("temp-" ++ decimal (N.of_nat (start + j)))) ->
  forall i r, nth_error l i = Some r ->
    updatedData l ("temp-" ++ decimal (N.of_nat (start + i))) column v
    = (firstn i l ++ setProp (spread r) column v :: skipn (S i) l)%list.
Proof.
  revert start. induction l as [|row l IH]; intros start Hids i r Hr;
    [destruct i; discriminate |].
  assert (Hdiff : forall a b, a <> b ->
            VString ("temp-" ++ decimal (N.of_nat a)) <>
            VString ("temp-" ++ decimal (N.of_nat b))).
  { intros a b Hab Heq. injection Heq as Heq. apply decimal_injective in Heq.
    apply Hab. now apply Nat2N.inj. }
  destruct i as [|i]; simpl in Hr.
  - injection Hr as ->. rewrite Nat.add_0_r.
    change (updatedData (r :: l) ("temp-" ++ decimal (N.of_nat start)) column v)
      with ((if strictEqualsString (getProp r "id") ("temp-" ++ decimal (N.of_nat start))
             then setProp (spread r) column v else r)
            :: updatedData l ("temp-" ++ decimal (N.of_nat start)) column v).
    assert (H0 := Hids 0 r eq_refl). rewrite Nat.add_0_r in H0.
    apply strictEqualsString_spec in H0. rewrite H0. simpl. f_equal.
    apply updatedData_no_match. intros r' Hr'.
    apply In_nth_error in Hr'. destruct Hr' as [j Hj].
    rewrite (Hids (S j) r' Hj). apply Hdiff. lia.
  - change (updatedData (row :: l) ("temp-" ++ decimal (N.of_nat (start + S i))) column v)
      with ((if strictEqualsString (getProp row "id")
                  ("temp-" ++ decimal (N.of_nat (start + S i)))
             then setProp (spread row) column v else row)
            :: updatedData l ("temp-" ++ decimal (N.of_nat (start + S i))) column v).
    assert (H0 := Hids 0 row eq_refl). rewrite Nat.add_0_r in H0.
    destruct (strictEqualsString (getProp row "id")
                ("temp-" ++ decimal (N.of_nat (start + S i)))) eqn:E.
    + apply strictEqualsString_spec in E. rewrite H0 in E.
      exfalso. revert E. apply Hdiff. lia.
    + simpl. f_equal. replace (start + S i) with (S start + i) by lia.
      apply IH; [| exact Hr].
      intros j r' Hj. replace (S start + j) with (start + S j) by lia.
      now apply Hids.
Qed.

(** In imported data the ids are the row numbers, so saving a cell of
    the row shown at position [i] changes that record and no other: the
    collection is the same before and after position [i]. *)
Theorem cell_save_after_import_changes_one_row :
  forall (rawData : list object) (t : entityType),
  exists records,
    processData (mapHeaders rawData t) t = Ok records /\
    forall (i : nat) (r : object) (column : string) (v : value),
      nth_error records i = Some r ->
      getProp r "id" = VString ("temp-" ++ decimal (N.of_nat i)) /\
      updatedData records ("temp-" ++ decimal (N.of_nat i)) column v
      = (firstn i records ++ setProp (spread r) column v :: skipn (S i) records)%list.
Proof.
  intros rawData t.
  destruct (import_ids_are_synthesized rawData t) as (records & Hok & _ & Hids).
  exists records. split; [exact Hok |].
  intros i r column v Hr. split; [now apply Hids |].
  apply (updatedData_numbered records 0 column v); [| exact Hr].
  intros j r' Hj. now apply Hids.
Qed.

(** Saving the name of the second of two imported clients. *)
Lemma save_after_import :
  exists records r,
    processData (mapHeaders [[("ClientName", VString "A")]; [("ClientName", VString "B")]]
                            clients) clients = Ok records /\
    nth_error records 1 = Some r /\
    updatedData records "temp-1" "ClientName" (VString "Beta")
    = (firstn 1 records ++ setProp (spread r) "ClientName" (VString "Beta")
         :: skipn 2 records)%list.
Proof.
  destruct (cell_save_after_import_changes_one_row
              [[("ClientName", VString "A")]; [("ClientName", VString "B")]] clients)
    as (records & Hok & Hsave).
  assert (Hrec : exists r, nth_error records 1 = Some r).
  { vm_compute in Hok. injection Hok as <-. eexists. reflexivity. }
  destruct Hrec as [r Hr].
  exists records, r. split; [exact Hok |]. split; [exact Hr |].
  exact (proj2 (Hsave 1 r "ClientName" (VString "Beta") Hr)).
Defined.

Lemma arrayJoin_strings (sep : string) (l : list string) :
  arrayJoin sep (map VString l) = join sep l.
Proof.
  unfold arrayJoin. rewrite map_map. f_equal.
  rewrite <- (map_id l) at 2. now apply map_ext.
Qed.

(** Committing the text the editor of a list cell is opened with gives
    the list back when the cell holds a non-empty list of strings that
    are trimmed and free of commas, so in particular for every text list
    the import produced; an empty list comes back as the list of one
    empty string.  The text is the one computed for [defaultValue]: what
    the input element itself does to it (a text input drops line breaks)
    is not part of the statement. *)
Theorem array_editor_round_trip :
  (forall (piece : string) (pieces : list string),
      Forall (fun p => occurs "," p = false /\ trim p = p) (piece :: pieces) ->
      exists text,
        arrayDefaultValue (VArray (map VString (piece :: pieces))) = VString text /\
        arrayEditValue text = VArray (map VString (piece :: pieces))) /\
  (forall s : string,
      exists text,
        arrayDefaultValue (coercedList false (VString s)) = VString text /\
        arrayEditValue text = coercedList false (VString s)) /\
  (exists text,
      arrayDefaultValue (VArray []) = VString text /\
      arrayEditValue text = VArray [VString EmptyString]).
Proof.
  split; [| split].
  - intros piece pieces H. eexists. split; [reflexivity |].
    rewrite arrayJoin_strings. unfold arrayEditValue. f_equal.
    rewrite split_join_comma_space
      by (eapply Forall_impl; [| exact H]; intros p [Hp _]; exact Hp).
    inversion H as [|? ? [_ Htrim] Hrest]; subst. simpl. rewrite Htrim. f_equal.
    rewrite !map_map. apply map_ext_in. intros p Hp.
    rewrite Forall_forall in Hrest. destruct (Hrest p Hp) as [_ Hpt].
    now rewrite trim_after_space, Hpt.
  - intros s. eexists. split; [reflexivity |].
    unfold coercedList, arrayEditValue.
    replace (map (coercePiece false) (split "," s))
      with (map VString (map trim (split "," s)))
      by (rewrite map_map; reflexivity).
    rewrite arrayJoin_strings. f_equal.
    rewrite <- (map_map trim VString), split_join_roundtrip. reflexivity.
  - eexists. split; reflexivity.
Qed.

(** The round trip on the list of two skills. *)
Lemma edit_two_skills_unchanged :
  exists text,
    arrayDefaultValue (VArray [VString "go"; VString "rust"]) = VString text /\
    arrayEditValue text = VArray [VString "go"; VString "rust"].
Proof.
  apply (proj1 array_editor_round_trip "go" ["rust"]).
  repeat constructor.
Defined.

(** The editor of a list cell always commits a non-empty list of trimmed
    strings, whatever the column: after an edit of a numeric list column
    ([PreferredPhases], [AvailableSlots]) the cell no longer holds
    numbers, even when the text typed is a list of numerals. *)
Theorem array_edit_stores_strings :
  forall text : string,
    hasType (arrayEditValue text) TStringArray = true /\
    hasType (arrayEditValue text) TNumberArray = false /\
    exists piece pieces,
      arrayEditValue text = VArray (VString piece :: map VString pieces) /\
      Forall (fun p => trim p = p) (piece :: pieces).
Proof.
  intros text. unfold arrayEditValue.
  assert (Hne := split_nonempty "," text).
  destruct (split "," text) as [|p ps]; [congruence |]. simpl.
  split; [| split; [reflexivity |]].
  - clear Hne. induction ps as [|q ps IH]; simpl; auto.
  - exists (trim p), (map trim ps). split.
    + now rewrite map_map.
    + constructor; [apply trim_idempotent |].
      apply Forall_forall. intros q Hq. apply in_map_iff in Hq.
      destruct Hq as (q0 & <- & _). apply trim_idempotent.
Qed.

Lemma string_app_assoc (a b c : string) : (a ++ b) ++ c = a ++ (b ++ c).
Proof. induction a as [|x a IH]; simpl; [reflexivity | now rewrite IH]. Qed.

Lemma includes_trans (x y z : string) :
  includes x y = true -> includes y z = true -> includes x z = true.
Proof.
  rewrite !includes_spec. intros (a & b & ->) (c & d & ->).
  exists (a ++ c), (d ++ b). now rewrite !string_app_assoc.
Qed.

(** A row that matches a term matches every term whose lower-cased form
    the lower-cased term contains. *)
Lemma matchesSearch_contained (term longer : string) (item : object) :
  includes (toLowerCase longer) (toLowerCase term) = true ->
  matchesSearch longer item = true -> matchesSearch term item = true.
Proof.
  intros Hc. unfold matchesSearch. rewrite !existsb_exists.
  intros (v & Hv & Hinc). exists v. split; [exact Hv |].
  exact (includes_trans _ _ _ Hinc Hc).
Qed.

Lemma filter_implied {A : Type} (p q : A -> bool) (l : list A) :
  (forall x, q x = true -> p x = true) -> filter q l = filter q (filter p l).
Proof.
  intros H. induction l as [|x l IH]; simpl; [reflexivity |].
  destruct (q x) eqn:Eq.
  - rewrite (H x Eq). simpl. now rewrite Eq, IH.
  - destruct (p x); simpl; [now rewrite Eq |]; exact IH.
Qed.

Lemma filter_shorter {A : Type} (p : A -> bool) (l : list A) :
  length (filter p l) <= length l.
Proof. induction l as [|x l IH]; simpl; [lia |]. destruct (p x); simpl; lia. Qed.

(** Refining the search term only narrows the grid.  When the
    lower-cased form of a term contains the lower-cased form of an
    earlier term, the rows shown for it are those it selects among the
    rows shown for the earlier term: no row that the earlier term hid
    comes back, and the rows are not more than before.  The condition is
    on the lower-cased terms, as the filter compares them. *)
Theorem contained_term_narrows :
  forall (currentData : list object) (term longer : string),
    includes (toLowerCase longer) (toLowerCase term) = true ->
    filtered currentData longer = filtered (filtered currentData term) longer /\
    (forall item, In item (filtered currentData longer) ->
                  In item (filtered currentData term)) /\
    length (filtered currentData longer) <= length (filtered currentData term).
Proof.
  intros currentData term longer Hc.
  assert (Heq : filtered currentData longer
                = filtered (filtered currentData term) longer).
  { unfold filtered. apply filter_implied. intros x.
    now apply matchesSearch_contained. }
  split; [exact Heq |]. split.
  - intros item Hin. unfold filtered in *. apply filter_In in Hin.
    destruct Hin as [Hd Hm]. apply filter_In. split; [exact Hd |].
    exact (matchesSearch_contained _ _ _ Hc Hm).
  - rewrite Heq. unfold filtered at 1. apply filter_shorter.
Qed.

(** Two clients searched with ["ac"] and then with ["ACME"]: the second
    search keeps the one client the first search kept. *)
Lemma acme_after_ac :
  includes (toLowerCase "ACME") (toLowerCase "ac") = true /\
  filtered [[("ClientName", VString "Acme Corp")]; [("ClientName", VString "Zenith")]] "ACME"
  = filtered
      (filtered [[("ClientName", VString "Acme Corp")]; [("ClientName", VString "Zenith")]]
                "ac") "ACME" /\
  length
    (filtered [[("ClientName", VString "Acme Corp")]; [("ClientName", VString "Zenith")]]
              "ACME") <= 1.
Proof.
  split; [reflexivity |].
  destruct (contained_term_narrows
              [[("ClientName", VString "Acme Corp")]; [("ClientName", VString "Zenith")]]
              "ac" "ACME" eq_refl) as (Heq & _ & Hlen).
  split; [exact Heq | exact Hlen].
Defined.

End GridEditing.

(* ===================================================================== *)
(** ** The search component *)
(* ===================================================================== *)

Module SearchFacts.
Import JS JSFacts FileUpload AISearch.

Lemma truthyAndNonEmpty_ok (x : value) : truthyAndNonEmpty x = Ok (nonEmptyTest x).
Proof. unfold nonEmptyTest. destruct x as [| |[]|n|s|items| |name]; try reflexivity.
  - unfold truthyAndNonEmpty. now destruct (toBoolean (VNumber n)).
  - unfold truthyAndNonEmpty. now destruct (toBoolean (VString s)).
Qed.

Lemma filterM_ok {A : Type} (p : A -> result bool) (q : A -> bool) (l : list A) :
  (forall a, p a = Ok (q a)) -> filterM p l = Ok (filter q l).
Proof.
  intros H. induction l as [|a l IH]; simpl; [reflexivity |].
  rewrite H, IH. simpl. now destruct (q a).
Qed.

(** What the local search returns, branch by branch, with the filters
    that cannot raise written as plain filters. *)
Lemma simulateAIResponse_found (q : string) (context : Collections) :
  exists records what conf,
    simulateAIResponse q context =
      Ok {| entities := Found records; explanation := found (length records) what;
            confidence := VNumber (Finite false conf (-1)) |} /\
    (forall e, In e records ->
       In e (clientRecords context ++ workerRecords context ++ taskRecords context)%list) /\
    (conf = 6%N \/ conf = 8%N) /\
    (conf = 6%N <-> usesGenericSearch (toLowerCase q) = true).
Proof.
  unfold simulateAIResponse, usesGenericSearch.
  set (lq := toLowerCase q).
  destruct (includes lq "task" && includes lq "duration") eqn:E1.
  { do 3 eexists. split; [reflexivity |]. split; [| split; [now right |]].
    - intros e He. apply filter_In in He. rewrite !in_app_iff. tauto.
    - simpl. split; discriminate. }
  destruct (includes lq "worker" && includes lq "skill") eqn:E2.
  { rewrite (filterM_ok _ (fun worker => nonEmptyTest (getProp worker "Skills")))
      by (intros a; apply truthyAndNonEmpty_ok).
    do 3 eexists. split; [reflexivity |]. split; [| split; [now right |]].
    - intros e He. apply filter_In in He. rewrite !in_app_iff. tauto.
    - simpl. split; discriminate. }
  destruct (includes lq "client" && includes lq "priority") eqn:E3.
  { do 3 eexists. split; [reflexivity |]. split; [| split; [now right |]].
    - intros e He. apply filter_In in He. rewrite !in_app_iff. tauto.
    - simpl. split; discriminate. }
  destruct (includes lq "budget" || includes lq "cost") eqn:E4.
  { do 3 eexists. split; [reflexivity |]. split; [| split; [now right |]].
    - intros e He. apply filter_In in He. rewrite !in_app_iff. tauto.
    - simpl. split; discriminate. }
  destruct (includes lq "phase") eqn:E5.
  { rewrite (filterM_ok _ (fun item => nonEmptyTest (getProp item "PreferredPhases")))
      by (intros a; apply truthyAndNonEmpty_ok).
    do 3 eexists. split; [reflexivity |]. split; [| split; [now right |]].
    - intros e He. apply filter_In in He. rewrite !in_app_iff in *. tauto.
    - simpl. split; discriminate. }
  do 3 eexists. split; [reflexivity |]. split; [| split; [now left |]].
  - intros e He. apply filter_In in He. tauto.
  - simpl. split; reflexivity.
Qed.

(** The local search never invents a record: whenever it returns, every
    entity is one of the clients, workers or tasks it was given, the
    explanation starts with the number of entities returned, and the
    confidence is 0.6 when no keyword test applied and 0.8 otherwise.
    On data that holds no plain object it does return: the tests convert
    text, numbers, booleans and arrays of these only, which cannot
    raise. *)
Theorem simulated_entities_come_from_context :
  (forall (q : string) (context : Collections) (r : AISearchResult),
      simulateAIResponse q context = Ok r ->
      exists records what conf,
        r = {| entities := Found records;
               explanation :=
                 VString ("Found " ++ decimal (N.of_nat (length records)) ++ what);
               confidence := VNumber (Finite false conf (-1)) |} /\
        (forall e, In e records ->
           In e (clientRecords context) \/ In e (workerRecords context) \/
           In e (taskRecords context)) /\
        (usesGenericSearch (toLowerCase q) = true -> conf = 6%N) /\
        (usesGenericSearch (toLowerCase q) = false -> conf = 8%N)) /\
  (forall (q : string) (context : Collections),
      dataHasNoObject context = true ->
      exists r, simulateAIResponse q context = Ok r).
Proof.
  split.
  - intros q context r Hr.
    destruct (simulateAIResponse_found q context)
      as (records & what & conf & Hsim & Hin & Hconf & Hgen).
    exists records, what, conf. split; [| split; [| split]].
    + rewrite Hsim in Hr. now injection Hr as <-.
    + intros e He. specialize (Hin e He). rewrite !in_app_iff in Hin. exact Hin.
    + apply Hgen.
    + intros Hno. destruct Hconf as [H6 | H8]; [| exact H8].
      apply Hgen in H6. congruence.
  - intros q context _.
    destruct (simulateAIResponse_found q context) as (records & what & conf & Hsim & _).
    eexists. exact Hsim.
Qed.

(** The search for clients of high priority among two clients. *)
Lemma priority_search_finds_one_client :
  dataHasNoObject twoClients = true /\
  exists r records,
    simulateAIResponse "Client priority" twoClients = Ok r /\
    entities r = Found records /\
    (forall e, In e records ->
       In e (clientRecords twoClients) \/ In e (workerRecords twoClients) \/
       In e (taskRecords twoClients)) /\
    confidence r = VNumber (Finite false 8 (-1)).
Proof.
  split; [reflexivity |].
  destruct (proj2 simulated_entities_come_from_context "Client priority" twoClients
              eq_refl) as [r Hr].
  destruct (proj1 simulated_entities_come_from_context "Client priority" twoClients r Hr)
    as (records & what & conf & Heq & Hin & _ & Hconf).
  exists r, records. split; [exact Hr |]. rewrite Heq.
  split; [reflexivity |]. split; [exact Hin |].
  simpl. now rewrite (Hconf eq_refl).
Defined.

(** When no keyword test applies, only the first word of the query
    counts: two such queries with the same first word, case apart, give
    the same result. *)
Theorem generic_search_uses_first_word :
  forall (q1 q2 : string) (context : Collections),
    usesGenericSearch (toLowerCase q1) = true ->
    usesGenericSearch (toLowerCase q2) = true ->
    firstWord (toLowerCase q1) = firstWord (toLowerCase q2) ->
    simulateAIResponse q1 context = simulateAIResponse q2 context.
Proof.
  intros q1 q2 context H1 H2 Hw.
  assert (Hgen : forall q, usesGenericSearch (toLowerCase q) = true ->
            simulateAIResponse q context =
            Ok {| entities :=
                    Found (filter (mentions (firstWord (toLowerCase q)))
                             (clientRecords context ++ workerRecords context
                              ++ taskRecords context)%list);
                  explanation :=
                    found (length (filter (mentions (firstWord (toLowerCase q)))
                             (clientRecords context ++ workerRecords context
                              ++ taskRecords context)%list))
                          " items matching your search criteria.";
                  confidence := VNumber (Finite false 6 (-1)) |}).
  { intros q Hq. unfold usesGenericSearch in Hq. unfold simulateAIResponse.
    repeat (apply andb_true_iff in Hq; destruct Hq as [Hq ?]).
    repeat match goal with
           | H : negb ?b = true |- _ => apply negb_true_iff in H; rewrite H; clear H
           end.
    reflexivity. }
  now rewrite (Hgen q1 H1), (Hgen q2 H2), Hw.
Qed.

(** The queries ["Acme Corp"] and ["acme holdings"] give the same
    result. *)
Lemma acme_queries_agree :
  usesGenericSearch (toLowerCase "Acme Corp") = true /\
  firstWord (toLowerCase "Acme Corp") = "acme" /\
  firstWord (toLowerCase "acme holdings") = "acme" /\
  simulateAIResponse "Acme Corp"
    {| clientRecords := [[("ClientName", VString "Acme")]]; workerRecords := [];
       taskRecords := [] |}
  = simulateAIResponse "acme holdings"
      {| clientRecords := [[("ClientName", VString "Acme")]]; workerRecords := [];
         taskRecords := [] |}.
Proof.
  split; [reflexivity |]. split; [reflexivity |]. split; [reflexivity |].
  apply generic_search_uses_first_word; reflexivity.
Defined.

Lemma processQueryWithAI_ok (fetch : string -> Collections -> FetchOutcome)
  (q : string) (data : Collections) :
  exists r, processQueryWithAI fetch q data = Ok r /\ toBoolean (explanation r) = true.
Proof.
  assert (Hsim : exists r, simulateAIResponse q data = Ok r /\
                           toBoolean (explanation r) = true).
  { destruct (simulateAIResponse_found q data) as (records & what & conf & H & _).
    eexists. split; [exact H | reflexivity]. }
  unfold processQueryWithAI.
  destruct (fetch q data) as [|[] [| |answer]]; try exact Hsim.
  eexists. split; [reflexivity |]. simpl. unfold orElse.
  now destruct (toBoolean (getProp answer "explanation")) eqn:E.
Qed.







End SearchFacts.

(* ===================================================================== *)
(** ** The validation panel *)
(* ===================================================================== *)

Module ValidationFacts.
Import ValidationPanel.

Lemma fold_increment (errors : list ValidationError) (stats : Stats) (s : Severity) :
  fold_left (fun st e => increment st (severity e)) errors stats s
  = stats s + length (filter (fun e => Severity_eqb (severity e) s) errors).
Proof.
  revert stats. induction errors as [|e errors IH]; intros stats; simpl; [lia |].
  rewrite IH. unfold increment. destruct s, (severity e); simpl; lia.
Qed.

(** The counter the panel shows for a severity is the number of entries
    listed when that severity is chosen as the filter, and the three
    counters add up to the number of all entries, which is what the
    filter ['all'] lists. *)
Theorem counters_match_the_filtered_list :
  forall (errors : list ValidationError),
    (forall s, errorStats errors s = length (filteredErrors (only s) errors)) /\
    errorStats errors error + errorStats errors warning + errorStats errors info
    = length errors /\
    filteredErrors all errors = errors.
Proof.
  intros errors.
  assert (Hcount : forall s,
            errorStats errors s = length (filteredErrors (only s) errors)).
  { intros s. unfold errorStats. rewrite fold_increment. reflexivity. }
  split; [exact Hcount |]. split; [| reflexivity].
  rewrite !Hcount. unfold filteredErrors.
  clear Hcount. induction errors as [|e errors IH]; simpl; [reflexivity |].
  destruct (severity e); simpl; lia.
Qed.

End ValidationFacts.

(* ===================================================================== *)
(** ** The rule builder *)
(* ===================================================================== *)

Module RuleFacts.
Import JS RuleBuilder.

Lemma delete_absent (deleted : string) (rules : list BusinessRule) :
  (forall r, In r rules -> id r <> deleted) -> handleDeleteRule deleted rules = rules.
Proof.
  unfold handleDeleteRule. induction rules as [|r rules IH]; intros H; simpl;
    [reflexivity |].
  assert (Hr : id r <> deleted) by (apply H; now left).
  apply String.eqb_neq in Hr. rewrite Hr. simpl. f_equal.
  apply IH. intros r' Hr'. apply H. now right.
Qed.

(** Deleting a rule removes every rule with that id and no other, in
    place.  Saving a new rule appends one rule whose id is made of the
    clock; deleting that id afterwards gives the rules back when no other
    rule had the id, and otherwise removes those rules as well. *)
Theorem created_rule_can_be_deleted :
  forall (now : N) (formData : RuleFormData) (rules : list BusinessRule),
    (forall deleted rule,
        In rule (handleDeleteRule deleted rules) <-> In rule rules /\ id rule <> deleted) /\
    (exists newRule,
        handleSaveRule now formData None rules = (rules ++ [newRule])%list /\
        id newRule = "rule-" ++ decimal now /\
        name newRule = formName formData /\
        parameters newRule = formParameters formData) /\
    handleDeleteRule ("rule-" ++ decimal now) (handleSaveRule now formData None rules)
    = handleDeleteRule ("rule-" ++ decimal now) rules /\
    ((forall r, In r rules -> id r <> "rule-" ++ decimal now) ->
     handleDeleteRule ("rule-" ++ decimal now) (handleSaveRule now formData None rules)
     = rules).
Proof.
  intros now formData rules.
  assert (Hdel : handleDeleteRule ("rule-" ++ decimal now)
                   (handleSaveRule now formData None rules)
                 = handleDeleteRule ("rule-" ++ decimal now) rules).
  { unfold handleSaveRule, handleDeleteRule. rewrite filter_app. simpl.
    rewrite String.eqb_refl. simpl. apply app_nil_r. }
  split; [| split; [| split]].
  - intros deleted rule. unfold handleDeleteRule. rewrite filter_In.
    rewrite negb_true_iff, String.eqb_neq. reflexivity.
  - eexists. split; [reflexivity |]. repeat split.
  - exact Hdel.
  - intros Hfresh. rewrite Hdel. now apply delete_absent.
Qed.

(** Two rules, none with the id made of the clock value 7. *)
Lemma create_then_delete :
  handleDeleteRule ("rule-" ++ decimal 7)
    (handleSaveRule 7 sampleForm None [sampleRule; sampleRule])
  = [sampleRule; sampleRule].
Proof.
  apply (created_rule_can_be_deleted 7 sampleForm [sampleRule; sampleRule]).
  intros r Hr. simpl in Hr. destruct Hr as [<- | [<- | []]]; discriminate.
Defined.

(** Saving an edited rule keeps the number and the order of the rules:
    every rule with the id of the edited rule is replaced by the rule
    made from the form, every other rule stays where it is; the new rule
    carries the fields of the form and, when the edited id is not empty,
    that id.  When no rule has the edited id, nothing changes. *)
Theorem edited_rule_is_replaced_in_place :
  forall (now : N) (formData : RuleFormData) (edited : BusinessRule)
         (rules : list BusinessRule),
  exists newRule,
    length (handleSaveRule now formData (Some edited) rules) = length rules /\
    (forall i rule, nth_error rules i = Some rule ->
       nth_error (handleSaveRule now formData (Some edited) rules) i
       = Some (if String.eqb (id rule) (id edited) then newRule else rule)) /\
    (id edited <> EmptyString -> id newRule = id edited) /\
    type newRule = formType formData /\
    name newRule = formName formData /\
    description newRule = formDescription formData /\
    enabled newRule = formEnabled formData /\
    priority newRule = formPriority formData /\
    parameters newRule = formParameters formData /\
    naturalLanguage newRule = formNaturalLanguage formData /\
    ((forall r, In r rules -> id r <> id edited) ->
     handleSaveRule now formData (Some edited) rules = rules).
Proof.
  intros now formData edited rules. eexists. unfold handleSaveRule.
  split; [apply length_map |].
  split; [intros i rule Hi; exact (map_nth_error _ _ _ Hi) |].
  split; [| repeat split].
  - intros Hne. simpl. apply String.eqb_neq in Hne. now rewrite Hne.
  - intros Habsent. rewrite <- (map_id rules) at 2. apply map_ext_in.
    intros r Hr. assert (Hne := Habsent r Hr). apply String.eqb_neq in Hne.
    now rewrite Hne.
Qed.

(** Editing the second of three rules. *)
Lemma edit_second_rule :
  exists newRule,
    nth_error
      (handleSaveRule 7 sampleForm
         (Some {| id := "rule-2"; type := coRun; name := "old"; description := "";
                  enabled := true; priority := one; parameters := [];
                  naturalLanguage := None |})
         [sampleRule;
          {| id := "rule-2"; type := coRun; name := "old"; description := "";
             enabled := true; priority := one; parameters := [];
             naturalLanguage := None |};
          sampleRule]) 1 = Some newRule /\
    id newRule = "rule-2" /\ name newRule = "limit".
Proof.
  destruct (edited_rule_is_replaced_in_place 7 sampleForm
              {| id := "rule-2"; type := coRun; name := "old"; description := "";
                 enabled := true; priority := one; parameters := [];
                 naturalLanguage := None |}
              [sampleRule;
               {| id := "rule-2"; type := coRun; name := "old"; description := "";
                  enabled := true; priority := one; parameters := [];
                  naturalLanguage := None |};
               sampleRule])
    as (newRule & _ & Hnth & Hid & _ & Hname & _).
  exists newRule. split.
  - apply (Hnth 1 {| id := "rule-2"; type := coRun; name := "old"; description := "";
                     enabled := true; priority := one; parameters := [];
                     naturalLanguage := None |}).
    reflexivity.
  - split; [apply Hid; discriminate | exact Hname].
Defined.

End RuleFacts.

(* ===================================================================== *)
(** ** From the import to the grid *)
(* ===================================================================== *)

Module ImportedData.
Import JS JSFacts FileUpload FileUploadFacts DataGrid.

(** A list field that was text in the row is never empty after coercion:
    it holds one piece per comma and one more, so an empty text gives the
    list of one empty string (of one [NaN] for a numeric list); the
    pieces of a text list are trimmed and free of commas. *)
Theorem imported_text_list_shape :
  forall (t : entityType) (row : object) (index : nat) (f : string) (numeric : bool)
         (s : string),
    In (f, numeric) (listFields t) ->
    getProp row f = VString s ->
    exists r piece pieces,
      processRow t row index = Ok r /\
      split "," s = piece :: pieces /\
      getProp r f = VArray (coercePiece numeric piece :: map (coercePiece numeric) pieces) /\
      (numeric = false ->
       getProp r f = VArray (map VString (trim piece :: map trim pieces)) /\
       Forall (fun p => trim p = p /\ occurs "," p = false)
              (trim piece :: map trim pieces)) /\
      (s = EmptyString ->
       getProp r f = VArray [if numeric then VNumber NaN else VString EmptyString]).
Proof.
  intros t row index f numeric s Hf Hraw.
  destruct (processRow_spec t row index) as (r & Hr & _ & Hlist & _ & _).
  assert (Hne := split_nonempty "," s).
  destruct (split "," s) as [|piece pieces] eqn:Es; [congruence |].
  exists r, piece, pieces. split; [exact Hr |]. split; [reflexivity |].
  assert (Hv : getProp r f
               = VArray (coercePiece numeric piece :: map (coercePiece numeric) pieces)).
  { rewrite (Hlist f numeric Hf), Hraw. simpl. now rewrite Es. }
  split; [exact Hv |]. split.
  - intros ->. split.
    + rewrite Hv. simpl. now rewrite map_map.
    + assert (Hp := split_pieces "," s). rewrite Es in Hp.
      change (trim piece :: map trim pieces) with (map trim (piece :: pieces)).
      apply Forall_map. eapply Forall_impl; [| exact Hp].
      intros p Hpc. split; [apply trim_idempotent | now apply occurs_trim].
  - intros ->. rewrite Hv. simpl in Es. injection Es as <- <-.
    now destruct numeric.
Qed.

(** A worker whose skills cell is empty. *)
Lemma empty_skills_cell :
  exists r,
    processRow workers [("Skills", VString "")] 0 = Ok r /\
    getProp r "Skills" = VArray [VString ""].
Proof.
  destruct (imported_text_list_shape workers [("Skills", VString "")] 0 "Skills" false "")
    as (r & piece & pieces & Hr & _ & _ & _ & Hempty).
  - simpl. left. reflexivity.
  - reflexivity.
  - exists r. split; [exact Hr | exact (Hempty eq_refl)].
Defined.

Lemma own_when_defined (o : object) (k : string) :
  objectPrototype k = None -> getProp o k <> VUndefined -> In k (keys o).
Proof.
  intros Hp Hv. apply lookupOwn_keys. unfold getProp in Hv.
  destruct (lookupOwn o k); [discriminate |]. now rewrite Hp in Hv.
Qed.

(** The synthesized id is one of the values the grid searches: an
    imported record is shown for every search term that its id
    [temp-<index>] contains, whatever its other fields hold. *)
Theorem imported_id_is_searched :
  forall (rawData : list object) (t : entityType),
  exists records,
    processData (mapHeaders rawData t) t = Ok records /\
    forall (i : nat) (r : object) (term : string),
      nth_error records i = Some r ->
      (exists a b, "temp-" ++ decimal (N.of_nat i) = a ++ toLowerCase term ++ b) ->
      In r (filtered records term).
Proof.
  intros rawData t.
  destruct (import_ids_are_synthesized rawData t) as (records & Hok & _ & Hids).
  exists records. split; [exact Hok |].
  intros i r term Hr Hsub. unfold filtered. apply filter_In.
  split; [eapply nth_error_In; eassumption |].
  assert (Hid := Hids i r Hr).
  unfold matchesSearch, values. apply existsb_exists.
  exists (getProp r "id"). split.
  - apply in_map. apply own_when_defined; [reflexivity |]. rewrite Hid. discriminate.
  - rewrite Hid.
    change (toString (VString ("temp-" ++ decimal (N.of_nat i))))
      with ("temp-" ++ decimal (N.of_nat i)).
    assert (Hlow : toLowerCase ("temp-" ++ decimal (N.of_nat i))
                   = "temp-" ++ decimal (N.of_nat i)).
    { assert (Hdigits : forall d, toLowerCase (NilEmpty.string_of_uint d)
                                  = NilEmpty.string_of_uint d).
      { induction d; simpl; try reflexivity; now rewrite IHd. }
      unfold decimal, NilZero.string_of_uint. simpl.
      destruct (N.to_uint (N.of_nat i)); try reflexivity;
        simpl; now rewrite Hdigits. }
    rewrite Hlow. now apply includes_spec.
Qed.

(** The second imported client is found by the term ["TEMP-1"]. *)
Lemma second_client_found_by_id :
  exists records r,
    processData (mapHeaders [[("ClientName", VString "A")]; [("ClientName", VString "B")]]
                            clients) clients = Ok records /\
    nth_error records 1 = Some r /\
    In r (filtered records "TEMP-1").
Proof.
  destruct (imported_id_is_searched
              [[("ClientName", VString "A")]; [("ClientName", VString "B")]] clients)
    as (records & Hok & Hfound).
  assert (Hrec : exists r, nth_error records 1 = Some r).
  { vm_compute in Hok. injection Hok as <-. eexists. reflexivity. }
  destruct Hrec as [r Hr].
  exists records, r. split; [exact Hok |]. split; [exact Hr |].
  apply (Hfound 1 r "TEMP-1" Hr).
  exists EmptyString, EmptyString. reflexivity.
Defined.

(** The import creates no object.  When the rows the parsers delivered
    hold text, numbers, booleans, [null] or arrays of these, and no
    plain object, so do the rows with renamed columns and the records of
    the three collections: what the coercer adds is text, numbers and
    arrays of these. *)
Theorem import_creates_no_object :
  forall (clientsRaw workersRaw tasksRaw : list object),
    forallb rowHasNoObject clientsRaw = true ->
    forallb rowHasNoObject workersRaw = true ->
    forallb rowHasNoObject tasksRaw = true ->
    forallb rowHasNoObject (mapHeaders clientsRaw clients) = true /\
    forallb rowHasNoObject (mapHeaders workersRaw workers) = true /\
    forallb rowHasNoObject (mapHeaders tasksRaw tasks) = true /\
    exists cs ws ts,
      processData (mapHeaders clientsRaw clients) clients = Ok cs /\
      processData (mapHeaders workersRaw workers) workers = Ok ws /\
      processData (mapHeaders tasksRaw tasks) tasks = Ok ts /\
      AISearch.dataHasNoObject
        {| clientRecords := cs; workerRecords := ws; taskRecords := ts |} = true.
Proof.
  intros clientsRaw workersRaw tasksRaw Hc Hw Ht.
  pose proof (PlainRows.mapHeaders_noObject clientsRaw clients Hc) as Hc'.
  pose proof (PlainRows.mapHeaders_noObject workersRaw workers Hw) as Hw'.
  pose proof (PlainRows.mapHeaders_noObject tasksRaw tasks Ht) as Ht'.
  split; [exact Hc' |]. split; [exact Hw' |]. split; [exact Ht' |].
  destruct (processData_ok (mapHeaders clientsRaw clients) clients) as (cs & Hcs & _).
  destruct (processData_ok (mapHeaders workersRaw workers) workers) as (ws & Hws & _).
  destruct (processData_ok (mapHeaders tasksRaw tasks) tasks) as (ts & Hts & _).
  exists cs, ws, ts. split; [exact Hcs |]. split; [exact Hws |]. split; [exact Hts |].
  unfold AISearch.dataHasNoObject. cbn [clientRecords workerRecords taskRecords].
  rewrite !forallb_app.
  rewrite (PlainRows.processData_noObject _ _ _ Hc' Hcs).
  rewrite (PlainRows.processData_noObject _ _ _ Hw' Hws).
  rewrite (PlainRows.processData_noObject _ _ _ Ht' Hts).
  reflexivity.
Qed.

(** Three small files: the imported collections hold no object. *)
Lemma small_import_has_no_object :
  exists cs ws ts,
    processData (mapHeaders [[("clientid", VString "C1"); ("priority", VString "x")]] clients)
                clients = Ok cs /\
    processData (mapHeaders [[("Skills", VString "go, rust")]] workers) workers = Ok ws /\
    processData (mapHeaders [] tasks) tasks = Ok ts /\
    AISearch.dataHasNoObject
      {| clientRecords := cs; workerRecords := ws; taskRecords := ts |} = true.
Proof.
  exact (proj2 (proj2 (proj2
           (import_creates_no_object
              [[("clientid", VString "C1"); ("priority", VString "x")]]
              [[("Skills", VString "go, rust")]] [] eq_refl eq_refl eq_refl)))).
Defined.

End ImportedData.
